(** * Agent actions router: reference synchronisation between actions and agents

    Shallow embedding of [api/server/routes/agents/actions.js].  The router
    keeps two document collections (actions, agents) in step through string
    references of the shape [domain<delimiter>action_id] (an agent's
    [actions]) and [function<delimiter>domain] (an agent's [tools]).

    The file is organised as the router is: JavaScript string primitives
    first, then the documents and the store, then one definition per route,
    then the properties. *)

From Stdlib Require Import String Ascii List Bool Arith Lia.
From stdpp Require Import base option gmap strings.

Import ListNotations.
Local Open Scope string_scope.
Local Open Scope list_scope.

(* stdpp freezes string concatenation under [simpl]; the proofs below
   compute with it. *)
Local Arguments String.append !_ _ / : simpl nomatch.

(** ** JavaScript string primitives used by the router *)

Module JsString.

(** [s.startsWith(p)]. *)
Fixpoint startsWith (s p : string) {struct p} : bool :=
  match p, s with
  | EmptyString, _ => true
  | String _ _, EmptyString => false
  | String c p', String d s' => if Ascii.eqb c d then startsWith s' p' else false
  end.

(** [s.includes(t)]: [t] occurs in [s] as a contiguous run of code units. *)
Fixpoint includes (s t : string) : bool :=
  startsWith s t ||
  match s with
  | EmptyString => false
  | String _ s' => includes s' t
  end.

(** [s.split(sep)] for a non-empty separator, scanning left to right.
    [skip] counts the code units of a separator occurrence still to be
    stepped over, [cur] is the token read so far. *)
Fixpoint split_aux (sep s : string) (skip : nat) (cur : string) : list string :=
  match s with
  | EmptyString => [cur]
  | String c s' =>
      match skip with
      | S k => split_aux sep s' k cur
      | O =>
          if startsWith s sep
          then cur :: split_aux sep s' (String.length sep - 1) EmptyString
          else split_aux sep s' 0 (cur +:+ String c EmptyString)
      end
  end.

(** [s.split(sep)].  With the empty separator JavaScript returns the code
    units one by one (and the empty array for the empty string). *)
Definition split (s sep : string) : list string :=
  match sep with
  | EmptyString => map (fun c => String c EmptyString) (list_ascii_of_string s)
  | String _ _ => split_aux sep s 0 EmptyString
  end.

(** All of [sep] but its last code unit. *)
Fixpoint init (sep : string) : string :=
  match sep with
  | EmptyString => EmptyString
  | String c EmptyString => EmptyString
  | String c rest => String c (init rest)
  end.

End JsString.

Import JsString.

(** ** JavaScript values and documents *)

(** The scalar values a metadata field or a parsed domain can hold; an
    absent key (or [undefined]) is [None] at the lookup. *)
Inductive JsValue : Type :=
  | JNull
  | JBool (b : bool)
  | JString (s : string).

(** Truthiness, as tested by [if (x)], [!x] and [x && y]. *)
Definition truthy (v : option JsValue) : bool :=
  match v with
  | None | Some JNull => false
  | Some (JBool b) => b
  | Some (JString s) => negb (String.eqb s "")
  end.

(** String conversion, as performed by a template literal and by the
    argument of [includes]. *)
Definition toString (v : option JsValue) : string :=
  match v with
  | None => "undefined"
  | Some JNull => "null"
  | Some (JBool true) => "true"
  | Some (JBool false) => "false"
  | Some (JString s) => s
  end.

(** Action metadata: a JavaScript object used as a map from field names to
    values ([domain], [api_key], [oauth_client_id], ...). *)
Abbreviation Metadata := (gmap string JsValue).

Module Action.
Record t : Type := mk {
  action_id : string;
  metadata : Metadata;
  agent_id : option string;
  user : string;
  functions : list string
}.
End Action.

Module Agent.
(** [actions] and [tools] may be missing from the document; the router
    reads them with a default of the empty array. *)
Record t : Type := mk {
  id : string;
  author : string;
  actions : option (list string);
  tools : option (list string)
}.
End Agent.

Module User.
Record t : Type := mk { id : string; role : string }.
End User.

Record FunctionDef : Type := { name : string }.
Record FunctionTool : Type := { function : FunctionDef }.

(** The parts of the request the router reads besides the path parameters
    (which the routes below take as arguments). *)
Record Req : Type := {
  user : User.t;
  body_functions : list FunctionTool;
  body_metadata : Metadata
}.

Inductive Json : Type :=
  | JMessage (message : string)
  | JError (error : string)
  | JAction (a : Action.t)
  | JActions (l : list Action.t).

Record Response : Type := { status : nat; json : Json }.

(** ** The collaborators the router imports

    [actionDelimiter] and [SystemRoles.ADMIN] are constants of
    [librechat-data-provider]; the functions are services of the
    application.  They are not part of this file of the repository and are
    taken as they come. *)
Class Externals : Type := {
  actionDelimiter : string;
  ADMIN : string;
  removeNullishValues : Metadata -> bool -> Metadata;
  encryptMetadata : Metadata -> Metadata;
  isActionDomainAllowed : option JsValue -> bool;
  domainParser : Req -> option JsValue -> bool -> option JsValue;
  (** the store's [{ $regex: pattern, $options: 'i' }] test on one string *)
  regexTest : string -> string -> bool
}.

(** ** The two collections *)

Record AgentQuery : Type := { q_id : string; q_author : option string }.
Record AgentUpdate : Type := { u_actions : list string; u_tools : list string }.

Record ActionUpdate : Type := {
  u_metadata : Metadata;
  u_agent_id : option string;
  u_user : string;
  u_functions : list string
}.

(** The state of the store: the documents of both collections, and the
    record of the [updateAgent] calls made so far. *)
Record Store : Type := {
  actionDocs : list Action.t;
  agentDocs : list Agent.t;
  agentWrites : list (AgentQuery * AgentUpdate)
}.

Definition agentMatches (q : AgentQuery) (a : Agent.t) : bool :=
  String.eqb (Agent.id a) (q_id q) &&
  match q_author q with
  | None => true
  | Some u => String.eqb (Agent.author a) u
  end.

Definition actionMatches (action_id : string) (a : Action.t) : bool :=
  String.eqb (Action.action_id a) action_id.

Definition applyAgentUpdate (u : AgentUpdate) (a : Agent.t) : Agent.t :=
  Agent.mk (Agent.id a) (Agent.author a) (Some (u_actions u)) (Some (u_tools u)).

Definition applyActionUpdate (u : ActionUpdate) (a : Action.t) : Action.t :=
  Action.mk (Action.action_id a) (u_metadata u)
    (match u_agent_id u with Some x => Some x | None => Action.agent_id a end)
    (u_user u) (u_functions u).

(** Replace the first document that satisfies [p]. *)
Fixpoint updateFirst {A : Type} (p : A -> bool) (f : A -> A) (docs : list A) : list A :=
  match docs with
  | [] => []
  | d :: rest => if p d then f d :: rest else d :: updateFirst p f rest
  end.

(** Remove the first document that satisfies [p]. *)
Fixpoint removeFirst {A : Type} (p : A -> bool) (docs : list A) : list A :=
  match docs with
  | [] => []
  | d :: rest => if p d then rest else d :: removeFirst p rest
  end.

(** ** Route handlers as computations over the store

    A handler body either goes on with a value, has answered the request
    (an early [return res.status(..).json(..)]), or has thrown.  The store
    is threaded through, so whatever was written before a throw stays
    written. *)

Inductive Outcome (A : Type) : Type :=
  | Value (a : A)
  | Returned (r : Response)
  | Thrown (error : string).

Arguments Value {A} a.
Arguments Returned {A} r.
Arguments Thrown {A} error.

Definition Route (A : Type) : Type := Store -> Outcome A * Store.

Definition ret {A : Type} (a : A) : Route A := fun st => (Value a, st).

Definition bind {A B : Type} (m : Route A) (k : A -> Route B) : Route B :=
  fun st =>
    match m st with
    | (Value a, st') => k a st'
    | (Returned r, st') => (Returned r, st')
    | (Thrown e, st') => (Thrown e, st')
    end.

Notation "'let*' x ':=' m 'in' k" := (bind m (fun x => k))
  (at level 10, x name, m at level 100, k at level 200).
Notation "m ';;' k" := (bind m (fun _ => k))
  (at level 100, k at level 200, right associativity).

(** [return res.status(code).json(body)] *)
Definition respond {A : Type} (code : nat) (body : Json) : Route A :=
  fun st => (Returned {| status := code; json := body |}, st).

Definition throw {A : Type} (error : string) : Route A :=
  fun st => (Thrown error, st).

(** [for (const x of xs) { await body(x) }] *)
Fixpoint for_of {A : Type} (xs : list A) (body : A -> Route unit) : Route unit :=
  match xs with
  | [] => ret tt
  | x :: rest => body x ;; for_of rest body
  end.

(** [try { body } catch (error) { res.status(500).json(onError) }] *)
Definition try_catch (body : Route Response) (onError : string -> Json)
  (st : Store) : Response * Store :=
  match body st with
  | (Value r, st') => (r, st')
  | (Returned r, st') => (r, st')
  | (Thrown e, st') => ({| status := 500; json := onError e |}, st')
  end.

(** ** Store operations ([~/models/Action], [~/models/Agent]) *)

Section StoreOperations.

Context `{Externals}.

(** Modelled from the spec: [ActionStore] of section 6, whose
    implementation ([~/models/Action]) is not in this file.  [getActions]
    lists every action; which fields of a document the model layer hands
    out is not visible from the route, and no property below rests on
    it. *)
Definition getActions : Route (list Action.t) :=
  fun st => (Value (actionDocs st), st).

(** Modelled from the spec: [ActionStore.get(id) -> Action?]. *)
Definition getAction (action_id : string) : Route (option Action.t) :=
  fun st => (Value (List.find (actionMatches action_id) (actionDocs st)), st).

(** Modelled from the spec: [ActionStore.upsert(id, fields) -> Action]:
    the matching document is updated, or a new one is inserted; the
    document as stored is returned. *)
Definition updateAction (action_id : string) (u : ActionUpdate) : Route Action.t :=
  fun st =>
    match List.find (actionMatches action_id) (actionDocs st) with
    | Some old =>
        (Value (applyActionUpdate u old),
         {| actionDocs := updateFirst (actionMatches action_id) (applyActionUpdate u) (actionDocs st);
            agentDocs := agentDocs st;
            agentWrites := agentWrites st |})
    | None =>
        let new := Action.mk action_id (u_metadata u) (u_agent_id u) (u_user u) (u_functions u) in
        (Value new,
         {| actionDocs := actionDocs st ++ [new];
            agentDocs := agentDocs st;
            agentWrites := agentWrites st |})
    end.

(** Modelled from the spec: [ActionStore.delete(id) -> Action?]: the
    deleted document, or nothing when there was none. *)
Definition deleteAction (action_id : string) : Route (option Action.t) :=
  fun st =>
    (Value (List.find (actionMatches action_id) (actionDocs st)),
     {| actionDocs := removeFirst (actionMatches action_id) (actionDocs st);
        agentDocs := agentDocs st;
        agentWrites := agentWrites st |}).

(** Modelled from the spec: [AgentStore.get(filter) -> Agent?], the filter
    being [{ id }] or [{ id, author }]. *)
Definition getAgent (q : AgentQuery) : Route (option Agent.t) :=
  fun st => (Value (List.find (agentMatches q) (agentDocs st)), st).

(** Modelled from the spec: [AgentStore.queryMany(filter) -> Agent[]] for
    the filter [{ actions: { $elemMatch: { $regex: action_id, $options: 'i' } } }]. *)
Definition getAgents (action_id : string) : Route (list Agent.t) :=
  fun st =>
    (Value (List.filter
              (fun a => existsb (regexTest action_id) (default [] (Agent.actions a)))
              (agentDocs st)),
     st).

(** Modelled from the spec: [AgentStore.update(filter, fields) -> Agent]:
    the first agent matching the filter gets the new [actions] and
    [tools]; the call is recorded. *)
Definition updateAgent (q : AgentQuery) (u : AgentUpdate) : Route (option Agent.t) :=
  fun st =>
    (Value (option_map (applyAgentUpdate u) (List.find (agentMatches q) (agentDocs st))),
     {| actionDocs := actionDocs st;
        agentDocs := updateFirst (agentMatches q) (applyAgentUpdate u) (agentDocs st);
        agentWrites := agentWrites st ++ [(q, u)] |}).

End StoreOperations.

(** ** The router *)

Section Router.

Context `{Externals}.

(** [const isAdmin = (req) => req.user.role === SystemRoles.ADMIN] *)
Definition isAdmin (req : Req) : bool :=
  String.eqb (User.role (user req)) ADMIN.

(** The template literal [`${domain}${actionDelimiter}${action_id}`]: the
    reference an agent's [actions] holds for a bound action. *)
Definition encodeActionRef (domain action_id : string) : string :=
  domain +:+ actionDelimiter +:+ action_id.

(** The template literal [`${name}${actionDelimiter}${domain}`]: the
    reference an agent's [tools] holds for one function of an action. *)
Definition encodeToolRef (name domain : string) : string :=
  name +:+ actionDelimiter +:+ domain.

(** [action.split(actionDelimiter)] *)
Definition splitActionRef (ref : string) : list string :=
  split ref actionDelimiter.

(** A tool as a condition: [tool && ...] lets the empty string through. *)
Definition truthyString (s : string) : bool := negb (String.eqb s "").

Definition sensitiveFields : list string :=
  ["api_key"; "oauth_client_id"; "oauth_client_secret"].

(** The loop over [sensitiveFields] at the end of the create and update
    routes: a field is deleted when its value is truthy. *)
Definition sanitize (metadata : Metadata) : Metadata :=
  fold_left
    (fun m field => if truthy (m !! field) then base.delete field m else m)
    sensitiveFields metadata.

Definition sanitizeAction (a : Action.t) : Action.t :=
  Action.mk (Action.action_id a) (sanitize (Action.metadata a))
    (Action.agent_id a) (Action.user a) (Action.functions a).

Definition onErrorMessage (message : string) : string -> Json :=
  fun _ => JMessage message.

(** [router.get('/')] *)
Definition get_root (req : Req) : Store -> Response * Store :=
  try_catch
    (let* all := getActions in
     ret {| status := 200; json := JActions all |})
    (fun e => JError e).

(** [router.post('/')]: add an action.  [agent_id] is [req.params.agent_id]
    ([undefined], here [None], on a path without such a parameter) and
    [fresh] the identifier [nanoid()] hands out. *)
Definition post_root (req : Req) (agent_id : option string) (fresh : string)
  : Store -> Response * Store :=
  try_catch
    (let functions := body_functions req in
     let _metadata := body_metadata req in
     if Nat.eqb (List.length functions) 0
     then respond 400 (JMessage "No functions provided")
     else
       let functionNames := map (fun tool => name (function tool)) functions in
       let metadata := encryptMetadata (removeNullishValues _metadata true) in
       let isDomainAllowed := isActionDomainAllowed (metadata !! "domain") in
       if negb isDomainAllowed
       then respond 400 (JMessage "Domain not allowed")
       else
         let domain := domainParser req (metadata !! "domain") true in
         if negb (truthy domain)
         then respond 400 (JMessage "No domain provided")
         else
           let action_id := fresh in
           let actionUpdateData :=
             {| u_metadata := metadata; u_agent_id := agent_id;
                u_user := User.id (user req); u_functions := functionNames |} in
           let* updatedAction := updateAction action_id actionUpdateData in
           ret {| status := 200; json := JAction (sanitizeAction updatedAction) |})
    (onErrorMessage "Trouble updating the Agent Action").

(** [router.delete('/:action_id')]: delete an action and clean every agent
    that refers to it. *)
Definition delete_action (req : Req) (action_id : string)
  : Store -> Response * Store :=
  try_catch
    (let* deletedAction := deleteAction action_id in
     match deletedAction with
     | None =>
         (* [deletedAction.metadata] on [null] *)
         throw "TypeError: Cannot read properties of null (reading 'metadata')"
     | Some deletedAction =>
         let domain := Action.metadata deletedAction !! "domain" in
         let domain := domainParser req domain true in
         let* agents := getAgents action_id in
         for_of agents
           (fun agent =>
              let agentId := Agent.id agent in
              let actions := default [] (Agent.actions agent) in
              let tools := default [] (Agent.tools agent) in
              let updatedActions :=
                List.filter (fun action => negb (includes action action_id)) actions in
              let updatedTools :=
                List.filter
                  (fun tool =>
                     negb (truthyString tool &&
                           (includes tool action_id || includes tool (toString domain))))
                  tools in
              updateAgent {| q_id := agentId; q_author := None |}
                {| u_actions := updatedActions; u_tools := updatedTools |} ;;
              ret tt) ;;
         ret {| status := 200; json := JMessage "Action deleted successfully" |}
     end)
    (onErrorMessage "Trouble deleting the Agent Action").

(** [router.put('/:action_id')]: update an action and re-encode the
    references of every agent that refers to it. *)
Definition put_action (req : Req) (action_id : string)
  : Store -> Response * Store :=
  try_catch
    (let* action := getAction action_id in
     match action with
     | None => respond 404 (JMessage "Action not found")
     | Some action =>
         let oldDomain := Action.metadata action !! "domain" in
         let functions := body_functions req in
         let _metadata := body_metadata req in
         if Nat.eqb (List.length functions) 0
         then respond 400 (JMessage "No functions provided")
         else
           let metadata := encryptMetadata (removeNullishValues _metadata true) in
           let isDomainAllowed := isActionDomainAllowed (metadata !! "domain") in
           if negb isDomainAllowed
           then respond 400 (JMessage "Domain not allowed")
           else
             let domain := domainParser req (metadata !! "domain") true in
             if negb (truthy domain)
             then respond 400 (JMessage "No domain provided")
             else
               let actionUpdateData :=
                 {| u_metadata := metadata; u_agent_id := None;
                    u_user := User.id (user req);
                    u_functions := map (fun tool => name (function tool)) functions |} in
               let* updatedAction := updateAction action_id actionUpdateData in
               let* agents := getAgents action_id in
               for_of agents
                 (fun agent =>
                    let agentId := Agent.id agent in
                    let actions := default [] (Agent.actions agent) in
                    let tools := default [] (Agent.tools agent) in
                    let updatedActions :=
                      List.filter (fun action => negb (includes action action_id)) actions
                      ++ [encodeActionRef (toString domain) action_id] in
                    let updatedTools :=
                      List.filter
                        (fun tool =>
                           negb (truthyString tool &&
                                 (includes tool (toString oldDomain) || includes tool action_id)))
                        tools
                      ++ map (fun tool => encodeToolRef (name (function tool)) (toString domain))
                           functions in
                    updateAgent {| q_id := agentId; q_author := None |}
                      {| u_actions := updatedActions; u_tools := updatedTools |} ;;
                    ret tt) ;;
               ret {| status := 200; json := JAction (sanitizeAction updatedAction) |}
     end)
    (onErrorMessage "Trouble updating the Agent Action").

(** [admin ? { id: agent_id } : { id: agent_id, author: req.user.id }] *)
Definition agentQueryFor (req : Req) (agent_id : string) : AgentQuery :=
  if isAdmin req
  then {| q_id := agent_id; q_author := None |}
  else {| q_id := agent_id; q_author := Some (User.id (user req)) |}.

(** [agentActions.find((a) => a.includes(action_id))], used as a
    condition: the element found, which is falsy when it is the empty
    string. *)
Definition findRef (action_id : string) (agentActions : list string) : option string :=
  List.find (fun a => includes a action_id) agentActions.

(** [router.post('/:agent_id/:action_id')]: add an action to an agent. *)
Definition post_agent_action (req : Req) (agent_id action_id : string)
  : Store -> Response * Store :=
  try_catch
    (let agentQuery := agentQueryFor req agent_id in
     let* agent := getAgent agentQuery in
     match agent with
     | None => respond 404 (JMessage "Agent not found for adding action")
     | Some agent =>
         let* action := getAction action_id in
         match action with
         | None => respond 404 (JMessage "Action not found for adding to agent")
         | Some action =>
             let domain := Action.metadata action !! "domain" in
             let functions := Action.functions action in
             let domain := domainParser req domain true in
             let agentActions := default [] (Agent.actions agent) in
             if negb (truthy (JString <$> findRef action_id agentActions))
             then
               let agentActions :=
                 agentActions ++ [encodeActionRef (toString domain) action_id] in
               let _tools := default [] (Agent.tools agent) in
               let tools :=
                 List.filter
                   (fun tool =>
                      negb (truthyString tool &&
                            (includes tool (toString domain) || includes tool action_id)))
                   _tools
                 ++ map (fun f => encodeToolRef f (toString domain)) functions in
               updateAgent agentQuery {| u_actions := agentActions; u_tools := tools |} ;;
               ret {| status := 200; json := JMessage "Action added successfully" |}
             else
               ret {| status := 200; json := JMessage "Action added successfully" |}
         end
     end)
    (onErrorMessage "Trouble adding the Agent Action").

(** The [actions.filter] callback of the unbind route, which also assigns
    [domain]: the entries without [action_id] are kept, and [domain] ends
    up as the first token of the last entry that has it. *)
Fixpoint scanActions (action_id : string) (actions : list string)
  (domain : option JsValue) : option JsValue * list string :=
  match actions with
  | [] => (domain, [])
  | action :: rest =>
      if includes action action_id
      then scanActions action_id rest (JString <$> hd_error (splitActionRef action))
      else
        let '(domain', kept) := scanActions action_id rest domain in
        (domain', action :: kept)
  end.

(** [router.delete('/:agent_id/:action_id')]: remove an action from an
    agent. *)
Definition delete_agent_action (req : Req) (agent_id action_id : string)
  : Store -> Response * Store :=
  try_catch
    (let agentQuery := agentQueryFor req agent_id in
     let* agent := getAgent agentQuery in
     match agent with
     | None => respond 404 (JMessage "Agent not found for deleting action")
     | Some agent =>
         let tools := default [] (Agent.tools agent) in
         let actions := default [] (Agent.actions agent) in
         let '(domain, updatedActions) :=
           scanActions action_id actions (Some (JString "")) in
         if negb (truthy domain)
         then respond 400 (JMessage "No domain provided")
         else
           let updatedTools :=
             List.filter
               (fun tool => negb (truthyString tool && includes tool (toString domain)))
               tools in
           updateAgent agentQuery {| u_tools := updatedTools; u_actions := updatedActions |} ;;
           ret {| status := 200; json := JMessage "Action deleted for agent successfully" |}
     end)
    (onErrorMessage "Trouble deleting the Agent Action").

End Router.

(** ** A concrete set of collaborators

    The constants are the ones [librechat-data-provider] publishes
    (['_action_'] and ['ADMIN']).  The services are simple stand-ins with
    the documented shape: null and empty-string fields are dropped,
    encryption keeps the keys, every domain is allowed, the domain parser
    rewrites each dot to the separator ['---'] and gives [undefined] for a
    missing domain, and the store's pattern test is containment up to
    letter case. *)
Module LibreChat.

Fixpoint replaceDots (s : string) : string :=
  match s with
  | EmptyString => EmptyString
  | String c rest =>
      if Ascii.eqb c "."%char
      then "---" +:+ replaceDots rest
      else String c (replaceDots rest)
  end.

Definition lowerChar (c : ascii) : ascii :=
  let n := nat_of_ascii c in
  if Nat.leb 65 n && Nat.leb n 90 then ascii_of_nat (n + 32) else c.

Fixpoint lower (s : string) : string :=
  match s with
  | EmptyString => EmptyString
  | String c rest => String (lowerChar c) (lower rest)
  end.

Definition isNullish (removeEmptyStrings : bool) (v : JsValue) : bool :=
  match v with
  | JNull => true
  | JString s => removeEmptyStrings && String.eqb s ""
  | JBool _ => false
  end.

Definition dropNullish (m : Metadata) (removeEmptyStrings : bool) : Metadata :=
  list_to_map
    (List.filter (fun kv => negb (isNullish removeEmptyStrings (snd kv)))
       (map_to_list m)).

Definition parseDomain (req : Req) (domain : option JsValue) (inverse : bool)
  : option JsValue :=
  match domain with
  | Some (JString s) => if String.eqb s "" then None else Some (JString (replaceDots s))
  | _ => None
  end.

Definition externals : Externals := {|
  actionDelimiter := "_action_";
  ADMIN := "ADMIN";
  removeNullishValues := dropNullish;
  encryptMetadata := fun m => m;
  isActionDomainAllowed := fun _ => true;
  domainParser := parseDomain;
  regexTest := fun pattern subject => includes (lower subject) (lower pattern)
|}.

(** The same collaborators with a domain parser that leaves the domain as
    it is stored. *)
Definition plain : Externals := {|
  actionDelimiter := "_action_";
  ADMIN := "ADMIN";
  removeNullishValues := dropNullish;
  encryptMetadata := fun m => m;
  isActionDomainAllowed := fun _ => true;
  domainParser := fun _ domain _ => domain;
  regexTest := fun pattern subject => includes (lower subject) (lower pattern)
|}.

(** The same collaborators with a domain parser that resolves every
    domain to the empty string. *)
Definition blank : Externals := {|
  actionDelimiter := "_action_";
  ADMIN := "ADMIN";
  removeNullishValues := dropNullish;
  encryptMetadata := fun m => m;
  isActionDomainAllowed := fun _ => true;
  domainParser := fun _ _ _ => Some (JString "");
  regexTest := fun pattern subject => includes (lower subject) (lower pattern)
|}.

(** The same collaborators with a domain parser that rejects a domain
    without a dot by resolving it to the empty string. *)
Definition parseDotted (req : Req) (domain : option JsValue) (inverse : bool)
  : option JsValue :=
  match domain with
  | Some (JString s) =>
      if includes s "." then Some (JString (replaceDots s)) else Some (JString "")
  | _ => Some (JString "")
  end.

Definition dotted : Externals := {|
  actionDelimiter := "_action_";
  ADMIN := "ADMIN";
  removeNullishValues := dropNullish;
  encryptMetadata := fun m => m;
  isActionDomainAllowed := fun _ => true;
  domainParser := parseDotted;
  regexTest := fun pattern subject => includes (lower subject) (lower pattern)
|}.

Definition alice : User.t := User.mk "u-alice" "USER".
Definition bob : User.t := User.mk "u-bob" "USER".
Definition root : User.t := User.mk "u-root" "ADMIN".

Definition request (u : User.t) : Req :=
  {| user := u; body_functions := []; body_metadata := ∅ |}.

Definition asAlice : Req := request alice.
Definition asBob : Req := request bob.
Definition asRoot : Req := request root.

End LibreChat.

(** ** Spec vocabulary for the answers of the router

    Section 7 of the specification names error kinds; the router answers
    with status codes.  A 400 is a validation error unless it is the
    allow-list refusal, a 404 is not-found, and the catch-all 500 is the
    store error. *)
Inductive ErrorKind : Type :=
  | ValidationError
  | DomainNotAllowed
  | NotFound
  | InvalidReferenceFormat
  | StoreError.

Definition isMessage (j : Json) (m : string) : bool :=
  match j with
  | JMessage m' => String.eqb m' m
  | _ => false
  end.

Definition errorKind (r : Response) : option ErrorKind :=
  match status r with
  | 200 => None
  | 400 => if isMessage (json r) "Domain not allowed"
           then Some DomainNotAllowed else Some ValidationError
  | 404 => Some NotFound
  | _ => Some StoreError
  end.

(** ** Vocabulary of the properties *)

Section Vocabulary.

Context `{Externals}.

(** The agent a bind or unbind request gets from the store: the first one
    with the requested id, and for a non-admin also with the requester as
    author. *)
Definition visibleAgent (req : Req) (agent_id : string) (st : Store) : option Agent.t :=
  List.find (agentMatches (agentQueryFor req agent_id)) (agentDocs st).

Definition storedAction (action_id : string) (st : Store) : option Action.t :=
  List.find (actionMatches action_id) (actionDocs st).

(** An agent's reference lists, read the way the router reads them. *)
Definition actionRefs (a : Agent.t) : list string := default [] (Agent.actions a).
Definition toolRefs (a : Agent.t) : list string := default [] (Agent.tools a).

(** The entries of a reference list that contain [id]. *)
Definition refsTo (id : string) (refs : list string) : list string :=
  List.filter (fun ref => includes ref id) refs.

(** The filter [{ id: agent_id }]. *)
Definition byId (agent_id : string) : Agent.t -> bool :=
  agentMatches {| q_id := agent_id; q_author := None |}.

(** One round of the loop over [sensitiveFields]. *)
Definition strip (m : Metadata) (field : string) : Metadata :=
  if truthy (m !! field) then base.delete field m else m.

(** The store after the loop [for (const agent of agents)] whose body
    writes the update [mk agent] to the agent with that agent's id. *)
Definition cascade (mk : Agent.t -> AgentUpdate) (agents : list Agent.t) (st : Store) : Store :=
  fold_left
    (fun st agent =>
       snd (updateAgent {| q_id := Agent.id agent; q_author := None |} (mk agent) st))
    agents st.

(** What the loop of the update route writes to one agent. *)
Definition updatedRefs (action_id : string) (oldDomain domain : option JsValue)
  (functions : list FunctionTool) (agent : Agent.t) : AgentUpdate :=
  {| u_actions :=
       List.filter (fun action => negb (includes action action_id)) (actionRefs agent)
       ++ [encodeActionRef (toString domain) action_id];
     u_tools :=
       List.filter
         (fun tool =>
            negb (truthyString tool &&
                  (includes tool (toString oldDomain) || includes tool action_id)))
         (toolRefs agent)
       ++ map (fun tool => encodeToolRef (name (function tool)) (toString domain)) functions |}.

(** What the loop of the delete route writes to one agent. *)
Definition cleanedRefs (action_id : string) (domain : option JsValue) (agent : Agent.t)
  : AgentUpdate :=
  {| u_actions :=
       List.filter (fun action => negb (includes action action_id)) (actionRefs agent);
     u_tools :=
       List.filter
         (fun tool =>
            negb (truthyString tool &&
                  (includes tool action_id || includes tool (toString domain))))
         (toolRefs agent) |}.

(** The agents the store hands to both loops. *)
Definition referringAgents (action_id : string) (st : Store) : list Agent.t :=
  List.filter (fun a => existsb (regexTest action_id) (actionRefs a)) (agentDocs st).

End Vocabulary.

(** ** Sequences of operations and Invariant A *)

Section Operations.

Context `{Externals}.

(** The four operations that rewrite an agent's references, each with the
    request it is made with. *)
Inductive Operation : Type :=
  | Bind (req : Req) (agent_id action_id : string)
  | Unbind (req : Req) (agent_id action_id : string)
  | Update (req : Req) (action_id : string)
  | Delete (req : Req) (action_id : string).

Definition perform (op : Operation) : Store -> Response * Store :=
  match op with
  | Bind req agent_id action_id => post_agent_action req agent_id action_id
  | Unbind req agent_id action_id => delete_agent_action req agent_id action_id
  | Update req action_id => put_action req action_id
  | Delete req action_id => delete_action req action_id
  end.

Definition performAll (ops : list Operation) (st : Store) : Store :=
  fold_left (fun st op => snd (perform op st)) ops st.

(** The action id an operation is about. *)
Definition target (op : Operation) : string :=
  match op with
  | Bind _ _ action_id | Unbind _ _ action_id
  | Update _ action_id | Delete _ action_id => action_id
  end.

(** The action reference an operation encodes when it gets that far: bind
    encodes the parsed domain of the stored action, update the parsed
    domain of the metadata in the request; unbind and delete encode
    nothing. *)
Definition encodedRef (op : Operation) (st : Store) : option string :=
  match op with
  | Bind req _ action_id =>
      match storedAction action_id st with
      | Some action =>
          Some (encodeActionRef
                  (toString (domainParser req (Action.metadata action !! "domain") true))
                  action_id)
      | None => None
      end
  | Update req action_id =>
      let metadata := encryptMetadata (removeNullishValues (body_metadata req) true) in
      Some (encodeActionRef (toString (domainParser req (metadata !! "domain") true)) action_id)
  | Unbind _ _ _ | Delete _ _ => None
  end.

(** At most one entry of [refs] contains each id of the set. *)
Definition single (ids : string -> Prop) (refs : list string) : Prop :=
  forall id, ids id -> List.length (refsTo id refs) <= 1.

(** Invariant A over a set of action ids: no agent has two [actions]
    entries that contain the same id of the set. *)
Definition invariantA (ids : string -> Prop) (st : Store) : Prop :=
  forall agent, In agent (agentDocs st) -> single ids (actionRefs agent).

(** Along the run of [ops] from [st], no encoded reference contains an id
    of the set other than the id it is encoded for. *)
Fixpoint noCollision (ids : string -> Prop) (ops : list Operation) (st : Store) : Prop :=
  match ops with
  | [] => True
  | op :: rest =>
      (forall ref id, encodedRef op st = Some ref -> ids id -> id <> target op ->
                      includes ref id = false) /\
      noCollision ids rest (snd (perform op st))
  end.

End Operations.

(** ** The reference codec in the specification's words *)

Section SpecCodec.

Context `{Externals}.

(** Follows the spec's words (section 3, "Tool reference:
    functionName<DELIM>domain"): the domain component of a tool reference
    is the token after the delimiter. *)
Definition toolRefDomain (ref : string) : option string :=
  nth_error (split ref actionDelimiter) 1.

(** Follows the spec's words (Unbind, step 3): "remove every toolRefs
    entry whose domain equals the extracted domain". *)
Definition spec_unbindTools (domain : string) (tools : list string) : list string :=
  List.filter
    (fun tool =>
       match toolRefDomain tool with
       | Some d => negb (String.eqb d domain)
       | None => true
       end)
    tools.

(** Follows the spec's words (section 3): the codec enforces that the
    delimiter occurs in neither part, "failing with InvalidReferenceFormat
    otherwise". *)
Definition spec_encodeActionRef (domain action_id : string) : ErrorKind + string :=
  if includes domain actionDelimiter || includes action_id actionDelimiter
  then inl InvalidReferenceFormat
  else inr (domain +:+ actionDelimiter +:+ action_id).

End SpecCodec.

(** ** Sample stores *)

Module Samples.

Import LibreChat.

(** Two actions, whose parsed domains are [ab---io] and [x---ab---io],
    and an agent of alice's. *)
Definition twoActions : Store :=
  {| actionDocs :=
       [Action.mk "abc" {[ "domain" := JString "ab.io" ]} None "u-alice" ["lookup"];
        Action.mk "xyz" {[ "domain" := JString "x.ab.io" ]} None "u-alice" ["search"]];
     agentDocs := [Agent.mk "A1" "u-alice" None None];
     agentWrites := [] |}.

(** The store after alice has bound both actions to her agent: the agent
    holds [ab---io_action_abc] and [x---ab---io_action_xyz], and the tools
    [lookup_action_ab---io] and [search_action_x---ab---io]. *)
Definition twoDomains : Store :=
  performAll (H := externals)
    [Bind asAlice "A1" "abc"; Bind asAlice "A1" "xyz"] twoActions.

(** One action and one agent of alice's, not bound yet. *)
Definition unbound : Store :=
  {| actionDocs :=
       [Action.mk "abc" {[ "domain" := JString "ab.io"; "api_key" := JString "k" ]}
          None "u-alice" ["lookup"]];
     agentDocs := [Agent.mk "A1" "u-alice" None None];
     agentWrites := [] |}.

(** Two actions with identifiers of the shape [nanoid()] hands out, both
    served from [localhost], and an agent of alice's bound to neither. *)
Definition firstId : string := "lhost_action_V1StGXR8".
Definition secondId : string := "V1StGXR8_Z5jdHi6B-myT".

Definition collision : Store :=
  {| actionDocs :=
       [Action.mk firstId {[ "domain" := JString "localhost" ]} None "u-alice" ["ping"];
        Action.mk secondId {[ "domain" := JString "localhost" ]} None "u-alice" ["pong"]];
     agentDocs := [Agent.mk "A1" "u-alice" None None];
     agentWrites := [] |}.

(** An action whose stored domain holds the delimiter. *)
Definition delimited : Store :=
  {| actionDocs :=
       [Action.mk "abc" {[ "domain" := JString "a_action_b" ]} None "u-alice" ["lookup"]];
     agentDocs := [Agent.mk "A1" "u-alice" None None];
     agentWrites := [] |}.

(** Two actions and an agent of alice's bound to neither.  The domain of
    the first has no dot; the domain of the second, once its dot is
    rewritten, contains the identifier of the first. *)
Definition shadowed : Store :=
  {| actionDocs :=
       [Action.mk "abc" {[ "domain" := JString "localhost" ]} None "u-alice" ["lookup"];
        Action.mk "xyz" {[ "domain" := JString "abc.io" ]} None "u-alice" ["search"]];
     agentDocs := [Agent.mk "A1" "u-alice" None None];
     agentWrites := [] |}.

Definition empty : Store :=
  {| actionDocs := []; agentDocs := []; agentWrites := [] |}.

(** A create or update request of alice's for one function [lookup]. *)
Definition withBody (metadata : Metadata) : Req :=
  {| user := alice;
     body_functions := [ {| function := {| name := "lookup" |} |} ];
     body_metadata := metadata |}.

End Samples.

(** ** The router as a whole *)

Section Requests.

Context `{Externals}.

(** A request to one of the six routes, with its path parameters (and,
    for the create route, the identifier [nanoid()] hands out). *)
Inductive Request : Type :=
  | ListActions (req : Req)
  | CreateAction (req : Req) (agent_id : option string) (fresh : string)
  | DeleteAction (req : Req) (action_id : string)
  | UpdateAction (req : Req) (action_id : string)
  | BindAction (req : Req) (agent_id action_id : string)
  | UnbindAction (req : Req) (agent_id action_id : string).

Definition serve (r : Request) : Store -> Response * Store :=
  match r with
  | ListActions req => get_root req
  | CreateAction req agent_id fresh => post_root req agent_id fresh
  | DeleteAction req action_id => delete_action req action_id
  | UpdateAction req action_id => put_action req action_id
  | BindAction req agent_id action_id => post_agent_action req agent_id action_id
  | UnbindAction req agent_id action_id => delete_agent_action req agent_id action_id
  end.

Definition serveAll (requests : list Request) (st : Store) : Store :=
  fold_left (fun st r => snd (serve r st)) requests st.

(** The agents of the store as the router cannot change them: their ids
    and authors, in order. *)
Definition agentIdentities (st : Store) : list (string * string) :=
  map (fun a => (Agent.id a, Agent.author a)) (agentDocs st).

(** The same store with another action collection. *)
Definition withActions (actions : list Action.t) (st : Store) : Store :=
  {| actionDocs := actions; agentDocs := agentDocs st; agentWrites := agentWrites st |}.

End Requests.

(** ** More sample collaborators and stores *)

Module MoreSamples.

Import LibreChat Samples.

(** Collaborators whose allow-list refuses every domain. *)
Definition closed : Externals := {|
  actionDelimiter := "_action_";
  ADMIN := "ADMIN";
  removeNullishValues := dropNullish;
  encryptMetadata := fun m => m;
  isActionDomainAllowed := fun _ => false;
  domainParser := parseDomain;
  regexTest := fun pattern subject => includes (lower subject) (lower pattern)
|}.

(** A create or update request of bob's for one function [lookup]. *)
Definition bobWithBody (metadata : Metadata) : Req :=
  {| user := bob;
     body_functions := [ {| function := {| name := "lookup" |} |} ];
     body_metadata := metadata |}.

(** The store after alice has bound the action of [unbound] to her agent. *)
Definition bound : Store :=
  snd (post_agent_action (H := externals) asAlice "A1" "abc" unbound).

(** An agent of alice's with two entries for the same action, left by
    bindings under two domains, and the tools of both. *)
Definition twice : Store :=
  {| actionDocs :=
       [Action.mk "abc" {[ "domain" := JString "cd.io" ]} None "u-alice" ["lookup"]];
     agentDocs :=
       [Agent.mk "A1" "u-alice"
          (Some ["ab---io_action_abc"; "cd---io_action_abc"])
          (Some ["lookup_action_ab---io"; "lookup_action_cd---io"])];
     agentWrites := [] |}.

(** The agent of [twoActions] after alice has bound the second action
    only. *)
Definition onlyXyz : Store :=
  snd (post_agent_action (H := externals) asAlice "A1" "xyz" twoActions).

(** Alice's agent, bound to the action, and an agent of bob's. *)
Definition aliceAgent : Agent.t :=
  Agent.mk "A1" "u-alice" (Some ["ab---io_action_abc"]) (Some ["lookup_action_ab---io"]).

Definition bobAgent : Agent.t :=
  Agent.mk "A2" "u-bob" (Some ["zz---io_action_other"]) (Some ["ping_action_zz---io"]).

Definition twoAgents : Store :=
  {| actionDocs :=
       [Action.mk "abc" {[ "domain" := JString "ab.io" ]} None "u-alice" ["lookup"]];
     agentDocs := [aliceAgent; bobAgent];
     agentWrites := [] |}.

End MoreSamples.

(** * Properties *)

(** ** Examples of the string primitives *)

Example includes_ex1 : includes "api_action_abc" "abc" = true.
Proof. reflexivity. Qed.
Example includes_ex2 : includes "api_action_abc" "" = true.
Proof. reflexivity. Qed.
Example includes_ex3 : includes "api_action_abc" "abd" = false.
Proof. reflexivity. Qed.
Example split_ex1 : split "api_action_abc" "_action_" = ["api"; "abc"].
Proof. reflexivity. Qed.
Example split_ex2 : split "" "_action_" = [""].
Proof. reflexivity. Qed.
Example split_ex3 : split "a_action__action_" "_action_" = ["a"; ""; ""].
Proof. reflexivity. Qed.
Example split_ex4 : split "abc" "" = ["a"; "b"; "c"].
Proof. reflexivity. Qed.
Example split_ex5 : split "x_action_action_a" "_action_" = ["x"; "action_a"].
Proof. reflexivity. Qed.

(** ** Facts about the string primitives *)

Section StringFacts.

Lemma append_nil_r (s : string) : s +:+ "" = s.
Proof. induction s as [|c s IH]; simpl; [reflexivity | now rewrite IH]. Qed.

Lemma append_assoc (a b c : string) : (a +:+ b) +:+ c = a +:+ (b +:+ c).
Proof. induction a as [|x a IH]; simpl; [reflexivity | now rewrite IH]. Qed.

Lemma length_append (a b : string) :
  String.length (a +:+ b) = String.length a + String.length b.
Proof. induction a as [|x a IH]; simpl; [reflexivity | now rewrite IH]. Qed.

Lemma startsWith_spec (s p : string) :
  startsWith s p = true <-> exists r, s = p +:+ r.
Proof.
  revert s; induction p as [|c p IH]; intros s; simpl.
  - split; [intros _; now exists s | reflexivity].
  - destruct s as [|d s].
    + split; [discriminate | intros [r Hr]; discriminate].
    + destruct (Ascii.eqb_spec c d) as [->|Hne].
      * rewrite IH. split; intros [r Hr]; exists r; [now rewrite Hr | now inversion Hr].
      * split; [discriminate | intros [r Hr]; simpl in Hr; congruence].
Qed.

Lemma startsWith_app (p r : string) : startsWith (p +:+ r) p = true.
Proof. apply startsWith_spec; now exists r. Qed.

(** Only the first [length p] code units of [s] matter to [s.startsWith(p)]. *)
Lemma startsWith_app_long (s r p : string) :
  String.length p <= String.length s ->
  startsWith (s +:+ r) p = startsWith s p.
Proof.
  revert s; induction p as [|c p IH]; intros s Hlen; [now destruct s|].
  destruct s as [|d s]; simpl in *; [lia|].
  destruct (Ascii.eqb c d); [apply IH; lia | reflexivity].
Qed.

Lemma includes_spec (s t : string) :
  includes s t = true <-> exists u v, s = u +:+ t +:+ v.
Proof.
  induction s as [|c s IH]; simpl.
  - rewrite orb_false_r, startsWith_spec. split.
    + intros [r Hr]. now exists "", r.
    + intros [u [v Huv]]. destruct u; [now exists v | discriminate].
  - rewrite orb_true_iff, startsWith_spec, IH. split.
    + intros [[r Hr] | [u [v Huv]]].
      * now exists "", r.
      * exists (String c u), v. simpl. now rewrite Huv.
    + intros [u [v Huv]]. destruct u as [|d u]; simpl in Huv.
      * left. now exists v.
      * right. exists u, v. now inversion Huv.
Qed.

Lemma includes_refl (s : string) : includes s s = true.
Proof. apply includes_spec. exists "", "". simpl. now rewrite append_nil_r. Qed.

Lemma includes_empty (s : string) : includes s "" = true.
Proof. destruct s; reflexivity. Qed.

Lemma includes_app_r (a b t : string) :
  includes b t = true -> includes (a +:+ b) t = true.
Proof.
  rewrite !includes_spec. intros [u [v ->]].
  exists (a +:+ u), v. now rewrite append_assoc.
Qed.

Lemma includes_app_l (a b t : string) :
  includes a t = true -> includes (a +:+ b) t = true.
Proof.
  rewrite !includes_spec. intros [u [v ->]].
  exists u, (v +:+ b). now rewrite !append_assoc.
Qed.

Lemma includes_trans (s t u : string) :
  includes s t = true -> includes t u = true -> includes s u = true.
Proof.
  rewrite !includes_spec. intros [a [b ->]] [c [d ->]].
  exists (a +:+ c), (d +:+ b). now rewrite !append_assoc.
Qed.

(** A truthy string that includes anything is non-empty; the empty string
    includes only the empty string. *)
Lemma includes_nil_l (t : string) : includes "" t = true -> t = "".
Proof. destruct t; [reflexivity | discriminate]. Qed.

End StringFacts.

(** ** Facts about [split] *)

Section SplitFacts.

Variable sep : string.
Hypothesis sep_nonempty : sep <> "".

Lemma init_last : exists l, sep = init sep +:+ String l "".
Proof.
  clear -sep_nonempty. induction sep as [|c s IH]; [congruence|].
  destruct s as [|d s]; [now exists c|].
  destruct IH as [l Hl]; [discriminate|].
  exists l.
  change (String c (String d s) = String c (init (String d s) +:+ String l "")).
  now rewrite <- Hl.
Qed.

Lemma length_init : String.length sep = S (String.length (init sep)).
Proof.
  destruct init_last as [l Hl]. rewrite Hl at 1.
  rewrite length_append. simpl. lia.
Qed.

Lemma split_aux_skip (x rest cur : string) :
  split_aux sep (x +:+ rest) (String.length x) cur = split_aux sep rest 0 cur.
Proof. induction x as [|c x IH]; simpl; [reflexivity | exact IH]. Qed.

Lemma split_aux_cons (s : string) (k : nat) (cur : string) :
  exists t rest, split_aux sep s k cur = t :: rest.
Proof.
  revert k cur; induction s as [|c s IH]; intros k cur; simpl.
  - now exists cur, [].
  - destruct k as [|k]; [|apply IH].
    destruct (startsWith (String c s) sep); [|apply IH].
    now exists cur, (split_aux sep s (String.length sep - 1) "").
Qed.

(** Without an occurrence of the separator the whole string is one token. *)
Lemma split_aux_free (s cur : string) :
  includes s sep = false -> split_aux sep s 0 cur = [cur +:+ s].
Proof.
  revert cur; induction s as [|c s IH]; intros cur Hfree; simpl.
  - now rewrite append_nil_r.
  - simpl in Hfree. apply orb_false_iff in Hfree as [Hst Hin].
    rewrite Hst, (IH _ Hin), append_assoc. reflexivity.
Qed.

(** With an occurrence there are at least two tokens. *)
Lemma split_aux_two (s cur : string) :
  includes s sep = true ->
  exists t1 t2 rest, split_aux sep s 0 cur = t1 :: t2 :: rest.
Proof.
  revert cur; induction s as [|c s IH]; intros cur Hin; simpl in Hin.
  - rewrite orb_false_r in Hin. apply startsWith_spec in Hin as [r Hr].
    destruct sep; [congruence | discriminate].
  - simpl. destruct (startsWith (String c s) sep) eqn:Hst.
    + destruct (split_aux_cons s (String.length sep - 1) "") as [t [rest ->]].
      now exists cur, t, rest.
    + simpl in Hin. apply IH, Hin.
Qed.

(** The first token ends no later than the first occurrence of the
    separator. *)
Lemma split_aux_first_short (u v cur : string) :
  exists t rest,
    split_aux sep (u +:+ sep +:+ v) 0 cur = (cur +:+ t) :: rest /\
    String.length t <= String.length u.
Proof.
  revert cur; induction u as [|c u IH]; intros cur.
  - destruct (split_aux_cons (sep +:+ v) 0 cur) as [t [rest Heq]].
    destruct sep as [|c0 s0] eqn:Hsep; [congruence|].
    simpl in *. rewrite Ascii.eqb_refl, startsWith_app in *.
    exists "", (split_aux (String c0 s0) (s0 +:+ v) (String.length s0 - 0) "").
    now rewrite append_nil_r.
  - simpl. destruct (startsWith (String c (u +:+ sep +:+ v)) sep).
    + exists "", (split_aux sep (u +:+ sep +:+ v) (String.length sep - 1) "").
      rewrite append_nil_r. split; [reflexivity | simpl; lia].
    + destruct (IH (cur +:+ String c "")) as [t [rest [Heq Hlen]]].
      exists (String c t), rest. rewrite Heq, append_assoc.
      split; [reflexivity | simpl; lia].
Qed.

(** Scanning [d], the separator, then [a], when the separator cannot start
    inside [d]. *)
Lemma split_aux_head (d a cur : string) :
  includes (d +:+ init sep) sep = false ->
  split_aux sep (d +:+ sep +:+ a) 0 cur = (cur +:+ d) :: split_aux sep a 0 "".
Proof.
  revert cur; induction d as [|c d IH]; intros cur Hfree.
  - rewrite append_nil_r. simpl.
    destruct sep as [|c0 s0] eqn:Hsep; [congruence|].
    simpl. rewrite Ascii.eqb_refl, startsWith_app. f_equal.
    replace (String.length s0 - 0) with (String.length s0) by lia.
    rewrite <- Hsep. apply split_aux_skip.
  - simpl in Hfree. apply orb_false_iff in Hfree as [Hst Hin].
    destruct init_last as [l Hl].
    assert (Hst' : startsWith (String c d +:+ sep +:+ a) sep = false).
    { rewrite Hl at 1. rewrite append_assoc, <- (append_assoc (String c d)).
      rewrite startsWith_app_long; [exact Hst|].
      rewrite length_init. simpl. rewrite length_append. lia. }
    simpl in Hst'. simpl. rewrite Hst'.
    rewrite (IH _ Hin), append_assoc. reflexivity.
Qed.

End SplitFacts.

(** ** Facts about the store *)

Section StoreFacts.

Context {A : Type}.

Lemma find_none_iff (p : A -> bool) (docs : list A) :
  List.find p docs = None <-> forall d, In d docs -> p d = false.
Proof.
  induction docs as [|x docs IH]; simpl.
  - split; [intros _ d [] | reflexivity].
  - destruct (p x) eqn:Hpx.
    + split; [discriminate|]. intros Hall.
      rewrite (Hall x) in Hpx; [discriminate | now left].
    + rewrite IH. split.
      * intros Hall d [<-|Hin]; [exact Hpx | now apply Hall].
      * intros Hall d Hin. apply Hall. now right.
Qed.

Lemma find_some_in (p : A -> bool) (docs : list A) (d : A) :
  List.find p docs = Some d -> In d docs /\ p d = true.
Proof.
  induction docs as [|x docs IH]; simpl; [discriminate|].
  destruct (p x) eqn:Hpx.
  - intros [= <-]. split; [now left | exact Hpx].
  - intros Hfind. destruct (IH Hfind). split; [now right | assumption].
Qed.

Lemma removeFirst_none (p : A -> bool) (docs : list A) :
  List.find p docs = None -> removeFirst p docs = docs.
Proof.
  induction docs as [|x docs IH]; simpl; [reflexivity|].
  destruct (p x); [discriminate|]. intros Hnone. now rewrite IH.
Qed.

Lemma updateFirst_none (p : A -> bool) (f : A -> A) (docs : list A) :
  List.find p docs = None -> updateFirst p f docs = docs.
Proof.
  induction docs as [|x docs IH]; simpl; [reflexivity|].
  destruct (p x); [discriminate|]. intros Hnone. now rewrite IH.
Qed.

(** After an update that keeps the document selectable, the same query
    finds the updated document. *)
Lemma find_updateFirst (p : A -> bool) (f : A -> A) (docs : list A) :
  (forall d, p d = true -> p (f d) = true) ->
  List.find p (updateFirst p f docs) = option_map f (List.find p docs).
Proof.
  intros Hkeep. induction docs as [|x docs IH]; simpl; [reflexivity|].
  destruct (p x) eqn:Hpx; simpl.
  - now rewrite (Hkeep x Hpx).
  - now rewrite Hpx.
Qed.

Lemma Forall_updateFirst (P : A -> Prop) (p : A -> bool) (f : A -> A) (docs : list A) :
  (forall d, In d docs -> p d = true -> P (f d)) ->
  Forall P docs -> Forall P (updateFirst p f docs).
Proof.
  induction docs as [|x docs IH]; simpl; intros Hf Hall; [constructor|].
  inversion Hall as [|? ? Hx Hrest]; subst.
  destruct (p x) eqn:Hpx; constructor; auto.
Qed.

End StoreFacts.

Lemma agentMatches_update (q : AgentQuery) (u : AgentUpdate) (a : Agent.t) :
  agentMatches q (applyAgentUpdate u a) = agentMatches q a.
Proof. reflexivity. Qed.

(** ** Facts about the routes *)

Section RouteFacts.

Context `{Externals}.

Lemma scanActions_kept (action_id : string) (actions : list string) (domain : option JsValue) :
  snd (scanActions action_id actions domain) =
  List.filter (fun action => negb (includes action action_id)) actions.
Proof.
  revert domain; induction actions as [|a rest IH]; intros domain; simpl; [reflexivity|].
  destruct (includes a action_id); simpl; [apply IH|].
  specialize (IH domain). destruct (scanActions action_id rest domain). simpl in *.
  now rewrite IH.
Qed.

Lemma scanActions_no_match (action_id : string) (actions : list string) (domain : option JsValue) :
  (forall ref, In ref actions -> includes ref action_id = false) ->
  scanActions action_id actions domain = (domain, actions).
Proof.
  induction actions as [|a rest IH]; intros Hnone; simpl; [reflexivity|].
  rewrite (Hnone a) by now left.
  rewrite IH; [reflexivity|]. intros ref Hin. apply Hnone. now right.
Qed.

(** When the last entry is the only one with [action_id], [domain] is its
    first token. *)
Lemma scanActions_last (action_id : string) (actions : list string) (ref : string)
  (domain : option JsValue) :
  (forall r, In r actions -> includes r action_id = false) ->
  includes ref action_id = true ->
  scanActions action_id (actions ++ [ref]) domain =
  (JString <$> hd_error (splitActionRef ref), actions).
Proof.
  induction actions as [|a rest IH]; intros Hnone Hin; simpl.
  - now rewrite Hin.
  - rewrite (Hnone a) by now left.
    rewrite IH; [reflexivity | | exact Hin].
    intros r Hr. apply Hnone. now right.
Qed.

(** The scan forgets what it read before an entry with [action_id]: when
    no later entry has it, [domain] is that entry's first token. *)
Lemma scanActions_behind (action_id : string) (before after : list string) (ref : string)
  (domain : option JsValue) :
  includes ref action_id = true ->
  (forall r, In r after -> includes r action_id = false) ->
  fst (scanActions action_id (before ++ ref :: after) domain) =
  JString <$> hd_error (splitActionRef ref).
Proof.
  intros Hin Hnone. revert domain.
  induction before as [|a rest IH]; intros domain; simpl.
  - rewrite Hin. now rewrite (scanActions_no_match _ _ _ Hnone).
  - destruct (includes a action_id); [apply IH|].
    specialize (IH domain).
    destruct (scanActions action_id (rest ++ ref :: after) domain). exact IH.
Qed.

Lemma truthy_found (action_id : string) (refs : list string) :
  action_id <> "" ->
  truthy (JString <$> findRef action_id refs) = existsb (fun a => includes a action_id) refs.
Proof.
  intros Hid. unfold findRef. induction refs as [|a rest IH]; simpl; [reflexivity|].
  destruct (includes a action_id) eqn:Hinc; simpl; [|exact IH].
  destruct a; [|reflexivity].
  apply includes_nil_l in Hinc. contradiction.
Qed.

End RouteFacts.

(** ** Unbinding and deleting what is not there *)

Section NotThere.

Context `{Externals}.

(** C6.  When the agent the request works on has no [actions] entry that
    contains the action id, the unbind route answers 400 "No domain
    provided" (the specification's ValidationError) and the store is left
    exactly as it was: no document changes and no agent write is made. *)
Theorem unbind_without_entry_is_rejected
  (req : Req) (agent_id action_id : string) (st : Store) (agent : Agent.t) :
  visibleAgent req agent_id st = Some agent ->
  (forall ref, In ref (actionRefs agent) -> includes ref action_id = false) ->
  let answer := {| status := 400; json := JMessage "No domain provided" |} in
  delete_agent_action req agent_id action_id st = (answer, st) /\
  errorKind answer = Some ValidationError.
Proof.
  intros Hagent Hnone answer. split; [|reflexivity].
  unfold delete_agent_action, try_catch, bind, getAgent.
  unfold visibleAgent in Hagent. rewrite Hagent.
  unfold actionRefs in Hnone.
  rewrite (scanActions_no_match _ _ _ Hnone). reflexivity.
Qed.

Lemma delete_action_missing (req : Req) (action_id : string) (st : Store) :
  storedAction action_id st = None ->
  delete_action req action_id st =
  ({| status := 500; json := JMessage "Trouble deleting the Agent Action" |}, st).
Proof.
  intros Hnone. unfold delete_action, try_catch, bind, deleteAction.
  unfold storedAction in Hnone. rewrite Hnone, (removeFirst_none _ _ Hnone).
  destruct st; reflexivity.
Qed.

(** C7, as the code has it.  Deleting an action that is not in the store
    mutates nothing, but the answer is the catch-all 500 "Trouble deleting
    the Agent Action" and not a 404: the route reads the [metadata] of the
    missing document and the resulting exception reaches the handler's
    [catch]. *)
Theorem delete_missing_action_answers_500
  (req : Req) (action_id : string) (st : Store) :
  storedAction action_id st = None ->
  let answer := {| status := 500; json := JMessage "Trouble deleting the Agent Action" |} in
  delete_action req action_id st = (answer, st) /\
  errorKind answer = Some StoreError /\
  errorKind answer <> Some NotFound.
Proof.
  intros Hnone answer. split; [|split; [reflexivity | discriminate]].
  now apply delete_action_missing.
Qed.

End NotThere.

(** ** Who may touch an agent *)

Section Authorization.

Context `{Externals}.

Lemma visibleAgent_after_update (req : Req) (agent_id : string) (st : Store)
  (agent : Agent.t) (u : AgentUpdate) :
  visibleAgent req agent_id st = Some agent ->
  List.find (agentMatches (agentQueryFor req agent_id))
    (updateFirst (agentMatches (agentQueryFor req agent_id)) (applyAgentUpdate u) (agentDocs st))
  = Some (applyAgentUpdate u agent).
Proof.
  intros Hagent. rewrite find_updateFirst.
  - unfold visibleAgent in Hagent. now rewrite Hagent.
  - intros d Hd. now rewrite agentMatches_update.
Qed.

Lemma findRef_none (action_id : string) (refs : list string) :
  (forall ref, In ref refs -> includes ref action_id = false) ->
  findRef action_id refs = None.
Proof. intros Hnone. now apply find_none_iff. Qed.

Lemma nothing_found (action_id : string) (refs : list string) :
  (forall ref, In ref refs -> includes ref action_id = false) ->
  truthy (JString <$> findRef action_id refs) = false.
Proof. intros Hnone. now rewrite (findRef_none _ _ Hnone). Qed.

Lemma invisible_to_stranger (req : Req) (agent_id : string) (st : Store) :
  isAdmin req = false ->
  (forall agent, In agent (agentDocs st) -> Agent.id agent = agent_id ->
                 Agent.author agent <> User.id (user req)) ->
  visibleAgent req agent_id st = None.
Proof.
  intros Hadmin Hstranger. unfold visibleAgent, agentQueryFor. rewrite Hadmin.
  apply find_none_iff. intros agent Hin. unfold agentMatches; simpl.
  destruct (String.eqb_spec (Agent.id agent) agent_id) as [Hid|]; [|reflexivity].
  destruct (String.eqb_spec (Agent.author agent) (User.id (user req))) as [Hauth|]; [|reflexivity].
  exfalso. exact (Hstranger agent Hin Hid Hauth).
Qed.

(** What the bind route does once the agent and the action are found and
    no entry of the agent contains the action id. *)
Lemma bind_appends (req : Req) (agent_id action_id : string) (st : Store)
  (agent : Agent.t) (action : Action.t) :
  visibleAgent req agent_id st = Some agent ->
  storedAction action_id st = Some action ->
  truthy (JString <$> findRef action_id (actionRefs agent)) = false ->
  let domain := toString (domainParser req (Action.metadata action !! "domain") true) in
  let u :=
    {| u_actions := actionRefs agent ++ [encodeActionRef domain action_id];
       u_tools :=
         List.filter
           (fun tool => negb (truthyString tool &&
                              (includes tool domain || includes tool action_id)))
           (toolRefs agent)
         ++ map (fun f => encodeToolRef f domain) (Action.functions action) |} in
  post_agent_action req agent_id action_id st =
  ({| status := 200; json := JMessage "Action added successfully" |},
   {| actionDocs := actionDocs st;
      agentDocs := updateFirst (agentMatches (agentQueryFor req agent_id))
                     (applyAgentUpdate u) (agentDocs st);
      agentWrites := agentWrites st ++ [(agentQueryFor req agent_id, u)] |}).
Proof.
  intros Hagent Haction Hnone domain u.
  unfold post_agent_action, try_catch, bind, getAgent, getAction, updateAgent, ret.
  unfold visibleAgent in Hagent. unfold storedAction in Haction.
  unfold actionRefs in Hnone.
  rewrite Hagent, Haction, Hnone. reflexivity.
Qed.

(** What the bind route does when an entry of the agent already contains
    the action id: nothing. *)
Lemma bind_present (req : Req) (agent_id action_id : string) (st : Store)
  (agent : Agent.t) (action : Action.t) :
  visibleAgent req agent_id st = Some agent ->
  storedAction action_id st = Some action ->
  truthy (JString <$> findRef action_id (actionRefs agent)) = true ->
  post_agent_action req agent_id action_id st =
  ({| status := 200; json := JMessage "Action added successfully" |}, st).
Proof.
  intros Hagent Haction Hfound.
  unfold post_agent_action, try_catch, bind, getAgent, getAction, ret.
  unfold visibleAgent in Hagent. unfold storedAction in Haction.
  unfold actionRefs in Hfound.
  rewrite Hagent, Haction, Hfound. reflexivity.
Qed.

(** What the unbind route does once the agent is found and the scan has
    come up with a truthy domain. *)
Lemma unbind_removes (req : Req) (agent_id action_id : string) (st : Store)
  (agent : Agent.t) (domain : option JsValue) (kept : list string) :
  visibleAgent req agent_id st = Some agent ->
  scanActions action_id (actionRefs agent) (Some (JString "")) = (domain, kept) ->
  truthy domain = true ->
  let u :=
    {| u_actions := kept;
       u_tools :=
         List.filter
           (fun tool => negb (truthyString tool && includes tool (toString domain)))
           (toolRefs agent) |} in
  delete_agent_action req agent_id action_id st =
  ({| status := 200; json := JMessage "Action deleted for agent successfully" |},
   {| actionDocs := actionDocs st;
      agentDocs := updateFirst (agentMatches (agentQueryFor req agent_id))
                     (applyAgentUpdate u) (agentDocs st);
      agentWrites := agentWrites st ++ [(agentQueryFor req agent_id, u)] |}).
Proof.
  intros Hagent Hscan Htruthy u.
  unfold delete_agent_action, try_catch, bind, getAgent, updateAgent, ret.
  unfold visibleAgent in Hagent. unfold actionRefs in Hscan.
  rewrite Hagent, Hscan, Htruthy. reflexivity.
Qed.

(** C9.  A requester who is not an admin and is not the author of any
    agent with the requested id gets 404 (the specification's NotFound,
    not a refusal) from both the bind and the unbind route, and the store
    is left as it was.  For an admin the lookup is by id alone: whoever
    the author is, the agent is found, bind appends the reference and
    unbind removes it. *)
Theorem agent_lookup_is_scoped_to_author_unless_admin
  (req : Req) (agent_id action_id : string) (st : Store) :
  (isAdmin req = false ->
   (forall agent, In agent (agentDocs st) -> Agent.id agent = agent_id ->
                  Agent.author agent <> User.id (user req)) ->
   post_agent_action req agent_id action_id st =
     ({| status := 404; json := JMessage "Agent not found for adding action" |}, st) /\
   delete_agent_action req agent_id action_id st =
     ({| status := 404; json := JMessage "Agent not found for deleting action" |}, st) /\
   errorKind (fst (post_agent_action req agent_id action_id st)) = Some NotFound /\
   errorKind (fst (delete_agent_action req agent_id action_id st)) = Some NotFound)
  /\
  (isAdmin req = true ->
   forall agent,
     List.find (fun a => String.eqb (Agent.id a) agent_id) (agentDocs st) = Some agent ->
     visibleAgent req agent_id st = Some agent /\
     (forall action,
        storedAction action_id st = Some action ->
        (forall ref, In ref (actionRefs agent) -> includes ref action_id = false) ->
        let (answer, st') := post_agent_action req agent_id action_id st in
        status answer = 200 /\
        exists agent',
          visibleAgent req agent_id st' = Some agent' /\
          Agent.author agent' = Agent.author agent /\
          actionRefs agent' =
            actionRefs agent ++
            [encodeActionRef
               (toString (domainParser req (Action.metadata action !! "domain") true))
               action_id]) /\
     (forall domain kept,
        scanActions action_id (actionRefs agent) (Some (JString "")) = (domain, kept) ->
        truthy domain = true ->
        let (answer, st') := delete_agent_action req agent_id action_id st in
        status answer = 200 /\
        exists agent',
          visibleAgent req agent_id st' = Some agent' /\
          Agent.author agent' = Agent.author agent /\
          actionRefs agent' = kept)).
Proof.
  split.
  - intros Hadmin Hstranger.
    pose proof (invisible_to_stranger req agent_id st Hadmin Hstranger) as Hnone.
    assert (Hbind : post_agent_action req agent_id action_id st =
              ({| status := 404; json := JMessage "Agent not found for adding action" |}, st)).
    { unfold post_agent_action, try_catch, bind, getAgent.
      unfold visibleAgent in Hnone. now rewrite Hnone. }
    assert (Hunbind : delete_agent_action req agent_id action_id st =
              ({| status := 404; json := JMessage "Agent not found for deleting action" |}, st)).
    { unfold delete_agent_action, try_catch, bind, getAgent.
      unfold visibleAgent in Hnone. now rewrite Hnone. }
    rewrite Hbind, Hunbind. repeat split.
  - intros Hadmin agent Hfind.
    assert (Hvisible : visibleAgent req agent_id st = Some agent).
    { unfold visibleAgent, agentQueryFor. rewrite Hadmin.
      rewrite <- Hfind. clear Hfind. induction (agentDocs st) as [|a docs IH]; [reflexivity|].
      simpl. unfold agentMatches at 1. simpl. rewrite andb_true_r.
      destruct (String.eqb (Agent.id a) agent_id); [reflexivity | exact IH]. }
    split; [exact Hvisible|]. split.
    + intros action Haction Hnone.
      rewrite (bind_appends req agent_id action_id st agent action Hvisible Haction
                 (nothing_found _ _ Hnone)).
      split; [reflexivity|].
      eexists. split; [|split].
      * unfold visibleAgent. cbn [agentDocs].
        apply visibleAgent_after_update. exact Hvisible.
      * reflexivity.
      * reflexivity.
    + intros domain kept Hscan Htruthy.
      rewrite (unbind_removes req agent_id action_id st agent domain kept Hvisible Hscan Htruthy).
      split; [reflexivity|].
      eexists. split; [|split].
      * unfold visibleAgent. cbn [agentDocs].
        apply visibleAgent_after_update. exact Hvisible.
      * reflexivity.
      * reflexivity.
Qed.

End Authorization.

(** ** Binding twice, and binding under an empty domain *)

Section Binding.

Context `{Externals}.

Lemma bind_agent_missing (req : Req) (agent_id action_id : string) (st : Store) :
  visibleAgent req agent_id st = None ->
  post_agent_action req agent_id action_id st =
  ({| status := 404; json := JMessage "Agent not found for adding action" |}, st).
Proof.
  intros Hnone. unfold post_agent_action, try_catch, bind, getAgent.
  unfold visibleAgent in Hnone. now rewrite Hnone.
Qed.

Lemma bind_action_missing (req : Req) (agent_id action_id : string) (st : Store)
  (agent : Agent.t) :
  visibleAgent req agent_id st = Some agent ->
  storedAction action_id st = None ->
  post_agent_action req agent_id action_id st =
  ({| status := 404; json := JMessage "Action not found for adding to agent" |}, st).
Proof.
  intros Hagent Hnone. unfold post_agent_action, try_catch, bind, getAgent, getAction.
  unfold visibleAgent in Hagent. unfold storedAction in Hnone.
  now rewrite Hagent, Hnone.
Qed.

Lemma unbind_rejects (req : Req) (agent_id action_id : string) (st : Store)
  (agent : Agent.t) :
  visibleAgent req agent_id st = Some agent ->
  truthy (fst (scanActions action_id (actionRefs agent) (Some (JString "")))) = false ->
  delete_agent_action req agent_id action_id st =
  ({| status := 400; json := JMessage "No domain provided" |}, st).
Proof.
  intros Hagent Hfalsy. unfold delete_agent_action, try_catch, bind, getAgent.
  unfold visibleAgent in Hagent. unfold actionRefs in Hfalsy. rewrite Hagent.
  destruct (scanActions action_id (default [] (Agent.actions agent)) (Some (JString "")))
    as [domain kept].
  simpl in Hfalsy. now rewrite Hfalsy.
Qed.

Lemma encoded_ref_contains_id (domain action_id : string) :
  includes (encodeActionRef domain action_id) action_id = true.
Proof.
  unfold encodeActionRef. apply includes_app_r, includes_app_r, includes_refl.
Qed.

Lemma found_in_longer (action_id ref : string) (refs : list string) :
  action_id <> "" ->
  includes ref action_id = true ->
  truthy (JString <$> findRef action_id (refs ++ [ref])) = true.
Proof.
  intros Hid Hinc. rewrite (truthy_found _ _ Hid), existsb_app. simpl.
  rewrite Hinc. now rewrite orb_true_r.
Qed.

Lemma split_leading_sep (sep a : string) :
  sep <> "" -> hd_error (split (sep +:+ a) sep) = Some "".
Proof.
  intros Hsep. destruct sep as [|c s]; [congruence|].
  simpl. now rewrite Ascii.eqb_refl, startsWith_app.
Qed.

(** C2.  Binding is idempotent.  Whenever the bind route answers 200,
    running it again with the same request answers the same and leaves the
    store exactly as the first run left it, the record of agent writes
    included: the agent's [actions] and [tools] are those of a single run
    and the second run writes nothing.  More generally the route writes
    nothing whenever an entry of the agent already contains the action
    id.  (The action id is a path segment, hence not empty.) *)
Theorem bind_twice_is_bind_once
  (req : Req) (agent_id action_id : string) (st st1 : Store) (answer : Response) :
  action_id <> "" ->
  post_agent_action req agent_id action_id st = (answer, st1) ->
  status answer = 200 ->
  post_agent_action req agent_id action_id st1 = (answer, st1) /\
  agentWrites (snd (post_agent_action req agent_id action_id st1)) = agentWrites st1 /\
  (forall agent ref,
     visibleAgent req agent_id st = Some agent ->
     In ref (actionRefs agent) -> includes ref action_id = true ->
     st1 = st).
Proof.
  intros Hid Hrun Hok.
  destruct (visibleAgent req agent_id st) as [agent|] eqn:Hagent.
  2:{ rewrite (bind_agent_missing _ _ _ _ Hagent) in Hrun.
      inversion Hrun; subst. discriminate. }
  destruct (storedAction action_id st) as [action|] eqn:Haction.
  2:{ rewrite (bind_action_missing _ _ _ _ _ Hagent Haction) in Hrun.
      inversion Hrun; subst. discriminate. }
  destruct (truthy (JString <$> findRef action_id (actionRefs agent))) eqn:Hfound.
  - (* already there: nothing is written, the second run sees the same store *)
    pose proof (bind_present _ _ _ _ _ _ Hagent Haction Hfound) as Hsame.
    rewrite Hsame in Hrun. inversion Hrun; subst.
    rewrite Hsame. repeat split; reflexivity.
  - (* appended by the first run: the second run finds the new entry *)
    assert (Hnone : findRef action_id (actionRefs agent) = None).
    { rewrite (truthy_found _ _ Hid) in Hfound.
      apply findRef_none. intros ref Hin.
      destruct (includes ref action_id) eqn:Hinc; [|reflexivity].
      assert (existsb (fun a => includes a action_id) (actionRefs agent) = true).
      { apply existsb_exists. now exists ref. }
      congruence. }
    rewrite (bind_appends _ _ _ _ _ _ Hagent Haction Hfound) in Hrun.
    injection Hrun as Hanswer Hst1. subst answer.
    assert (Hagain : post_agent_action req agent_id action_id st1 =
                     ({| status := 200; json := JMessage "Action added successfully" |}, st1)).
    { eapply bind_present.
      - rewrite <- Hst1. unfold visibleAgent. cbn [agentDocs].
        apply visibleAgent_after_update. exact Hagent.
      - rewrite <- Hst1. exact Haction.
      - unfold actionRefs. cbn [applyAgentUpdate Agent.actions u_actions default].
        apply found_in_longer; [exact Hid | apply encoded_ref_contains_id]. }
    rewrite Hagain. repeat split; try reflexivity.
    intros agent0 ref Hagent0 Hin Hinc. exfalso.
    assert (agent0 = agent) by congruence. subst agent0.
    pose proof (proj1 (find_none_iff _ _) Hnone ref Hin) as Hnot.
    simpl in Hnot. congruence.
Qed.

(** C10, as the code has it.  The bind route does not look at the parsed
    domain: when the parser gives the empty string, and no entry of the
    agent contains the action id yet, the route still appends the
    reference, whose first token is empty.  On the resulting store the
    unbind route for that action id finds the entry, reads the empty
    domain, answers 400 "No domain provided" and writes nothing; so
    however often it is run, the entry stays.  The same happens on every
    store in which that entry is the last one of the agent that contains
    the action id.  It is that position which blocks the removal, not the
    entry: on a store in which the last entry of the agent that contains
    the action id has a non-empty first token, the unbind route for that
    action id answers 200 and leaves the agent without any entry
    containing the action id, the one with the empty domain included.
    (The delimiter is a non-empty constant.) *)
Theorem empty_domain_entry_blocks_unbind_while_last
  (req : Req) (agent_id action_id : string) (st : Store)
  (agent : Agent.t) (action : Action.t) :
  actionDelimiter <> "" ->
  visibleAgent req agent_id st = Some agent ->
  storedAction action_id st = Some action ->
  domainParser req (Action.metadata action !! "domain") true = Some (JString "") ->
  (forall ref, In ref (actionRefs agent) -> includes ref action_id = false) ->
  let st1 := snd (post_agent_action req agent_id action_id st) in
  let entry := encodeActionRef "" action_id in
  (exists agent1,
     visibleAgent req agent_id st1 = Some agent1 /\
     actionRefs agent1 = actionRefs agent ++ [entry]) /\
  hd_error (splitActionRef entry) = Some "" /\
  delete_agent_action req agent_id action_id st1 =
    ({| status := 400; json := JMessage "No domain provided" |}, st1) /\
  errorKind (fst (delete_agent_action req agent_id action_id st1)) = Some ValidationError /\
  (forall n,
     Nat.iter n (fun s => snd (delete_agent_action req agent_id action_id s)) st1 = st1) /\
  (forall st2 agent2 before after,
     visibleAgent req agent_id st2 = Some agent2 ->
     actionRefs agent2 = before ++ entry :: after ->
     (forall ref, In ref after -> includes ref action_id = false) ->
     delete_agent_action req agent_id action_id st2 =
       ({| status := 400; json := JMessage "No domain provided" |}, st2)) /\
  (forall st2 agent2 before after ref first,
     visibleAgent req agent_id st2 = Some agent2 ->
     actionRefs agent2 = before ++ ref :: after ->
     In entry before ->
     includes ref action_id = true ->
     (forall r, In r after -> includes r action_id = false) ->
     hd_error (splitActionRef ref) = Some first ->
     first <> "" ->
     let run := delete_agent_action req agent_id action_id st2 in
     status (fst run) = 200 /\
     exists agent3,
       visibleAgent req agent_id (snd run) = Some agent3 /\
       actionRefs agent3 =
         List.filter (fun r => negb (includes r action_id)) (actionRefs agent2) /\
       ~ In entry (actionRefs agent3)).
Proof.
  intros Hdelim Hagent Haction Hempty Hnone st1 entry.
  assert (Hentry : hd_error (splitActionRef entry) = Some "").
  { unfold entry, splitActionRef, encodeActionRef. simpl.
    now apply split_leading_sep. }
  pose proof (bind_appends _ _ _ _ _ _ Hagent Haction (nothing_found _ _ Hnone)) as Hbind.
  rewrite Hempty in Hbind. simpl toString in Hbind.
  assert (Hvisible1 : exists agent1,
             visibleAgent req agent_id st1 = Some agent1 /\
             actionRefs agent1 = actionRefs agent ++ [entry]).
  { eexists. split.
    - unfold st1. rewrite Hbind. unfold visibleAgent. cbn [snd agentDocs].
      apply visibleAgent_after_update. exact Hagent.
    - reflexivity. }
  assert (Hunbind : delete_agent_action req agent_id action_id st1 =
                    ({| status := 400; json := JMessage "No domain provided" |}, st1)).
  { destruct Hvisible1 as [agent1 [Hagent1 Hrefs1]].
    apply (unbind_rejects _ _ _ _ agent1 Hagent1).
    rewrite Hrefs1, scanActions_last.
    - simpl. now rewrite Hentry.
    - exact Hnone.
    - apply encoded_ref_contains_id. }
  split; [exact Hvisible1|]. split; [exact Hentry|]. split; [exact Hunbind|].
  split; [now rewrite Hunbind|]. split; [|split].
  - induction n as [|n IH]; simpl; [reflexivity|].
    rewrite IH. now rewrite Hunbind.
  - intros st2 agent2 before after Hagent2 Hrefs2 Hafter.
    apply (unbind_rejects _ _ _ _ agent2 Hagent2).
    rewrite Hrefs2, scanActions_behind.
    + now rewrite Hentry.
    + apply encoded_ref_contains_id.
    + exact Hafter.
  - intros st2 agent2 before after ref first Hagent2 Hrefs2 _ Href Hafter Hfirst Hne run.
    assert (Hscan : scanActions action_id (actionRefs agent2) (Some (JString "")) =
                    (Some (JString first),
                     List.filter (fun r => negb (includes r action_id)) (actionRefs agent2))).
    { apply injective_projections.
      - rewrite Hrefs2, (scanActions_behind _ _ _ _ _ Href Hafter), Hfirst. reflexivity.
      - apply scanActions_kept. }
    unfold run. rewrite (unbind_removes _ _ _ _ _ _ _ Hagent2 Hscan).
    2:{ cbn [truthy]. destruct first; [congruence | reflexivity]. }
    split; [reflexivity|]. eexists. split; [|split].
    + unfold visibleAgent. cbn [snd agentDocs].
      apply visibleAgent_after_update. exact Hagent2.
    + reflexivity.
    + unfold actionRefs at 1. cbn [applyAgentUpdate Agent.actions default u_actions].
      unfold Datatypes.id. intros Hin. apply filter_In in Hin as [_ Hin].
      unfold entry in Hin. now rewrite encoded_ref_contains_id in Hin.
Qed.

End Binding.

(** ** What unbinding removes from the tools *)

Section SplitTokens.

(** Every token of a split occurs in the string that was split. *)
Lemma split_aux_tokens (sep s : string) (k : nat) (cur t : string) :
  k = 0 \/ cur = "" ->
  In t (split_aux sep s k cur) -> includes (cur +:+ s) t = true.
Proof.
  revert k cur; induction s as [|c s IH]; intros k cur Hk Hin; simpl in Hin.
  - destruct Hin as [<-|[]]. rewrite append_nil_r. apply includes_refl.
  - destruct k as [|k].
    + destruct (startsWith (String c s) sep).
      * destruct Hin as [<-|Hin].
        -- apply includes_app_l, includes_refl.
        -- apply includes_app_r.
           change (String c s) with (String c "" +:+ s). apply includes_app_r.
           apply (IH (String.length sep - 1) ""); [now right | exact Hin].
      * replace (cur +:+ String c s) with ((cur +:+ String c "") +:+ s)
          by now rewrite append_assoc.
        apply (IH 0); [now left | exact Hin].
    + destruct Hk as [Hk| ->]; [discriminate|].
      change ("" +:+ String c s) with (String c "" +:+ s). apply includes_app_r.
      apply (IH k ""); [now right | exact Hin].
Qed.

Lemma chars_tokens (s : string) :
  forall t, In t (map (fun c => String c "") (list_ascii_of_string s)) ->
            includes s t = true.
Proof.
  induction s as [|c s IH]; intros t Hin; simpl in Hin; [destruct Hin|].
  destruct Hin as [<-|Hin].
  - apply (includes_app_l (String c "") s (String c "")), includes_refl.
  - apply (includes_app_r (String c "") s t), IH, Hin.
Qed.

Lemma split_tokens (sep s t : string) :
  In t (split s sep) -> includes s t = true.
Proof.
  destruct sep as [|c0 s0].
  - apply chars_tokens.
  - intros Hin. apply (split_aux_tokens (String c0 s0) s 0 "" t); [now left | exact Hin].
Qed.

End SplitTokens.

Section Unbinding.

Context `{Externals}.

Lemma toolRefDomain_included (tool domain : string) :
  toolRefDomain tool = Some domain -> includes tool domain = true.
Proof.
  unfold toolRefDomain. intros Hnth.
  apply (split_tokens actionDelimiter). eapply nth_error_In, Hnth.
Qed.

(** The domain variable of the unbind route is [undefined] or a string. *)
Lemma scanActions_domain_shape (action_id : string) (actions : list string)
  (domain : option JsValue) :
  (domain = None \/ exists s, domain = Some (JString s)) ->
  let d := fst (scanActions action_id actions domain) in
  d = None \/ exists s, d = Some (JString s).
Proof.
  revert domain; induction actions as [|a rest IH]; intros domain Hshape; simpl.
  - exact Hshape.
  - destruct (includes a action_id).
    + apply IH. destruct (hd_error (splitActionRef a)) as [tok|]; simpl.
      * right. now exists tok.
      * now left.
    + specialize (IH domain Hshape).
      destruct (scanActions action_id rest domain) as [d kept]. exact IH.
Qed.

Lemma filter_by_truthy_domain (domain : string) (tools : list string) :
  domain <> "" ->
  List.filter (fun tool => negb (truthyString tool && includes tool domain)) tools =
  List.filter (fun tool => negb (includes tool domain)) tools.
Proof.
  intros Hdomain. apply filter_ext. intros tool.
  destruct tool as [|c tool]; [|reflexivity].
  simpl. destruct domain; [congruence | reflexivity].
Qed.

(** C8, as the code has it.  After a successful unbind the agent's
    [tools] are the original ones, in order, without the entries that
    contain the extracted domain as a substring; [domain] is the first
    token of the last [actions] entry that contains the action id, and is
    not empty.  An entry whose domain component is the extracted domain
    contains it and is removed; an entry that does not contain it stays. *)
Theorem unbind_drops_tools_containing_domain
  (req : Req) (agent_id action_id : string) (st st' : Store)
  (agent : Agent.t) (answer : Response) :
  visibleAgent req agent_id st = Some agent ->
  delete_agent_action req agent_id action_id st = (answer, st') ->
  status answer = 200 ->
  exists domain agent',
    fst (scanActions action_id (actionRefs agent) (Some (JString ""))) = Some (JString domain) /\
    domain <> "" /\
    visibleAgent req agent_id st' = Some agent' /\
    toolRefs agent' = List.filter (fun tool => negb (includes tool domain)) (toolRefs agent) /\
    (forall tool, toolRefDomain tool = Some domain -> ~ In tool (toolRefs agent')) /\
    (forall tool, In tool (toolRefs agent) -> includes tool domain = false ->
                  In tool (toolRefs agent')).
Proof.
  intros Hagent Hrun Hok.
  destruct (scanActions action_id (actionRefs agent) (Some (JString ""))) as [d kept] eqn:Hscan.
  destruct (truthy d) eqn:Htruthy.
  2:{ rewrite (unbind_rejects _ _ _ _ agent Hagent) in Hrun by now rewrite Hscan.
      inversion Hrun; subst. discriminate. }
  pose proof (scanActions_domain_shape action_id (actionRefs agent) (Some (JString ""))) as Hshape.
  rewrite Hscan in Hshape. simpl in Hshape.
  destruct Hshape as [->|[domain ->]]; [now right; exists "" | discriminate |].
  assert (Hdomain : domain <> "").
  { intros ->. discriminate. }
  rewrite (unbind_removes _ _ _ _ _ _ _ Hagent Hscan Htruthy) in Hrun.
  injection Hrun as _ Hst'.
  exists domain. eexists. split; [reflexivity|]. split; [exact Hdomain|].
  split; [|split; [|split]].
  - rewrite <- Hst'. unfold visibleAgent. cbn [agentDocs].
    apply visibleAgent_after_update. exact Hagent.
  - unfold toolRefs at 1. cbn [applyAgentUpdate Agent.tools u_tools default toString].
    now apply filter_by_truthy_domain.
  - intros tool Hcomponent Hin.
    unfold toolRefs at 1 in Hin.
    cbn [applyAgentUpdate Agent.tools u_tools default toString] in Hin.
    rewrite (filter_by_truthy_domain _ _ Hdomain) in Hin.
    apply filter_In in Hin as [_ Hkeep].
    rewrite (toolRefDomain_included _ _ Hcomponent) in Hkeep. discriminate.
  - intros tool Hin Hfree.
    unfold toolRefs at 1.
    cbn [applyAgentUpdate Agent.tools u_tools default toString].
    rewrite (filter_by_truthy_domain _ _ Hdomain).
    apply filter_In. split; [exact Hin | now rewrite Hfree].
Qed.

End Unbinding.



(** ** The reference codec *)

Section Codec.

Context `{Externals}.

Lemma length_lt_not_included (s t : string) :
  String.length s < String.length t -> includes s t = false.
Proof.
  intros Hlen. destruct (includes s t) eqn:Hinc; [|reflexivity].
  apply includes_spec in Hinc as [u [v ->]].
  rewrite !length_append in Hlen. lia.
Qed.

(** C4, as the code has it.  The delimiter being a non-empty constant,
    splitting an encoded action reference gives back the domain and the
    action id exactly when the delimiter occurs neither in the action id
    nor in the domain followed by the delimiter without its last
    character (that is, when no occurrence of the delimiter starts inside
    the domain).  The encoding is plain concatenation and never fails:
    where the specification's codec answers InvalidReferenceFormat, the
    router's reference is built all the same and does not split back. *)
Theorem action_ref_round_trip (domain action_id : string) :
  actionDelimiter <> "" ->
  (splitActionRef (encodeActionRef domain action_id) = [domain; action_id] <->
   includes (domain +:+ init actionDelimiter) actionDelimiter = false /\
   includes action_id actionDelimiter = false) /\
  (spec_encodeActionRef domain action_id = inl InvalidReferenceFormat ->
   encodeActionRef domain action_id = domain +:+ actionDelimiter +:+ action_id /\
   splitActionRef (encodeActionRef domain action_id) <> [domain; action_id]).
Proof.
  intros Hsep.
  assert (Hsplit : forall s, split s actionDelimiter = split_aux actionDelimiter s 0 "").
  { intros s. unfold split. destruct actionDelimiter; [congruence | reflexivity]. }
  assert (Hiff : splitActionRef (encodeActionRef domain action_id) = [domain; action_id] <->
                 includes (domain +:+ init actionDelimiter) actionDelimiter = false /\
                 includes action_id actionDelimiter = false).
  { unfold splitActionRef, encodeActionRef. rewrite Hsplit. split.
    - intros Hround.
      destruct (includes (domain +:+ init actionDelimiter) actionDelimiter) eqn:Hd.
      + (* an occurrence starts inside the domain: the first token is too short *)
        exfalso. apply includes_spec in Hd as [u [v Huv]].
        destruct (init_last actionDelimiter Hsep) as [l Hl].
        assert (Hlen : String.length u < String.length domain).
        { apply (f_equal String.length) in Huv.
          rewrite !length_append, (length_init actionDelimiter Hsep) in Huv. lia. }
        assert (Hwhole : domain +:+ actionDelimiter +:+ action_id =
                         u +:+ actionDelimiter +:+ (v +:+ String l "" +:+ action_id)).
        { rewrite Hl at 1. rewrite (append_assoc (init actionDelimiter)).
          rewrite <- (append_assoc domain), Huv. now rewrite !append_assoc. }
        rewrite Hwhole in Hround.
        destruct (split_aux_first_short actionDelimiter Hsep u
                    (v +:+ String l "" +:+ action_id) "") as [t [rest [Heq Ht]]].
        rewrite Heq in Hround. injection Hround as Hfirst _.
        simpl in Hfirst. subst t. lia.
      + split; [reflexivity|].
        rewrite (split_aux_head actionDelimiter Hsep _ _ _ Hd) in Hround.
        destruct (includes action_id actionDelimiter) eqn:Ha; [|reflexivity].
        destruct (split_aux_two actionDelimiter Hsep action_id "" Ha) as [t1 [t2 [rest Heq]]].
        rewrite Heq in Hround. discriminate.
    - intros [Hd Ha].
      rewrite (split_aux_head actionDelimiter Hsep _ _ _ Hd).
      now rewrite (split_aux_free actionDelimiter action_id "" Ha). }
  split; [exact Hiff|].
  unfold spec_encodeActionRef.
  destruct (includes domain actionDelimiter) eqn:Hd; simpl.
  - intros _. split; [reflexivity|]. intros Hround.
    apply Hiff in Hround as [Hfree _].
    rewrite (includes_app_l _ _ _ Hd) in Hfree. discriminate.
  - destruct (includes action_id actionDelimiter) eqn:Ha; [|discriminate].
    intros _. split; [reflexivity|]. intros Hround.
    apply Hiff in Hround as [_ Hfree]. discriminate.
Qed.

End Codec.

(** ** The cascade over the agents that refer to an action *)

Section Cascade.

Context `{Externals}.


Lemma for_of_cascade (mk : Agent.t -> AgentUpdate) (agents : list Agent.t) (st : Store) :
  for_of agents
    (fun agent =>
       updateAgent {| q_id := Agent.id agent; q_author := None |} (mk agent) ;; ret tt) st
  = (Value tt, cascade mk agents st).
Proof.
  revert st; induction agents as [|agent rest IH]; intros st; [reflexivity|].
  simpl. unfold bind at 1. unfold bind at 1. simpl. apply IH.
Qed.

Lemma cascade_actionDocs (mk : Agent.t -> AgentUpdate) (agents : list Agent.t) (st : Store) :
  actionDocs (cascade mk agents st) = actionDocs st.
Proof.
  revert st; induction agents as [|agent rest IH]; intros st; [reflexivity|].
  change (cascade mk (agent :: rest) st) with
    (cascade mk rest
       (snd (updateAgent {| q_id := Agent.id agent; q_author := None |} (mk agent) st))).
  now rewrite IH.
Qed.

(** A property of the [actions] list that every written list has holds of
    every agent after the loop, if it held of every agent before. *)
Lemma cascade_Forall (P : list string -> Prop) (mk : Agent.t -> AgentUpdate)
  (agents : list Agent.t) (st : Store) :
  (forall agent, In agent agents -> P (u_actions (mk agent))) ->
  Forall (fun a => P (actionRefs a)) (agentDocs st) ->
  Forall (fun a => P (actionRefs a)) (agentDocs (cascade mk agents st)).
Proof.
  revert st; induction agents as [|agent rest IH]; intros st Hmk Hall; [exact Hall|].
  change (cascade mk (agent :: rest) st) with
    (cascade mk rest
       (snd (updateAgent {| q_id := Agent.id agent; q_author := None |} (mk agent) st))).
  apply IH.
  - intros a Ha. apply Hmk. now right.
  - cbn [updateAgent snd agentDocs]. apply Forall_updateFirst; [|exact Hall].
    intros d _ _. apply Hmk. now left.
Qed.

End Cascade.

Section CascadingRoutes.

Context `{Externals}.




Lemma referringAgents_in (action_id : string) (st : Store) (agent : Agent.t) :
  In agent (referringAgents action_id st) -> In agent (agentDocs st).
Proof. unfold referringAgents. intros Hin. now apply filter_In in Hin as [Hin _]. Qed.

Lemma refsTo_removed (id : string) (refs : list string) :
  refsTo id (List.filter (fun ref => negb (includes ref id)) refs) = [].
Proof.
  unfold refsTo. induction refs as [|r refs IH]; simpl; [reflexivity|].
  destruct (includes r id) eqn:Hr; simpl; [exact IH | now rewrite Hr].
Qed.

Ltac run_cascade mk :=
  match goal with
  | |- context [for_of ?agents ?body ?st] =>
      replace (for_of agents body st) with (Value tt, cascade mk agents st)
        by (symmetry; apply (for_of_cascade mk))
  end.

(** The update route, once past its checks. *)
Lemma put_action_runs (req : Req) (action_id : string) (st : Store) (action : Action.t) :
  let metadata := encryptMetadata (removeNullishValues (body_metadata req) true) in
  let domain := domainParser req (metadata !! "domain") true in
  let data :=
    {| u_metadata := metadata; u_agent_id := None; u_user := User.id (user req);
       u_functions := map (fun tool => name (function tool)) (body_functions req) |} in
  storedAction action_id st = Some action ->
  body_functions req <> [] ->
  isActionDomainAllowed (metadata !! "domain") = true ->
  truthy domain = true ->
  put_action req action_id st =
  ({| status := 200; json := JAction (sanitizeAction (applyActionUpdate data action)) |},
   cascade
     (updatedRefs action_id (Action.metadata action !! "domain") domain (body_functions req))
     (referringAgents action_id st)
     {| actionDocs := updateFirst (actionMatches action_id) (applyActionUpdate data) (actionDocs st);
        agentDocs := agentDocs st;
        agentWrites := agentWrites st |}).
Proof.
  intros metadata domain data Haction Hfunctions Hallowed Htruthy.
  unfold put_action, try_catch, bind, getAction, updateAction, getAgents, ret.
  unfold storedAction in Haction. rewrite Haction.
  destruct (body_functions req) as [|f fs] eqn:Hfs; [congruence|].
  cbn [List.length Nat.eqb].
  fold metadata. rewrite Hallowed. cbn [negb]. fold domain. rewrite Htruthy. cbn [negb].
  cbv beta iota. rewrite Haction. cbv beta iota. cbn [agentDocs].
  run_cascade (updatedRefs action_id (Action.metadata action !! "domain") domain (f :: fs)).
  reflexivity.
Qed.

(** The update route when one of its checks fails: nothing is written. *)
Lemma put_action_refuses (req : Req) (action_id : string) (st : Store) :
  let metadata := encryptMetadata (removeNullishValues (body_metadata req) true) in
  storedAction action_id st = None \/ body_functions req = [] \/
  isActionDomainAllowed (metadata !! "domain") = false \/
  truthy (domainParser req (metadata !! "domain") true) = false ->
  snd (put_action req action_id st) = st /\
  status (fst (put_action req action_id st)) <> 200.
Proof.
  intros metadata Hcase.
  unfold put_action, try_catch, bind, getAction, storedAction in *.
  destruct (List.find (actionMatches action_id) (actionDocs st)) as [action|];
    [|split; [reflexivity | discriminate]].
  destruct (body_functions req) as [|f fs] eqn:Hfs; [split; [reflexivity | discriminate]|].
  cbn [List.length Nat.eqb]. fold metadata.
  destruct (isActionDomainAllowed (metadata !! "domain"));
    [|split; [reflexivity | discriminate]].
  cbn [negb].
  destruct (truthy (domainParser req (metadata !! "domain") true));
    [|split; [reflexivity | discriminate]].
  destruct Hcase as [Hc|[Hc|[Hc|Hc]]]; discriminate.
Qed.

(** The delete route on an action that is in the store. *)
Lemma delete_action_runs (req : Req) (action_id : string) (st : Store) (action : Action.t) :
  let domain := domainParser req (Action.metadata action !! "domain") true in
  storedAction action_id st = Some action ->
  delete_action req action_id st =
  ({| status := 200; json := JMessage "Action deleted successfully" |},
   cascade (cleanedRefs action_id domain) (referringAgents action_id st)
     {| actionDocs := removeFirst (actionMatches action_id) (actionDocs st);
        agentDocs := agentDocs st;
        agentWrites := agentWrites st |}).
Proof.
  intros domain Haction.
  unfold delete_action, try_catch, bind, deleteAction, getAgents, ret.
  unfold storedAction in Haction. rewrite Haction. cbn [agentDocs].
  run_cascade (cleanedRefs action_id domain).
  reflexivity.
Qed.

Lemma find_updateFirst_other {A : Type} (p q : A -> bool) (f : A -> A) (docs : list A) :
  (forall d, q d = true -> p d = false /\ p (f d) = false) ->
  List.find p (updateFirst q f docs) = List.find p docs.
Proof.
  intros Hother. induction docs as [|x docs IH]; simpl; [reflexivity|].
  destruct (q x) eqn:Hqx; simpl.
  - destruct (Hother x Hqx) as [-> ->]. reflexivity.
  - now rewrite IH.
Qed.

(** After the loop, an agent that was handed to it and is the only one
    with its id holds exactly what the loop wrote for it. *)
Lemma cascade_on_agent (mk : Agent.t -> AgentUpdate) (agent : Agent.t)
  (agents : list Agent.t) (st : Store) :
  (forall a, In a agents -> Agent.id a = Agent.id agent -> a = agent) ->
  (exists d, List.find (byId (Agent.id agent)) (agentDocs st) = Some d /\
             (In agent agents \/ d = applyAgentUpdate (mk agent) d)) ->
  exists d, List.find (byId (Agent.id agent)) (agentDocs (cascade mk agents st)) = Some d /\
            d = applyAgentUpdate (mk agent) d.
Proof.
  revert st; induction agents as [|a rest IH]; intros st Honly [d [Hfind Hcase]].
  - exists d. split; [exact Hfind|]. destruct Hcase as [[]|Hd]. exact Hd.
  - change (cascade mk (a :: rest) st) with
      (cascade mk rest
         (snd (updateAgent {| q_id := Agent.id a; q_author := None |} (mk a) st))).
    apply IH; [intros a' Ha'; apply Honly; now right|].
    cbn [updateAgent snd agentDocs].
    destruct (String.eqb_spec (Agent.id a) (Agent.id agent)) as [Hid|Hid].
    + assert (a = agent) by (apply Honly; [now left | exact Hid]). subst a.
      exists (applyAgentUpdate (mk agent) d). split; [|now right].
      fold (byId (Agent.id agent)). rewrite find_updateFirst; [now rewrite Hfind|].
      intros x Hx. exact Hx.
    + exists d. split.
      * unfold byId. rewrite find_updateFirst_other; [exact Hfind|].
        intros x Hx. unfold agentMatches in *. cbn [q_id q_author] in *.
        rewrite andb_true_r in *. apply String.eqb_eq in Hx.
        cbn [applyAgentUpdate Agent.id]. rewrite Hx.
        now apply String.eqb_neq in Hid as ->.
      * destruct Hcase as [[->|Hin]|Hd]; [congruence | now left | now right].
Qed.

(** What the update route leaves on an agent that refers to the action:
    the entries with the action id are replaced by the one reference
    encoded with the new parsed domain, so exactly one entry contains the
    action id; of the tools, those are kept that are empty or contain
    neither the domain as stored before the update nor the action id, and
    one tool per function of the request is appended. *)
Lemma put_action_on_agent (req : Req) (action_id : string) (st : Store)
  (action : Action.t) (agent : Agent.t) :
  let metadata := encryptMetadata (removeNullishValues (body_metadata req) true) in
  let domain := domainParser req (metadata !! "domain") true in
  let oldDomain := Action.metadata action !! "domain" in
  storedAction action_id st = Some action ->
  body_functions req <> [] ->
  isActionDomainAllowed (metadata !! "domain") = true ->
  truthy domain = true ->
  In agent (agentDocs st) ->
  (forall a, In a (agentDocs st) -> Agent.id a = Agent.id agent -> a = agent) ->
  existsb (regexTest action_id) (actionRefs agent) = true ->
  exists agent',
    List.find (byId (Agent.id agent)) (agentDocs (snd (put_action req action_id st)))
      = Some agent' /\
    actionRefs agent' =
      List.filter (fun ref => negb (includes ref action_id)) (actionRefs agent)
      ++ [encodeActionRef (toString domain) action_id] /\
    refsTo action_id (actionRefs agent') = [encodeActionRef (toString domain) action_id] /\
    toolRefs agent' =
      List.filter
        (fun tool =>
           negb (truthyString tool &&
                 (includes tool (toString oldDomain) || includes tool action_id)))
        (toolRefs agent)
      ++ map (fun tool => encodeToolRef (name (function tool)) (toString domain))
           (body_functions req).
Proof.
  intros metadata domain oldDomain Haction Hfunctions Hallowed Htruthy Hin Honly Hrefers.
  rewrite (put_action_runs req action_id st action Haction Hfunctions Hallowed Htruthy).
  cbn [snd]. fold metadata domain oldDomain.
  set (mk := updatedRefs action_id oldDomain domain (body_functions req)).
  destruct (cascade_on_agent mk agent (referringAgents action_id st)
              {| actionDocs :=
                   updateFirst (actionMatches action_id)
                     (applyActionUpdate
                        {| u_metadata := metadata; u_agent_id := None;
                           u_user := User.id (user req);
                           u_functions :=
                             map (fun tool => name (function tool)) (body_functions req) |})
                     (actionDocs st);
                 agentDocs := agentDocs st;
                 agentWrites := agentWrites st |}) as [d [Hfind Hd]].
  - intros a Ha. apply Honly. now apply (referringAgents_in action_id st).
  - cbn [agentDocs].
    assert (Hfound : exists d, List.find (byId (Agent.id agent)) (agentDocs st) = Some d).
    { destruct (List.find (byId (Agent.id agent)) (agentDocs st)) as [d|] eqn:Hfind;
        [now exists d|].
      pose proof (proj1 (find_none_iff _ _) Hfind agent Hin) as Hno.
      unfold byId, agentMatches in Hno. cbn [q_id q_author] in Hno.
      now rewrite String.eqb_refl in Hno. }
    destruct Hfound as [d Hfind]. exists d. split; [exact Hfind|]. left.
    unfold referringAgents. apply filter_In. split; [exact Hin | exact Hrefers].
  - exists d. split; [exact Hfind|]. rewrite Hd.
    unfold actionRefs at 1 2, toolRefs at 1.
    cbn [applyAgentUpdate Agent.actions Agent.tools default mk updatedRefs u_actions u_tools].
    repeat split.
    unfold actionRefs at 1.
    cbn [applyAgentUpdate Agent.actions default mk updatedRefs u_actions].
    unfold Datatypes.id, refsTo. rewrite List.filter_app.
    fold (refsTo action_id
            (List.filter (fun ref => negb (includes ref action_id)) (actionRefs agent))).
    rewrite refsTo_removed. simpl. now rewrite encoded_ref_contains_id.
Qed.

End CascadingRoutes.

(** ** Invariant A *)

Section InvariantA.

Context `{Externals}.

Variable ids : string -> Prop.


Lemma invariantA_Forall (st : Store) :
  invariantA ids st <-> Forall (fun a => single ids (actionRefs a)) (agentDocs st).
Proof. unfold invariantA, single. rewrite List.Forall_forall. reflexivity. Qed.

Lemma refsTo_app (id : string) (refs : list string) (ref : string) :
  refsTo id (refs ++ [ref]) = refsTo id refs ++ (if includes ref id then [ref] else []).
Proof. unfold refsTo. rewrite List.filter_app. simpl. now destruct (includes ref id). Qed.

Lemma refsTo_filter_le (id : string) (keep : string -> bool) (refs : list string) :
  List.length (refsTo id (List.filter keep refs)) <= List.length (refsTo id refs).
Proof.
  unfold refsTo. induction refs as [|r refs IH]; simpl; [lia|].
  destruct (keep r), (includes r id) eqn:Hr; simpl; rewrite ?Hr; simpl; lia.
Qed.

Lemma refsTo_none (id : string) (refs : list string) :
  existsb (fun ref => includes ref id) refs = false -> refsTo id refs = [].
Proof.
  unfold refsTo. induction refs as [|r refs IH]; simpl; [reflexivity|].
  destruct (includes r id); simpl; [discriminate | exact IH].
Qed.

Lemma single_filter (keep : string -> bool) (refs : list string) :
  single ids refs -> single ids (List.filter keep refs).
Proof.
  intros Hsingle id Hid. specialize (Hsingle id Hid).
  pose proof (refsTo_filter_le id keep refs). lia.
Qed.

(** Dropping the entries with [action_id] and appending a reference to it
    that contains no other id of the set. *)
Lemma single_replaced (action_id ref : string) (refs : list string) :
  (forall id, ids id -> id <> action_id -> includes ref id = false) ->
  single ids refs ->
  single ids (List.filter (fun r => negb (includes r action_id)) refs ++ [ref]).
Proof.
  intros Hquiet Hsingle id Hid. rewrite refsTo_app, List.length_app.
  destruct (String.eqb_spec id action_id) as [->|Hne].
  - rewrite refsTo_removed. destruct (includes ref action_id); simpl; lia.
  - rewrite (Hquiet id Hid Hne). simpl.
    pose proof (single_filter (fun r => negb (includes r action_id)) refs Hsingle id Hid). lia.
Qed.

(** Appending a reference to [action_id] when no entry contains it. *)
Lemma single_appended (action_id ref : string) (refs : list string) :
  (forall id, ids id -> id <> "") ->
  (forall id, ids id -> id <> action_id -> includes ref id = false) ->
  truthy (JString <$> findRef action_id refs) = false ->
  single ids refs ->
  single ids (refs ++ [ref]).
Proof.
  intros Hnonempty Hquiet Hfalsy Hsingle id Hid. rewrite refsTo_app, List.length_app.
  destruct (String.eqb_spec id action_id) as [->|Hne].
  - rewrite (truthy_found _ _ (Hnonempty _ Hid)) in Hfalsy.
    rewrite (refsTo_none _ _ Hfalsy). destruct (includes ref action_id); simpl; lia.
  - rewrite (Hquiet id Hid Hne). simpl. specialize (Hsingle id Hid). lia.
Qed.

(** One operation keeps Invariant A, provided the reference it encodes
    contains no id of the set other than its own. *)
Lemma perform_keeps_invariantA (op : Operation) (st : Store) :
  (forall id, ids id -> id <> "") ->
  (forall ref id, encodedRef op st = Some ref -> ids id -> id <> target op ->
                  includes ref id = false) ->
  invariantA ids st -> invariantA ids (snd (perform op st)).
Proof.
  intros Hnonempty Hquiet Hinv.
  rewrite invariantA_Forall in *.
  destruct op as [req agent_id action_id | req agent_id action_id
                 | req action_id | req action_id]; cbn [perform target encodedRef] in *.
  - (* bind *)
    destruct (visibleAgent req agent_id st) as [agent|] eqn:Hagent.
    2:{ now rewrite (bind_agent_missing _ _ _ _ Hagent). }
    destruct (storedAction action_id st) as [action|] eqn:Haction.
    2:{ now rewrite (bind_action_missing _ _ _ _ _ Hagent Haction). }
    destruct (truthy (JString <$> findRef action_id (actionRefs agent))) eqn:Hfound.
    { now rewrite (bind_present _ _ _ _ _ _ Hagent Haction Hfound). }
    rewrite (bind_appends _ _ _ _ _ _ Hagent Haction Hfound). cbn [snd agentDocs].
    apply Forall_updateFirst; [|exact Hinv].
    intros d _ _. unfold actionRefs at 1. cbn [applyAgentUpdate Agent.actions u_actions default].
    apply (single_appended action_id); [exact Hnonempty | | exact Hfound |].
    + intros id Hid Hne. now apply (Hquiet _ id eq_refl).
    + apply find_some_in in Hagent as [Hin _].
      rewrite List.Forall_forall in Hinv. now apply Hinv.
  - (* unbind *)
    destruct (visibleAgent req agent_id st) as [agent|] eqn:Hagent.
    2:{ unfold delete_agent_action, try_catch, bind, getAgent.
        unfold visibleAgent in Hagent. now rewrite Hagent. }
    destruct (scanActions action_id (actionRefs agent) (Some (JString "")))
      as [domain kept] eqn:Hscan.
    destruct (truthy domain) eqn:Htruthy.
    2:{ rewrite (unbind_rejects _ _ _ _ agent Hagent); [exact Hinv|].
        now rewrite Hscan. }
    rewrite (unbind_removes _ _ _ _ _ _ _ Hagent Hscan Htruthy). cbn [snd agentDocs].
    apply Forall_updateFirst; [|exact Hinv].
    intros d _ _. unfold actionRefs at 1. cbn [applyAgentUpdate Agent.actions u_actions default].
    pose proof (scanActions_kept action_id (actionRefs agent) (Some (JString ""))) as Hkept.
    rewrite Hscan in Hkept. simpl in Hkept. rewrite Hkept.
    apply single_filter.
    apply find_some_in in Hagent as [Hin _].
    rewrite List.Forall_forall in Hinv. now apply Hinv.
  - (* update *)
    set (metadata := encryptMetadata (removeNullishValues (body_metadata req) true)) in *.
    destruct (storedAction action_id st) as [action|] eqn:Haction.
    2:{ rewrite (proj1 (put_action_refuses req action_id st (or_introl Haction))).
        exact Hinv. }
    destruct (body_functions req) as [|f fs] eqn:Hfs.
    { rewrite (proj1 (put_action_refuses req action_id st (or_intror (or_introl Hfs)))).
      exact Hinv. }
    destruct (isActionDomainAllowed (metadata !! "domain")) eqn:Hallowed.
    2:{ rewrite (proj1 (put_action_refuses req action_id st
                          (or_intror (or_intror (or_introl Hallowed))))).
        exact Hinv. }
    destruct (truthy (domainParser req (metadata !! "domain") true)) eqn:Htruthy.
    2:{ rewrite (proj1 (put_action_refuses req action_id st
                          (or_intror (or_intror (or_intror Htruthy))))).
        exact Hinv. }
    rewrite (put_action_runs req action_id st action Haction); auto.
    2:{ rewrite Hfs. discriminate. }
    cbn [snd]. apply cascade_Forall; [|exact Hinv].
    intros agent Hin. cbn [updatedRefs u_actions].
    apply single_replaced.
    + intros id Hid Hne. now apply (Hquiet _ id eq_refl).
    + apply referringAgents_in in Hin.
      rewrite List.Forall_forall in Hinv. now apply Hinv.
  - (* delete *)
    destruct (storedAction action_id st) as [action|] eqn:Haction.
    2:{ now rewrite (delete_action_missing _ _ _ Haction). }
    rewrite (delete_action_runs req action_id st action Haction).
    cbn [snd]. apply cascade_Forall; [|exact Hinv].
    intros agent Hin. cbn [cleanedRefs u_actions].
    apply single_filter.
    apply referringAgents_in in Hin.
    rewrite List.Forall_forall in Hinv. now apply Hinv.
Qed.

End InvariantA.

(** C1, as the code has it.  A reference is matched to an action id by
    containment, so Invariant A holds of a set of (non-empty) action ids
    as long as no reference gets encoded that contains an id of the set
    other than the one it is encoded for: from a store in which no agent
    has two [actions] entries containing the same id of the set, every
    sequence of bind, unbind, update and delete operations without such a
    collision ends in a store with the same property. *)
Theorem invariantA_kept_without_collisions `{Externals}
  (ids : string -> Prop) (ops : list Operation) (st : Store) :
  (forall id, ids id -> id <> "") ->
  invariantA ids st ->
  noCollision ids ops st ->
  invariantA ids (performAll ops st).
Proof.
  intros Hnonempty. revert st.
  induction ops as [|op rest IH]; intros st Hinv Hquiet; [exact Hinv|].
  destruct Hquiet as [Hop Hrest].
  change (performAll (op :: rest) st) with (performAll rest (snd (perform op st))).
  apply IH; [|exact Hrest].
  now apply perform_keeps_invariantA.
Qed.

(** ** The sanitizer *)

Section Sanitizer.

Context `{Externals}.


Lemma sanitize_fold (m : Metadata) : sanitize m = fold_left strip sensitiveFields m.
Proof. reflexivity. Qed.

Lemma strip_same (m : Metadata) (field : string) :
  truthy (strip m field !! field) = false.
Proof.
  unfold strip. destruct (truthy (m !! field)) eqn:Ht; [|exact Ht].
  now rewrite lookup_delete_eq.
Qed.

Lemma strip_other (m : Metadata) (field key : string) :
  key <> field -> strip m field !! key = m !! key.
Proof.
  intros Hne. unfold strip. destruct (truthy (m !! field)); [|reflexivity].
  now rewrite lookup_delete_ne.
Qed.

Lemma strip_falsy (m : Metadata) (field key : string) :
  truthy (m !! key) = false -> strip m field !! key = m !! key.
Proof.
  intros Hfalsy. destruct (decide (key = field)) as [->|Hne].
  - unfold strip. now rewrite Hfalsy.
  - now apply strip_other.
Qed.

Lemma strips_falsy (fields : list string) (m : Metadata) (key : string) :
  truthy (m !! key) = false -> fold_left strip fields m !! key = m !! key.
Proof.
  revert m; induction fields as [|f fields IH]; intros m Hfalsy; [reflexivity|].
  simpl. rewrite IH; [now apply strip_falsy|].
  now rewrite strip_falsy.
Qed.

Lemma strips_other (fields : list string) (m : Metadata) (key : string) :
  ~ In key fields -> fold_left strip fields m !! key = m !! key.
Proof.
  revert m; induction fields as [|f fields IH]; intros m Hout; [reflexivity|].
  simpl. rewrite IH by (intros Hin; apply Hout; now right).
  apply strip_other. intros ->. apply Hout. now left.
Qed.

Lemma strips_listed (fields : list string) (m : Metadata) (field : string) :
  In field fields -> truthy (fold_left strip fields m !! field) = false.
Proof.
  revert m; induction fields as [|f fields IH]; intros m Hin; [destruct Hin|].
  simpl. destruct (decide (field = f)) as [->|Hne].
  - rewrite strips_falsy; apply strip_same.
  - apply IH. destruct Hin as [->|Hin]; [congruence | exact Hin].
Qed.

Lemma strips_deleted (fields : list string) (m : Metadata) (field : string) :
  In field fields -> truthy (m !! field) = true ->
  fold_left strip fields m !! field = None.
Proof.
  revert m; induction fields as [|f fields IH]; intros m Hin Htruthy; [destruct Hin|].
  simpl. destruct (decide (field = f)) as [->|Hne].
  - assert (Hgone : strip m f !! f = None).
    { unfold strip. rewrite Htruthy. apply lookup_delete_eq. }
    rewrite strips_falsy; [exact Hgone | now rewrite Hgone].
  - apply IH.
    + destruct Hin as [->|Hin]; [congruence | exact Hin].
    + now rewrite strip_other.
Qed.

Lemma updateFirst_in {A : Type} (p : A -> bool) (f : A -> A) (docs : list A) (d : A) :
  List.find p docs = Some d -> In (f d) (updateFirst p f docs).
Proof.
  induction docs as [|x docs IH]; simpl; [discriminate|].
  destruct (p x); [intros [= ->]; now left | intros Hfind; right; now apply IH].
Qed.

(** The create route answers 200 only with the sanitized copy of the
    document it stored, whose metadata is the encrypted metadata of the
    request. *)
Lemma post_root_answer (req : Req) (agent_id : option string) (fresh : string)
  (st st' : Store) (answer : Response) :
  post_root req agent_id fresh st = (answer, st') ->
  status answer = 200 ->
  exists stored,
    In stored (actionDocs st') /\ json answer = JAction (sanitizeAction stored) /\
    Action.metadata stored =
      encryptMetadata (removeNullishValues (body_metadata req) true).
Proof.
  unfold post_root, try_catch, bind, updateAction, ret.
  destruct (Nat.eqb (List.length (body_functions req)) 0);
    [intros [= <- _]; discriminate|].
  destruct (negb (isActionDomainAllowed _)); [intros [= <- _]; discriminate|].
  destruct (negb (truthy _)); [intros [= <- _]; discriminate|].
  destruct (List.find (actionMatches fresh) (actionDocs st)) as [old|] eqn:Hold;
    intros [= <- <-] _; eexists; (split; [|split; reflexivity]); cbn [actionDocs].
  - now apply updateFirst_in.
  - apply in_or_app. right. now left.
Qed.

(** So does the update route. *)
Lemma put_action_answer (req : Req) (action_id : string)
  (st st' : Store) (answer : Response) :
  put_action req action_id st = (answer, st') ->
  status answer = 200 ->
  exists stored,
    In stored (actionDocs st') /\ json answer = JAction (sanitizeAction stored) /\
    Action.metadata stored =
      encryptMetadata (removeNullishValues (body_metadata req) true).
Proof.
  intros Hrun Hok.
  set (metadata := encryptMetadata (removeNullishValues (body_metadata req) true)).
  assert (Hrefused : snd (put_action req action_id st) = st /\
                     status (fst (put_action req action_id st)) <> 200 -> False).
  { intros [_ Hstatus]. rewrite Hrun in Hstatus. now apply Hstatus. }
  destruct (storedAction action_id st) as [action|] eqn:Haction.
  2:{ exfalso. apply Hrefused, put_action_refuses. now left. }
  destruct (body_functions req) as [|f fs] eqn:Hfs.
  { exfalso. apply Hrefused, put_action_refuses. right. now left. }
  destruct (isActionDomainAllowed (metadata !! "domain")) eqn:Hallowed.
  2:{ exfalso. apply Hrefused, put_action_refuses. right. right. now left. }
  destruct (truthy (domainParser req (metadata !! "domain") true)) eqn:Htruthy.
  2:{ exfalso. apply Hrefused, put_action_refuses. right. right. now right. }
  rewrite (put_action_runs req action_id st action Haction) in Hrun;
    [|rewrite Hfs; discriminate | exact Hallowed | exact Htruthy].
  injection Hrun as <- <-. eexists. split; [|split; reflexivity].
  rewrite cascade_actionDocs. cbn [actionDocs]. now apply updateFirst_in.
Qed.

(** What the loop does to one sensitive field of a document. *)
Lemma sanitizeAction_field (stored : Action.t) (field : string) :
  In field sensitiveFields ->
  truthy (Action.metadata (sanitizeAction stored) !! field) = false /\
  (truthy (Action.metadata stored !! field) = true ->
   Action.metadata (sanitizeAction stored) !! field = None) /\
  (truthy (Action.metadata stored !! field) = false ->
   Action.metadata (sanitizeAction stored) !! field = Action.metadata stored !! field).
Proof.
  intros Hfield. cbn [sanitizeAction Action.metadata]. rewrite sanitize_fold.
  split; [now apply strips_listed|]. split.
  - now apply strips_deleted.
  - apply strips_falsy.
Qed.

(** C5, as the code has it.  The loop deletes a sensitive field exactly
    when its value is truthy.  So in what it returns a sensitive field
    that had a truthy value is gone (the key is absent, not merely
    emptied), a sensitive field whose value is falsy (the empty string,
    [false], [null]) is still there with that value, hence no sensitive
    field has a truthy value, and every other field is untouched.  The
    create and the update route answer 200 with such a sanitized copy of
    the document they stored, whose metadata is the encrypted metadata of
    the request: a truthy secret of the request is absent from the
    answer, a falsy one is in it. *)
Theorem sanitize_strips_truthy_secrets (field : string) :
  In field sensitiveFields ->
  (forall m : Metadata,
     truthy (sanitize m !! field) = false /\
     (truthy (m !! field) = true -> sanitize m !! field = None) /\
     (truthy (m !! field) = false -> sanitize m !! field = m !! field)) /\
  (forall (m : Metadata) key, ~ In key sensitiveFields -> sanitize m !! key = m !! key) /\
  (forall req agent_id fresh st answer st',
     post_root req agent_id fresh st = (answer, st') -> status answer = 200 ->
     exists stored,
       In stored (actionDocs st') /\ json answer = JAction (sanitizeAction stored) /\
       Action.metadata stored =
         encryptMetadata (removeNullishValues (body_metadata req) true) /\
       truthy (Action.metadata (sanitizeAction stored) !! field) = false /\
       (truthy (Action.metadata stored !! field) = true ->
        Action.metadata (sanitizeAction stored) !! field = None) /\
       (truthy (Action.metadata stored !! field) = false ->
        Action.metadata (sanitizeAction stored) !! field = Action.metadata stored !! field)) /\
  (forall req action_id st answer st',
     put_action req action_id st = (answer, st') -> status answer = 200 ->
     exists stored,
       In stored (actionDocs st') /\ json answer = JAction (sanitizeAction stored) /\
       Action.metadata stored =
         encryptMetadata (removeNullishValues (body_metadata req) true) /\
       truthy (Action.metadata (sanitizeAction stored) !! field) = false /\
       (truthy (Action.metadata stored !! field) = true ->
        Action.metadata (sanitizeAction stored) !! field = None) /\
       (truthy (Action.metadata stored !! field) = false ->
        Action.metadata (sanitizeAction stored) !! field = Action.metadata stored !! field)).
Proof.
  intros Hfield. split; [|split; [|split]].
  - intros m. rewrite sanitize_fold. split; [|split].
    + now apply strips_listed.
    + now apply strips_deleted.
    + apply strips_falsy.
  - intros m key Hout. rewrite sanitize_fold. now apply strips_other.
  - intros req agent_id fresh st answer st' Hrun Hok.
    destruct (post_root_answer _ _ _ _ _ _ Hrun Hok) as [stored [Hin [Hjson Hmeta]]].
    exists stored. split; [exact Hin|]. split; [exact Hjson|]. split; [exact Hmeta|].
    now apply sanitizeAction_field.
  - intros req action_id st answer st' Hrun Hok.
    destruct (put_action_answer _ _ _ _ _ Hrun Hok) as [stored [Hin [Hjson Hmeta]]].
    exists stored. split; [exact Hin|]. split; [exact Hjson|]. split; [exact Hmeta|].
    now apply sanitizeAction_field.
Qed.

End Sanitizer.

(** ** The properties on sample stores *)

Section OnSamples.

Import LibreChat Samples.

Lemma unbind_without_entry_is_rejected_witness :
  let answer := {| status := 400; json := JMessage "No domain provided" |} in
  delete_agent_action (H := externals) asAlice "A1" "abc" unbound = (answer, unbound) /\
  errorKind answer = Some ValidationError.
Proof.
  apply (unbind_without_entry_is_rejected (H := externals) asAlice "A1" "abc" unbound
           (Agent.mk "A1" "u-alice" None None)).
  - reflexivity.
  - intros ref Hin. destruct Hin.
Defined.

Lemma delete_missing_action_answers_500_witness :
  let answer := {| status := 500; json := JMessage "Trouble deleting the Agent Action" |} in
  delete_action (H := externals) asAlice "zzz" unbound = (answer, unbound) /\
  errorKind answer = Some StoreError /\
  errorKind answer <> Some NotFound.
Proof.
  apply (delete_missing_action_answers_500 (H := externals) asAlice "zzz" unbound).
  reflexivity.
Defined.

Lemma agent_lookup_is_scoped_witness :
  (post_agent_action (H := externals) asBob "A1" "abc" unbound =
     ({| status := 404; json := JMessage "Agent not found for adding action" |}, unbound)) /\
  (visibleAgent (H := externals) asRoot "A1" unbound =
     Some (Agent.mk "A1" "u-alice" None None)).
Proof.
  split.
  - apply (agent_lookup_is_scoped_to_author_unless_admin (H := externals)
             asBob "A1" "abc" unbound).
    + reflexivity.
    + intros agent [<-|[]] _. vm_compute. discriminate.
  - apply (agent_lookup_is_scoped_to_author_unless_admin (H := externals)
             asRoot "A1" "abc" unbound); reflexivity.
Defined.

Lemma bind_twice_is_bind_once_witness :
  let st1 := snd (post_agent_action (H := externals) asAlice "A1" "abc" unbound) in
  let answer := {| status := 200; json := JMessage "Action added successfully" |} in
  post_agent_action (H := externals) asAlice "A1" "abc" st1 = (answer, st1) /\
  agentWrites (snd (post_agent_action (H := externals) asAlice "A1" "abc" st1)) = agentWrites st1 /\
  (forall agent ref,
     visibleAgent (H := externals) asAlice "A1" unbound = Some agent ->
     In ref (actionRefs agent) -> includes ref "abc" = true ->
     st1 = unbound).
Proof.
  apply (bind_twice_is_bind_once (H := externals) asAlice "A1" "abc" unbound).
  - discriminate.
  - vm_compute. reflexivity.
  - reflexivity.
Defined.

Lemma empty_domain_entry_blocks_unbind_while_last_witness :
  let st1 := snd (post_agent_action (H := blank) asAlice "A1" "abc" unbound) in
  let entry := encodeActionRef (H := blank) "" "abc" in
  (exists agent1,
     visibleAgent (H := blank) asAlice "A1" st1 = Some agent1 /\
     actionRefs agent1 = actionRefs (Agent.mk "A1" "u-alice" None None) ++ [entry]) /\
  hd_error (splitActionRef (H := blank) entry) = Some "" /\
  delete_agent_action (H := blank) asAlice "A1" "abc" st1 =
    ({| status := 400; json := JMessage "No domain provided" |}, st1) /\
  errorKind (fst (delete_agent_action (H := blank) asAlice "A1" "abc" st1)) = Some ValidationError /\
  (forall n,
     Nat.iter n (fun s => snd (delete_agent_action (H := blank) asAlice "A1" "abc" s)) st1 = st1) /\
  (forall st2 agent2 before after,
     visibleAgent (H := blank) asAlice "A1" st2 = Some agent2 ->
     actionRefs agent2 = before ++ entry :: after ->
     (forall ref, In ref after -> includes ref "abc" = false) ->
     delete_agent_action (H := blank) asAlice "A1" "abc" st2 =
       ({| status := 400; json := JMessage "No domain provided" |}, st2)) /\
  (forall st2 agent2 before after ref first,
     visibleAgent (H := blank) asAlice "A1" st2 = Some agent2 ->
     actionRefs agent2 = before ++ ref :: after ->
     In entry before ->
     includes ref "abc" = true ->
     (forall r, In r after -> includes r "abc" = false) ->
     hd_error (splitActionRef (H := blank) ref) = Some first ->
     first <> "" ->
     let run := delete_agent_action (H := blank) asAlice "A1" "abc" st2 in
     status (fst run) = 200 /\
     exists agent3,
       visibleAgent (H := blank) asAlice "A1" (snd run) = Some agent3 /\
       actionRefs agent3 =
         List.filter (fun r => negb (includes r "abc")) (actionRefs agent2) /\
       ~ In entry (actionRefs agent3)).
Proof.
  apply (empty_domain_entry_blocks_unbind_while_last (H := blank) asAlice "A1" "abc" unbound
           (Agent.mk "A1" "u-alice" None None)
           (Action.mk "abc" {[ "domain" := JString "ab.io"; "api_key" := JString "k" ]}
              None "u-alice" ["lookup"])).
  - discriminate.
  - reflexivity.
  - reflexivity.
  - reflexivity.
  - intros ref [].
Defined.

(** C10 fails as stated.  The parser resolves the domain of the action
    [abc] to the empty string, so binding it leaves the entry
    [_action_abc], and unbinding [abc] answers 400.  Alice then binds the
    action [xyz], whose parsed domain is [abc---io]: its entry
    [abc---io_action_xyz] contains [abc] too and comes last.  Now the same
    unbind request reads [abc---io] as the domain, answers 200 and removes
    both entries: the entry with the empty domain has been removed through
    the unbind route. *)
Lemma empty_domain_entry_can_be_unbound :
  let st1 := snd (post_agent_action (H := dotted) asAlice "A1" "abc" shadowed) in
  let st2 := snd (post_agent_action (H := dotted) asAlice "A1" "xyz" st1) in
  let run := delete_agent_action (H := dotted) asAlice "A1" "abc" st2 in
  domainParser (Externals := dotted) asAlice (Some (JString "localhost")) true =
    Some (JString "") /\
  actionRefs <$> visibleAgent (H := dotted) asAlice "A1" st1 = Some ["_action_abc"] /\
  delete_agent_action (H := dotted) asAlice "A1" "abc" st1 =
    ({| status := 400; json := JMessage "No domain provided" |}, st1) /\
  actionRefs <$> visibleAgent (H := dotted) asAlice "A1" st2 =
    Some ["_action_abc"; "abc---io_action_xyz"] /\
  fst (scanActions (H := dotted) "abc" ["_action_abc"; "abc---io_action_xyz"]
         (Some (JString ""))) = Some (JString "abc---io") /\
  fst run = {| status := 200; json := JMessage "Action deleted for agent successfully" |} /\
  errorKind (fst run) = None /\
  actionRefs <$> visibleAgent (H := dotted) asAlice "A1" (snd run) = Some [].
Proof. vm_compute. repeat split. Qed.

(** C8 fails as stated.  Alice has bound two actions to her agent, whose
    domains are [ab---io] and [x---ab---io].  Unbinding the first succeeds
    with [ab---io] as extracted domain and leaves no tool at all: the tool
    of the second action, whose domain component is a different domain,
    is removed too, where the specification's rule keeps it. *)
Lemma unbind_drops_tool_of_other_domain :
  let run := delete_agent_action (H := externals) asAlice "A1" "abc" twoDomains in
  let before := ["lookup_action_ab---io"; "search_action_x---ab---io"] in
  status (fst run) = 200 /\
  fst (scanActions (H := externals) "abc"
         ["ab---io_action_abc"; "x---ab---io_action_xyz"] (Some (JString "")))
    = Some (JString "ab---io") /\
  toolRefDomain (H := externals) "search_action_x---ab---io" = Some "x---ab---io" /\
  toolRefs <$> visibleAgent (H := externals) asAlice "A1" twoDomains = Some before /\
  toolRefs <$> visibleAgent (H := externals) asAlice "A1" (snd run) = Some [] /\
  spec_unbindTools (H := externals) "ab---io" before = ["search_action_x---ab---io"] /\
  toolRefs <$> visibleAgent (H := externals) asAlice "A1" (snd run)
    <> Some (spec_unbindTools (H := externals) "ab---io" before).
Proof. vm_compute. repeat split; discriminate. Qed.

Lemma unbind_drops_tools_containing_domain_witness :
  let run := delete_agent_action (H := externals) asAlice "A1" "abc" twoDomains in
  let agent :=
    Agent.mk "A1" "u-alice"
      (Some ["ab---io_action_abc"; "x---ab---io_action_xyz"])
      (Some ["lookup_action_ab---io"; "search_action_x---ab---io"]) in
  exists domain agent',
    fst (scanActions (H := externals) "abc" (actionRefs agent) (Some (JString "")))
      = Some (JString domain) /\
    domain <> "" /\
    visibleAgent (H := externals) asAlice "A1" (snd run) = Some agent' /\
    toolRefs agent' = List.filter (fun tool => negb (includes tool domain)) (toolRefs agent) /\
    (forall tool, toolRefDomain (H := externals) tool = Some domain ->
                  ~ In tool (toolRefs agent')) /\
    (forall tool, In tool (toolRefs agent) -> includes tool domain = false ->
                  In tool (toolRefs agent')).
Proof.
  apply (unbind_drops_tools_containing_domain (H := externals) asAlice "A1" "abc"
           twoDomains _ _
           {| status := 200; json := JMessage "Action deleted for agent successfully" |}).
  - reflexivity.
  - vm_compute. reflexivity.
  - reflexivity.
Defined.

(** C1 fails as stated.  Both identifiers are well-formed, and the agent
    starts without any reference.  Binding the first action gives the
    agent one entry.  Binding the second appends
    [localhost_action_V1StGXR8_Z5jdHi6B-myT], which contains the first
    identifier as well: the agent now has two entries containing it. *)
Lemma bind_can_break_invariantA :
  let ids := fun id => id = firstId \/ id = secondId in
  let once := performAll (H := externals) [Bind asAlice "A1" firstId] collision in
  let twice := performAll (H := externals) [Bind asAlice "A1" secondId] once in
  invariantA ids collision /\
  invariantA ids once /\
  twice = performAll (H := externals)
            [Bind asAlice "A1" firstId; Bind asAlice "A1" secondId] collision /\
  actionRefs <$> visibleAgent (H := externals) asAlice "A1" twice =
    Some ["localhost_action_lhost_action_V1StGXR8";
          "localhost_action_V1StGXR8_Z5jdHi6B-myT"] /\
  refsTo firstId
    ["localhost_action_lhost_action_V1StGXR8"; "localhost_action_V1StGXR8_Z5jdHi6B-myT"] =
    ["localhost_action_lhost_action_V1StGXR8"; "localhost_action_V1StGXR8_Z5jdHi6B-myT"] /\
  ~ invariantA ids twice.
Proof.
  split; [|split; [|split; [|split; [|split]]]].
  - intros agent [<-|[]] id [->| ->]; vm_compute; lia.
  - intros agent [<-|[]] id [->| ->]; vm_compute; lia.
  - reflexivity.
  - vm_compute. reflexivity.
  - vm_compute. reflexivity.
  - intros Hinv.
    specialize (Hinv
      (Agent.mk "A1" "u-alice"
         (Some ["localhost_action_lhost_action_V1StGXR8";
                "localhost_action_V1StGXR8_Z5jdHi6B-myT"])
         (Some ["pong_action_localhost"]))).
    assert (Hlen : 2 <= 1); [|lia].
    apply (Hinv (or_introl eq_refl) firstId (or_introl eq_refl)).
Qed.

Lemma invariantA_kept_without_collisions_witness :
  let ids := fun id => id = "abc" \/ id = "xyz" in
  let ops :=
    [Unbind asAlice "A1" "abc"; Bind asAlice "A1" "abc";
     Update (withBody {[ "domain" := JString "cd.io" ]}) "xyz"; Delete asAlice "abc"] in
  invariantA ids (performAll (H := externals) ops twoDomains).
Proof.
  apply (invariantA_kept_without_collisions (H := externals) _ _ twoDomains).
  - intros id [->| ->]; discriminate.
  - intros agent [<-|[]] id [->| ->]; vm_compute; lia.
  - cbn [noCollision]. repeat split;
      intros ref id Href Hid Hne; vm_compute in Href; try discriminate;
      injection Href as <-; destruct Hid as [->| ->];
      try reflexivity; exfalso; apply Hne; reflexivity.
Defined.

(** C3, at a failing input.  The agent was bound while the action's domain
    was [ab.io], which the parser writes as [ab---io].  Updating the
    action to the domain [cd.io] re-encodes the agent's single action
    reference, and appends the tool of the new domain, but the tool of
    the old domain is still there: the route filters the tools with the
    domain as stored ([ab.io]), which the references do not contain. *)
Theorem update_keeps_tools_of_old_domain :
  let st1 := snd (post_agent_action (H := externals) asAlice "A1" "abc" unbound) in
  let run := put_action (H := externals) (withBody {[ "domain" := JString "cd.io" ]}) "abc" st1 in
  toolRefs <$> visibleAgent (H := externals) asAlice "A1" st1 = Some ["lookup_action_ab---io"] /\
  status (fst run) = 200 /\
  actionRefs <$> visibleAgent (H := externals) asAlice "A1" (snd run) =
    Some ["cd---io_action_abc"] /\
  toolRefs <$> visibleAgent (H := externals) asAlice "A1" (snd run) =
    Some ["lookup_action_ab---io"; "lookup_action_cd---io"] /\
  toolRefDomain (H := externals) "lookup_action_ab---io" =
    Some (toString (parseDomain asAlice (Some (JString "ab.io")) true)).
Proof. vm_compute. repeat split. Qed.

(** With a parser that leaves the domain as it is stored, the same update
    does remove the tool of the old domain. *)
Example update_with_plain_parser_drops_old_tools :
  let st1 := snd (post_agent_action (H := plain) asAlice "A1" "abc" unbound) in
  let run := put_action (H := plain) (withBody {[ "domain" := JString "cd.io" ]}) "abc" st1 in
  toolRefs <$> visibleAgent (H := plain) asAlice "A1" st1 = Some ["lookup_action_ab.io"] /\
  toolRefs <$> visibleAgent (H := plain) asAlice "A1" (snd run) = Some ["lookup_action_cd.io"].
Proof. vm_compute. repeat split. Qed.

(** C4 fails as stated.  Neither [x_action] nor [abc] contains the
    delimiter [_action_], yet the reference [x_action_action_abc] splits
    into [x] and [action_abc].  And a domain that does contain the
    delimiter is encoded without complaint: the bind route answers 200
    and stores the reference. *)
Lemma delimiter_free_parts_need_not_round_trip :
  let run := post_agent_action (H := plain) asAlice "A1" "abc" delimited in
  includes "x_action" (actionDelimiter (Externals := externals)) = false /\
  includes "abc" (actionDelimiter (Externals := externals)) = false /\
  splitActionRef (H := externals) (encodeActionRef (H := externals) "x_action" "abc")
    = ["x"; "action_abc"] /\
  splitActionRef (H := externals) (encodeActionRef (H := externals) "x_action" "abc")
    <> ["x_action"; "abc"] /\
  spec_encodeActionRef (H := plain) "a_action_b" "abc" = inl InvalidReferenceFormat /\
  status (fst run) = 200 /\
  errorKind (fst run) = None /\
  actionRefs <$> visibleAgent (H := plain) asAlice "A1" (snd run) =
    Some ["a_action_b_action_abc"].
Proof. vm_compute. repeat split; discriminate. Qed.

Lemma action_ref_round_trip_witness :
  (splitActionRef (H := externals) (encodeActionRef (H := externals) "ab---io" "abc")
     = ["ab---io"; "abc"] <->
   includes ("ab---io" +:+ init (actionDelimiter (Externals := externals)))
     (actionDelimiter (Externals := externals)) = false /\
   includes "abc" (actionDelimiter (Externals := externals)) = false) /\
  (spec_encodeActionRef (H := externals) "ab---io" "abc" = inl InvalidReferenceFormat ->
   encodeActionRef (H := externals) "ab---io" "abc" =
     "ab---io" +:+ actionDelimiter (Externals := externals) +:+ "abc" /\
   splitActionRef (H := externals) (encodeActionRef (H := externals) "ab---io" "abc")
     <> ["ab---io"; "abc"]).
Proof.
  apply (action_ref_round_trip (H := externals) "ab---io" "abc").
  discriminate.
Defined.

(** C5 fails as stated.  A metadata whose [api_key] is the empty string
    comes out of the loop with its [api_key]; and a create request whose
    [api_key] is [false] is answered with metadata that still has the
    [api_key] field. *)
Lemma falsy_secret_is_returned :
  let m : Metadata := {[ "domain" := JString "ab.io"; "api_key" := JString "" ]} in
  let req := withBody {[ "domain" := JString "ab.io"; "api_key" := JBool false ]} in
  let answer := fst (post_root (H := externals) req None "abc" empty) in
  sanitize m !! "api_key" = Some (JString "") /\
  status answer = 200 /\
  exists returned,
    json answer = JAction returned /\
    Action.metadata returned !! "api_key" = Some (JBool false).
Proof.
  split; [vm_compute; reflexivity|]. split; [vm_compute; reflexivity|].
  eexists. split; vm_compute; reflexivity.
Qed.

Lemma sanitize_strips_truthy_secrets_witness :
  let m : Metadata := {[ "domain" := JString "ab.io"; "api_key" := JString "k" ]} in
  (truthy (sanitize m !! "api_key") = false /\
   (truthy (m !! "api_key") = true -> sanitize m !! "api_key" = None) /\
   (truthy (m !! "api_key") = false -> sanitize m !! "api_key" = m !! "api_key")) /\
  sanitize m !! "api_key" = None /\
  sanitize m !! "domain" = m !! "domain".
Proof.
  intros m.
  assert (Hfield : In "api_key" sensitiveFields) by now left.
  pose proof (sanitize_strips_truthy_secrets (H := externals) "api_key" Hfield) as W.
  split; [exact (proj1 W m)|]. split.
  - exact (proj1 (proj2 (proj1 W m)) eq_refl).
  - apply (proj1 (proj2 W)). intros [Hin|[Hin|[Hin|[]]]]; discriminate.
Defined.

End OnSamples.

(** * Further properties of the routes *)

(** ** Creating an action *)

Section Creating.

Context `{Externals}.

Lemma find_app_none {A : Type} (p : A -> bool) (docs : list A) (d : A) :
  List.find p docs = None -> p d = true -> List.find p (docs ++ [d]) = Some d.
Proof.
  induction docs as [|x docs IH]; simpl; intros Hnone Hd; [now rewrite Hd|].
  destruct (p x); [discriminate | now apply IH].
Qed.

Lemma nonempty_length {A : Type} (l : list A) :
  l <> [] -> Nat.eqb (List.length l) 0 = false.
Proof. destruct l; [congruence | reflexivity]. Qed.

(** The create route checks the functions, then the allow-list, then the
    parsed domain, and answers the first failure with 400 and its own
    message; nothing is written in any of these cases. *)
Theorem create_checks_before_writing
  (req : Req) (agent_id : option string) (fresh : string) (st : Store) :
  let metadata := encryptMetadata (removeNullishValues (body_metadata req) true) in
  (body_functions req = [] ->
   post_root req agent_id fresh st =
     ({| status := 400; json := JMessage "No functions provided" |}, st)) /\
  (body_functions req <> [] ->
   isActionDomainAllowed (metadata !! "domain") = false ->
   post_root req agent_id fresh st =
     ({| status := 400; json := JMessage "Domain not allowed" |}, st)) /\
  (body_functions req <> [] ->
   isActionDomainAllowed (metadata !! "domain") = true ->
   truthy (domainParser req (metadata !! "domain") true) = false ->
   post_root req agent_id fresh st =
     ({| status := 400; json := JMessage "No domain provided" |}, st)).
Proof.
  intros metadata. unfold post_root, try_catch. fold metadata. repeat split.
  - intros ->. reflexivity.
  - intros Hfs Hdenied. rewrite (nonempty_length _ Hfs), Hdenied. reflexivity.
  - intros Hfs Hallowed Hfalsy.
    rewrite (nonempty_length _ Hfs), Hallowed, Hfalsy. reflexivity.
Qed.

(** What a 200 of the create route means. *)
Lemma post_root_succeeds (req : Req) (agent_id : option string) (fresh : string)
  (st st' : Store) (answer : Response) :
  let metadata := encryptMetadata (removeNullishValues (body_metadata req) true) in
  let data :=
    {| u_metadata := metadata; u_agent_id := agent_id; u_user := User.id (user req);
       u_functions := map (fun tool => name (function tool)) (body_functions req) |} in
  post_root req agent_id fresh st = (answer, st') ->
  status answer = 200 ->
  exists stored,
    updateAction fresh data st = (Value stored, st') /\
    json answer = JAction (sanitizeAction stored).
Proof.
  intros metadata data. unfold post_root, try_catch, bind, ret. fold metadata.
  destruct (Nat.eqb (List.length (body_functions req)) 0);
    [intros [= <- _]; discriminate|].
  destruct (negb (isActionDomainAllowed _)); [intros [= <- _]; discriminate|].
  destruct (negb (truthy _)); [intros [= <- _]; discriminate|].
  fold data. unfold updateAction.
  destruct (List.find (actionMatches fresh) (actionDocs st)) as [old|];
    intros [= <- <-] _; eexists; split; reflexivity.
Qed.

Lemma actionMatches_update (action_id : string) (u : ActionUpdate) (a : Action.t) :
  actionMatches action_id (applyActionUpdate u a) = actionMatches action_id a.
Proof. reflexivity. Qed.

(** After a 200 of the create route the store holds, under the new
    identifier, the metadata as encrypted, not as sanitized, with the
    requester as user and the names of the functions; the answer is the
    sanitized copy of that document.  No agent is touched: creating an
    action binds it to nobody.  The path of the route has no [agent_id]
    parameter, so [req.params.agent_id] is [undefined]: when the
    identifier was not in use, the new document is appended and has no
    [agent_id]. *)
Theorem create_stores_unsanitized_and_binds_nobody
  (req : Req) (fresh : string) (st st' : Store) (answer : Response) :
  let metadata := encryptMetadata (removeNullishValues (body_metadata req) true) in
  post_root req None fresh st = (answer, st') ->
  status answer = 200 ->
  exists stored,
    storedAction fresh st' = Some stored /\
    Action.metadata stored = metadata /\
    Action.user stored = User.id (user req) /\
    Action.functions stored = map (fun tool => name (function tool)) (body_functions req) /\
    json answer = JAction (sanitizeAction stored) /\
    agentDocs st' = agentDocs st /\
    agentWrites st' = agentWrites st /\
    (storedAction fresh st = None ->
     actionDocs st' = actionDocs st ++ [stored] /\ Action.agent_id stored = None).
Proof.
  intros metadata Hrun Hok.
  destruct (post_root_succeeds _ _ _ _ _ _ Hrun Hok) as [stored [Hstore Hjson]].
  clear Hrun.
  unfold updateAction, storedAction in *. fold metadata in Hstore.
  destruct (List.find (actionMatches fresh) (actionDocs st)) as [old|] eqn:Hold;
    injection Hstore as Hstored Hst'; subst stored st'.
  - eexists. split.
    + cbn [actionDocs]. rewrite find_updateFirst; [now rewrite Hold|].
      intros d Hd. now rewrite actionMatches_update.
    + repeat split; try reflexivity; try exact Hjson; discriminate.
  - eexists. split.
    + cbn [actionDocs]. apply find_app_none; [exact Hold|].
      unfold actionMatches. cbn [Action.action_id]. apply String.eqb_refl.
    + repeat split; try reflexivity; exact Hjson.
Qed.

End Creating.

(** ** Updating an action *)

Section Updating.

Context `{Externals}.

(** The update route looks the action up first, then checks the
    functions, the allow-list and the parsed domain, and answers the
    first failure (404 for a missing action, 400 otherwise) with its own
    message; nothing is written in any of these cases. *)
Theorem update_checks_before_writing (req : Req) (action_id : string) (st : Store) :
  let metadata := encryptMetadata (removeNullishValues (body_metadata req) true) in
  (storedAction action_id st = None ->
   put_action req action_id st =
     ({| status := 404; json := JMessage "Action not found" |}, st)) /\
  (storedAction action_id st <> None ->
   body_functions req = [] ->
   put_action req action_id st =
     ({| status := 400; json := JMessage "No functions provided" |}, st)) /\
  (storedAction action_id st <> None ->
   body_functions req <> [] ->
   isActionDomainAllowed (metadata !! "domain") = false ->
   put_action req action_id st =
     ({| status := 400; json := JMessage "Domain not allowed" |}, st)) /\
  (storedAction action_id st <> None ->
   body_functions req <> [] ->
   isActionDomainAllowed (metadata !! "domain") = true ->
   truthy (domainParser req (metadata !! "domain") true) = false ->
   put_action req action_id st =
     ({| status := 400; json := JMessage "No domain provided" |}, st)).
Proof.
  intros metadata. unfold put_action, try_catch, bind, getAction, storedAction.
  fold metadata.
  destruct (List.find (actionMatches action_id) (actionDocs st)) as [action|].
  - repeat split.
    + discriminate.
    + intros _ ->. reflexivity.
    + intros _ Hfs Hdenied. rewrite (nonempty_length _ Hfs), Hdenied. reflexivity.
    + intros _ Hfs Hallowed Hfalsy.
      rewrite (nonempty_length _ Hfs), Hallowed, Hfalsy. reflexivity.
  - repeat split; try reflexivity; intros Hsome; now contradiction Hsome.
Qed.

(** What a 200 of the update route means. *)
Lemma put_action_succeeds (req : Req) (action_id : string)
  (st st' : Store) (answer : Response) :
  let metadata := encryptMetadata (removeNullishValues (body_metadata req) true) in
  put_action req action_id st = (answer, st') ->
  status answer = 200 ->
  exists action,
    storedAction action_id st = Some action /\
    body_functions req <> [] /\
    isActionDomainAllowed (metadata !! "domain") = true /\
    truthy (domainParser req (metadata !! "domain") true) = true.
Proof.
  intros metadata Hrun Hok.
  assert (Hrefused : snd (put_action req action_id st) = st /\
                     status (fst (put_action req action_id st)) <> 200 -> False).
  { intros [_ Hstatus]. rewrite Hrun in Hstatus. now apply Hstatus. }
  destruct (storedAction action_id st) as [action|] eqn:Haction.
  2:{ exfalso. apply Hrefused, put_action_refuses. now left. }
  destruct (body_functions req) as [|f fs] eqn:Hfs.
  { exfalso. apply Hrefused, put_action_refuses. right. now left. }
  destruct (isActionDomainAllowed (metadata !! "domain")) eqn:Hallowed.
  2:{ exfalso. apply Hrefused, put_action_refuses. right. right. now left. }
  destruct (truthy (domainParser req (metadata !! "domain") true)) eqn:Htruthy.
  2:{ exfalso. apply Hrefused, put_action_refuses. right. right. now right. }
  exists action. repeat split. discriminate.
Qed.

Lemma length_updateFirst {A : Type} (p : A -> bool) (f : A -> A) (docs : list A) :
  List.length (updateFirst p f docs) = List.length docs.
Proof.
  induction docs as [|x docs IH]; simpl; [reflexivity|].
  destruct (p x); simpl; [reflexivity | now rewrite IH].
Qed.

(** After a 200 of the update route the action has the metadata of the
    request (as encrypted; the old metadata is replaced, not merged) and
    the names of its functions, its user is the requester, whoever that
    was before, and its [agent_id] is as it was.  No other action
    changes and none is added or removed. *)
Theorem update_replaces_metadata_and_restamps_user
  (req : Req) (action_id : string) (st st' : Store) (answer : Response) :
  let metadata := encryptMetadata (removeNullishValues (body_metadata req) true) in
  put_action req action_id st = (answer, st') ->
  status answer = 200 ->
  exists old,
    storedAction action_id st = Some old /\
    storedAction action_id st' =
      Some (Action.mk (Action.action_id old) metadata (Action.agent_id old)
              (User.id (user req))
              (map (fun tool => name (function tool)) (body_functions req))) /\
    (forall other, other <> action_id ->
                   storedAction other st' = storedAction other st) /\
    List.length (actionDocs st') = List.length (actionDocs st).
Proof.
  intros metadata Hrun Hok.
  destruct (put_action_succeeds _ _ _ _ _ Hrun Hok)
    as [old [Hold [Hfs [Hallowed Htruthy]]]].
  rewrite (put_action_runs req action_id st old Hold Hfs Hallowed Htruthy) in Hrun.
  injection Hrun as _ Hst'. subst st'.
  exists old. split; [exact Hold|].
  unfold storedAction in *. rewrite cascade_actionDocs. cbn [actionDocs].
  split; [|split].
  - rewrite find_updateFirst; [now rewrite Hold|].
    intros d Hd. now rewrite actionMatches_update.
  - intros other Hother. apply find_updateFirst_other.
    intros d Hd. unfold actionMatches in *. cbn [applyActionUpdate Action.action_id].
    apply String.eqb_eq in Hd. rewrite Hd.
    assert (String.eqb action_id other = false) as ->; [|now split].
    apply String.eqb_neq. congruence.
  - apply length_updateFirst.
Qed.

End Updating.

(** ** Deleting an action *)

Section Deleting.

Context `{Externals}.

Lemma find_removeFirst_other {A : Type} (p q : A -> bool) (docs : list A) :
  (forall d, q d = true -> p d = false) ->
  List.find p (removeFirst q docs) = List.find p docs.
Proof.
  intros Hother. induction docs as [|x docs IH]; simpl; [reflexivity|].
  destruct (q x) eqn:Hqx; simpl.
  - now rewrite (Hother x Hqx).
  - now rewrite IH.
Qed.

Lemma find_removeFirst_unique (action_id : string) (docs : list Action.t) :
  List.NoDup (map Action.action_id docs) ->
  List.find (actionMatches action_id) (removeFirst (actionMatches action_id) docs) = None.
Proof.
  induction docs as [|x docs IH]; simpl; intros Hnodup; [reflexivity|].
  inversion Hnodup as [|? ? Hfresh Hrest]; subst.
  destruct (actionMatches action_id x) eqn:Hx; simpl.
  - apply find_none_iff. intros d Hd. unfold actionMatches in *.
    apply String.eqb_eq in Hx. apply String.eqb_neq. intros Heq.
    apply Hfresh. rewrite Hx, <- Heq. now apply in_map.
  - rewrite Hx. now apply IH.
Qed.

(** The delete route removes the action whoever asks for it, and leaves
    every other action alone.  When action ids are unique in the store
    the id is gone for good: deleting it again answers 500 and changes
    nothing, updating it answers 404, and binding it to a visible agent
    answers 404. *)
Theorem delete_removes_the_action_for_good
  (req : Req) (action_id : string) (st : Store) (action : Action.t) :
  storedAction action_id st = Some action ->
  List.NoDup (map Action.action_id (actionDocs st)) ->
  let st' := snd (delete_action req action_id st) in
  status (fst (delete_action req action_id st)) = 200 /\
  storedAction action_id st' = None /\
  (forall other, other <> action_id -> storedAction other st' = storedAction other st) /\
  (forall again,
     delete_action again action_id st' =
       ({| status := 500; json := JMessage "Trouble deleting the Agent Action" |}, st')) /\
  (forall again,
     put_action again action_id st' =
       ({| status := 404; json := JMessage "Action not found" |}, st')) /\
  (forall again agent_id,
     visibleAgent again agent_id st' <> None ->
     post_agent_action again agent_id action_id st' =
       ({| status := 404; json := JMessage "Action not found for adding to agent" |}, st')).
Proof.
  intros Haction Hnodup st'.
  assert (Hgone : storedAction action_id st' = None).
  { unfold st'. rewrite (delete_action_runs req action_id st action Haction).
    unfold storedAction. cbn [snd]. rewrite cascade_actionDocs. cbn [actionDocs].
    now apply find_removeFirst_unique. }
  split; [now rewrite (delete_action_runs req action_id st action Haction)|].
  split; [exact Hgone|]. split; [|split; [|split]].
  - intros other Hother. unfold st'.
    rewrite (delete_action_runs req action_id st action Haction).
    unfold storedAction. cbn [snd]. rewrite cascade_actionDocs. cbn [actionDocs].
    apply find_removeFirst_other. intros d Hd. unfold actionMatches in *.
    apply String.eqb_eq in Hd. rewrite Hd. apply String.eqb_neq. congruence.
  - intros again. now apply delete_action_missing.
  - intros again. unfold put_action, try_catch, bind, getAction.
    unfold storedAction in Hgone. now rewrite Hgone.
  - intros again agent_id Hvisible.
    destruct (visibleAgent again agent_id st') as [agent|] eqn:Hagent; [|congruence].
    now apply (bind_action_missing again agent_id action_id st' agent).
Qed.

Lemma find_updateFirst_image {A B : Type} (p q : A -> bool) (f : A -> A) (g : A -> B)
  (docs : list A) :
  (forall x, p (f x) = p x) -> (forall x, g (f x) = g x) ->
  option_map g (List.find p (updateFirst q f docs)) = option_map g (List.find p docs).
Proof.
  intros Hp Hg. induction docs as [|x docs IH]; simpl; [reflexivity|].
  destruct (q x); simpl.
  - rewrite Hp. destruct (p x); simpl; [now rewrite Hg | reflexivity].
  - destruct (p x); simpl; [reflexivity | exact IH].
Qed.

(** The loop changes no agent's author. *)
Lemma cascade_author (mk : Agent.t -> AgentUpdate) (agents : list Agent.t) (st : Store)
  (agent_id : string) :
  option_map Agent.author (List.find (byId agent_id) (agentDocs (cascade mk agents st))) =
  option_map Agent.author (List.find (byId agent_id) (agentDocs st)).
Proof.
  revert st; induction agents as [|a rest IH]; intros st; [reflexivity|].
  change (cascade mk (a :: rest) st) with
    (cascade mk rest
       (snd (updateAgent {| q_id := Agent.id a; q_author := None |} (mk a) st))).
  rewrite IH. cbn [updateAgent snd agentDocs].
  apply find_updateFirst_image; reflexivity.
Qed.

Lemma find_byId_unique (agent : Agent.t) (docs : list Agent.t) :
  In agent docs ->
  (forall a, In a docs -> Agent.id a = Agent.id agent -> a = agent) ->
  List.find (byId (Agent.id agent)) docs = Some agent.
Proof.
  intros Hin Honly.
  destruct (List.find (byId (Agent.id agent)) docs) as [d|] eqn:Hfind.
  - apply find_some_in in Hfind as [Hdin Hdid].
    unfold byId, agentMatches in Hdid. cbn [q_id q_author] in Hdid.
    rewrite andb_true_r in Hdid. apply String.eqb_eq in Hdid.
    now rewrite (Honly d Hdin Hdid).
  - pose proof (proj1 (find_none_iff _ _) Hfind agent Hin) as Hno.
    unfold byId, agentMatches in Hno. cbn [q_id q_author] in Hno.
    now rewrite String.eqb_refl in Hno.
Qed.

(** What the delete route leaves on an agent that the store's query
    returns for the action id, and that is the only agent with its id:
    every entry containing the action id is gone from [actions], and
    [tools] keeps only the entries that are empty or contain neither the
    action id nor the parsed domain.  The author is not looked at: the
    agent of another user is cleaned as well. *)
Theorem delete_cleans_referring_agent
  (req : Req) (action_id : string) (st : Store) (action : Action.t) (agent : Agent.t) :
  let domain := toString (domainParser req (Action.metadata action !! "domain") true) in
  storedAction action_id st = Some action ->
  In agent (agentDocs st) ->
  (forall a, In a (agentDocs st) -> Agent.id a = Agent.id agent -> a = agent) ->
  existsb (regexTest action_id) (actionRefs agent) = true ->
  exists agent',
    List.find (byId (Agent.id agent)) (agentDocs (snd (delete_action req action_id st)))
      = Some agent' /\
    Agent.author agent' = Agent.author agent /\
    actionRefs agent' =
      List.filter (fun ref => negb (includes ref action_id)) (actionRefs agent) /\
    refsTo action_id (actionRefs agent') = [] /\
    toolRefs agent' =
      List.filter
        (fun tool =>
           negb (truthyString tool && (includes tool action_id || includes tool domain)))
        (toolRefs agent) /\
    (forall tool, In tool (toolRefs agent') ->
                  tool = "" \/ (includes tool action_id = false /\ includes tool domain = false)).
Proof.
  intros domain Haction Hin Honly Hrefers.
  rewrite (delete_action_runs req action_id st action Haction). cbn [snd].
  set (mk := cleanedRefs action_id
               (domainParser req (Action.metadata action !! "domain") true)).
  destruct (cascade_on_agent mk agent (referringAgents action_id st)
              {| actionDocs := removeFirst (actionMatches action_id) (actionDocs st);
                 agentDocs := agentDocs st;
                 agentWrites := agentWrites st |}) as [d [Hfind Hd]].
  - intros a Ha. apply Honly. now apply (referringAgents_in action_id st).
  - cbn [agentDocs].
    assert (Hfound : exists d, List.find (byId (Agent.id agent)) (agentDocs st) = Some d).
    { destruct (List.find (byId (Agent.id agent)) (agentDocs st)) as [d|] eqn:Hfind;
        [now exists d|].
      pose proof (proj1 (find_none_iff _ _) Hfind agent Hin) as Hno.
      unfold byId, agentMatches in Hno. cbn [q_id q_author] in Hno.
      now rewrite String.eqb_refl in Hno. }
    destruct Hfound as [d Hfind]. exists d. split; [exact Hfind|]. left.
    unfold referringAgents. apply filter_In. split; [exact Hin | exact Hrefers].
  - exists d. split; [exact Hfind|]. split.
    + pose proof (cascade_author mk (referringAgents action_id st)
                    {| actionDocs := removeFirst (actionMatches action_id) (actionDocs st);
                       agentDocs := agentDocs st;
                       agentWrites := agentWrites st |} (Agent.id agent)) as Hauthor.
      rewrite Hfind in Hauthor. cbn [agentDocs] in Hauthor.
      rewrite (find_byId_unique agent (agentDocs st) Hin Honly) in Hauthor.
      now injection Hauthor.
    + rewrite Hd.
      unfold actionRefs at 1 2, toolRefs at 1 2.
      cbn [applyAgentUpdate Agent.actions Agent.tools default mk cleanedRefs
             u_actions u_tools].
      unfold Datatypes.id. fold domain.
      split; [reflexivity|split; [apply refsTo_removed|split; [reflexivity|]]].
      intros tool Htool. apply filter_In in Htool as [_ Hkeep].
      destruct tool as [|c tool]; [now left|]. right.
      change (truthyString (String c tool)) with true in Hkeep. cbn [andb] in Hkeep.
      apply negb_true_iff, orb_false_iff in Hkeep. exact Hkeep.
Qed.

End Deleting.

(** ** Binding an action to an agent *)

Section BindingMore.

Context `{Externals}.

(** The bind route answers 404 exactly when the agent is not visible to
    the requester or the action is not stored (the agent is looked up
    first), and then writes nothing; otherwise it answers 200.  It never
    changes the action collection. *)
Theorem bind_answers_404_or_200
  (req : Req) (agent_id action_id : string) (st : Store) :
  let run := post_agent_action req agent_id action_id st in
  (visibleAgent req agent_id st = None ->
   run = ({| status := 404; json := JMessage "Agent not found for adding action" |}, st)) /\
  (visibleAgent req agent_id st <> None ->
   storedAction action_id st = None ->
   run = ({| status := 404; json := JMessage "Action not found for adding to agent" |}, st)) /\
  (visibleAgent req agent_id st <> None ->
   storedAction action_id st <> None ->
   status (fst run) = 200) /\
  actionDocs (snd run) = actionDocs st.
Proof.
  intros run. unfold run.
  destruct (visibleAgent req agent_id st) as [agent|] eqn:Hagent.
  2:{ rewrite (bind_agent_missing _ _ _ _ Hagent).
      repeat split; try reflexivity; intros Hsome; now contradiction Hsome. }
  destruct (storedAction action_id st) as [action|] eqn:Haction.
  2:{ rewrite (bind_action_missing _ _ _ _ _ Hagent Haction).
      repeat split; try reflexivity; try discriminate.
      intros _ Hsome. now contradiction Hsome. }
  destruct (truthy (JString <$> findRef action_id (actionRefs agent))) eqn:Hfound.
  - rewrite (bind_present _ _ _ _ _ _ Hagent Haction Hfound).
    repeat split; try reflexivity; discriminate.
  - rewrite (bind_appends _ _ _ _ _ _ Hagent Haction Hfound).
    repeat split; try reflexivity; discriminate.
Qed.

Lemma append_cancel_r (a b x : string) : a +:+ x = b +:+ x -> a = b.
Proof.
  revert b; induction a as [|c a IH]; intros b Heq.
  - apply (f_equal String.length) in Heq. rewrite !length_append in Heq.
    destruct b; [reflexivity | simpl in Heq; lia].
  - destruct b as [|d b].
    + apply (f_equal String.length) in Heq. rewrite !length_append in Heq.
      simpl in Heq. lia.
    + simpl in Heq. injection Heq as -> Heq. f_equal. now apply IH.
Qed.

Lemma encoded_tool_contains_domain (f domain : string) :
  includes (encodeToolRef f domain) domain = true.
Proof.
  unfold encodeToolRef. apply includes_app_r, includes_app_r, includes_refl.
Qed.

(** When the bind route appends a reference it also rewrites the tools:
    it keeps the tools that are empty or contain neither the parsed
    domain nor the action id, and appends one tool per function of the
    action.  So every function of the action has its tool afterwards,
    and the tool of any other function under the same domain, left by
    another action served from that domain, is gone. *)
Theorem bind_installs_tools_and_drops_same_domain
  (req : Req) (agent_id action_id : string) (st : Store)
  (agent : Agent.t) (action : Action.t) :
  let domain := toString (domainParser req (Action.metadata action !! "domain") true) in
  visibleAgent req agent_id st = Some agent ->
  storedAction action_id st = Some action ->
  truthy (JString <$> findRef action_id (actionRefs agent)) = false ->
  exists agent',
    visibleAgent req agent_id (snd (post_agent_action req agent_id action_id st))
      = Some agent' /\
    toolRefs agent' =
      List.filter
        (fun tool =>
           negb (truthyString tool && (includes tool domain || includes tool action_id)))
        (toolRefs agent)
      ++ map (fun f => encodeToolRef f domain) (Action.functions action) /\
    (forall f, In f (Action.functions action) ->
               In (encodeToolRef f domain) (toolRefs agent')) /\
    (forall g, ~ In g (Action.functions action) ->
               encodeToolRef g domain <> "" ->
               ~ In (encodeToolRef g domain) (toolRefs agent')).
Proof.
  intros domain Hagent Haction Hfound.
  rewrite (bind_appends _ _ _ _ _ _ Hagent Haction Hfound). cbn [snd].
  eexists. split.
  - unfold visibleAgent. cbn [agentDocs]. apply visibleAgent_after_update. exact Hagent.
  - unfold toolRefs at 1 2 3. cbn [applyAgentUpdate Agent.tools default u_tools].
    unfold Datatypes.id. fold domain. split; [reflexivity|]. split.
    + intros f Hf. apply in_or_app. right.
      apply (in_map (fun f => encodeToolRef f domain)), Hf.
    + intros g Hg Hnonempty Hin. apply in_app_or in Hin as [Hkept|Hfresh].
      * apply filter_In in Hkept as [_ Hkeep].
        rewrite encoded_tool_contains_domain in Hkeep.
        destruct (encodeToolRef g domain); [congruence | discriminate].
      * apply in_map_iff in Hfresh as [f [Heq Hf]].
        apply Hg. unfold encodeToolRef in Heq.
        apply append_cancel_r in Heq. now subst g.
Qed.

(** The bind route does not look at the parsed domain, and every string
    contains the empty string: when the parser gives the empty string,
    binding removes every non-empty tool of the agent, whatever action it
    belonged to, before it appends the tools of the new action. *)
Theorem bind_under_empty_domain_drops_every_tool
  (req : Req) (agent_id action_id : string) (st : Store)
  (agent : Agent.t) (action : Action.t) :
  visibleAgent req agent_id st = Some agent ->
  storedAction action_id st = Some action ->
  domainParser req (Action.metadata action !! "domain") true = Some (JString "") ->
  truthy (JString <$> findRef action_id (actionRefs agent)) = false ->
  exists agent',
    visibleAgent req agent_id (snd (post_agent_action req agent_id action_id st))
      = Some agent' /\
    toolRefs agent' =
      List.filter (fun tool => String.eqb tool "") (toolRefs agent)
      ++ map (fun f => encodeToolRef f "") (Action.functions action) /\
    (forall tool, In tool (toolRefs agent) -> tool <> "" ->
                  ~ In tool (map (fun f => encodeToolRef f "") (Action.functions action)) ->
                  ~ In tool (toolRefs agent')).
Proof.
  intros Hagent Haction Hempty Hfound.
  rewrite (bind_appends _ _ _ _ _ _ Hagent Haction Hfound). cbn [snd].
  rewrite Hempty. cbn [toString].
  assert (Hfilter :
    List.filter
      (fun tool => negb (truthyString tool && (includes tool "" || includes tool action_id)))
      (toolRefs agent) =
    List.filter (fun tool => String.eqb tool "") (toolRefs agent)).
  { apply filter_ext. intros tool. rewrite includes_empty. cbn [orb].
    unfold truthyString. rewrite andb_true_r. apply negb_involutive. }
  eexists. split.
  - unfold visibleAgent. cbn [agentDocs]. apply visibleAgent_after_update. exact Hagent.
  - unfold toolRefs at 1 3. cbn [applyAgentUpdate Agent.tools default u_tools].
    unfold Datatypes.id. rewrite Hfilter. split; [reflexivity|].
    intros tool _ Hnonempty Hfresh Hin. apply in_app_or in Hin as [Hkept|Hin].
    + apply filter_In in Hkept as [_ Hnil]. now apply String.eqb_eq in Hnil.
    + now apply Hfresh.
Qed.

End BindingMore.

(** ** Unbinding an action from an agent *)

Section UnbindingMore.

Context `{Externals}.

Lemma split_nonempty_sep (s : string) :
  actionDelimiter <> "" -> split s actionDelimiter = split_aux actionDelimiter s 0 "".
Proof. intros Hsep. unfold split. destruct actionDelimiter; [congruence | reflexivity]. Qed.

Lemma first_token_of_encoded (domain action_id : string) :
  actionDelimiter <> "" ->
  includes (domain +:+ init actionDelimiter) actionDelimiter = false ->
  hd_error (splitActionRef (encodeActionRef domain action_id)) = Some domain.
Proof.
  intros Hsep Hfree. unfold splitActionRef, encodeActionRef.
  rewrite (split_nonempty_sep _ Hsep), (split_aux_head actionDelimiter Hsep _ _ _ Hfree).
  reflexivity.
Qed.

(** The unbind route reads the domain of a reference as the first token
    of its split.  For a reference built by the bind or the update route
    that token is the domain it was built with exactly when no occurrence
    of the delimiter starts inside the domain; the action id does not
    matter.  (The delimiter is a non-empty constant.) *)
Theorem first_token_is_the_domain (domain action_id : string) :
  actionDelimiter <> "" ->
  hd_error (splitActionRef (encodeActionRef domain action_id)) = Some domain <->
  includes (domain +:+ init actionDelimiter) actionDelimiter = false.
Proof.
  intros Hsep. split; [|now apply first_token_of_encoded].
  intros Hfirst.
  destruct (includes (domain +:+ init actionDelimiter) actionDelimiter) eqn:Hd;
    [|reflexivity].
  exfalso. apply includes_spec in Hd as [u [v Huv]].
  destruct (init_last actionDelimiter Hsep) as [l Hl].
  assert (Hlen : String.length u < String.length domain).
  { apply (f_equal String.length) in Huv.
    rewrite !length_append, (length_init actionDelimiter Hsep) in Huv. lia. }
  assert (Hwhole : domain +:+ actionDelimiter +:+ action_id =
                   u +:+ actionDelimiter +:+ (v +:+ String l "" +:+ action_id)).
  { rewrite Hl at 1. rewrite (append_assoc (init actionDelimiter)).
    rewrite <- (append_assoc domain), Huv. now rewrite !append_assoc. }
  unfold splitActionRef, encodeActionRef in Hfirst.
  rewrite (split_nonempty_sep _ Hsep), Hwhole in Hfirst.
  destruct (split_aux_first_short actionDelimiter Hsep u
              (v +:+ String l "" +:+ action_id) "") as [t [rest [Heq Ht]]].
  rewrite Heq in Hfirst. simpl in Hfirst. injection Hfirst as Hfirst. subst t. lia.
Qed.

(** The unbind route when the last entry with the action id is known. *)
Lemma unbind_last_match (req : Req) (agent_id action_id : string) (st : Store)
  (agent : Agent.t) (before after : list string) (ref domain : string) :
  visibleAgent req agent_id st = Some agent ->
  actionRefs agent = before ++ ref :: after ->
  includes ref action_id = true ->
  (forall r, In r after -> includes r action_id = false) ->
  hd_error (splitActionRef ref) = Some domain ->
  domain <> "" ->
  let kept := List.filter (fun r => negb (includes r action_id)) before ++ after in
  let u :=
    {| u_actions := kept;
       u_tools := List.filter (fun tool => negb (includes tool domain)) (toolRefs agent) |} in
  delete_agent_action req agent_id action_id st =
  ({| status := 200; json := JMessage "Action deleted for agent successfully" |},
   {| actionDocs := actionDocs st;
      agentDocs := updateFirst (agentMatches (agentQueryFor req agent_id))
                     (applyAgentUpdate u) (agentDocs st);
      agentWrites := agentWrites st ++ [(agentQueryFor req agent_id, u)] |}).
Proof.
  intros Hagent Hrefs Hin Hafter Hfirst Hdomain kept u.
  assert (Hscan : scanActions action_id (actionRefs agent) (Some (JString "")) =
                  (Some (JString domain), kept)).
  { apply injective_projections.
    - rewrite Hrefs, (scanActions_behind _ _ _ _ _ Hin Hafter), Hfirst. reflexivity.
    - rewrite scanActions_kept, Hrefs, List.filter_app. cbn [List.filter snd].
      rewrite Hin. cbn [negb]. unfold kept. f_equal.
      clear -Hafter. induction after as [|a rest IH]; [reflexivity|].
      cbn [List.filter]. rewrite (Hafter a) by now left. cbn [negb]. f_equal.
      apply IH. intros r Hr. apply Hafter. now right. }
  rewrite (unbind_removes _ _ _ _ _ _ _ Hagent Hscan).
  - cbn [toString]. now rewrite (filter_by_truthy_domain _ _ Hdomain).
  - cbn [truthy]. destruct domain; [congruence | reflexivity].
Qed.

(** When several entries of the agent contain the action id, the unbind
    route removes them all, but it reads the domain from the last of them
    only: the tools containing that domain are removed, the tools of the
    domains of the earlier entries are not looked for. *)
Theorem unbind_removes_every_entry_but_reads_last_domain
  (req : Req) (agent_id action_id : string) (st : Store)
  (agent : Agent.t) (before after : list string) (ref domain : string) :
  visibleAgent req agent_id st = Some agent ->
  actionRefs agent = before ++ ref :: after ->
  includes ref action_id = true ->
  (forall r, In r after -> includes r action_id = false) ->
  hd_error (splitActionRef ref) = Some domain ->
  domain <> "" ->
  let run := delete_agent_action req agent_id action_id st in
  status (fst run) = 200 /\
  exists agent',
    visibleAgent req agent_id (snd run) = Some agent' /\
    actionRefs agent' = List.filter (fun r => negb (includes r action_id)) before ++ after /\
    refsTo action_id (actionRefs agent') = [] /\
    toolRefs agent' = List.filter (fun tool => negb (includes tool domain)) (toolRefs agent) /\
    (forall tool, In tool (toolRefs agent) -> includes tool domain = false ->
                  In tool (toolRefs agent')).
Proof.
  intros Hagent Hrefs Hin Hafter Hfirst Hdomain run. unfold run.
  rewrite (unbind_last_match _ _ _ _ _ _ _ _ _ Hagent Hrefs Hin Hafter Hfirst Hdomain).
  split; [reflexivity|]. eexists. split.
  - unfold visibleAgent. cbn [snd agentDocs]. apply visibleAgent_after_update. exact Hagent.
  - unfold actionRefs at 1 2, toolRefs at 1 3.
    cbn [applyAgentUpdate Agent.actions Agent.tools default u_actions u_tools].
    unfold Datatypes.id. split; [reflexivity|]. split; [|split; [reflexivity|]].
    + unfold refsTo. rewrite List.filter_app.
      fold (refsTo action_id (List.filter (fun r => negb (includes r action_id)) before)).
      rewrite refsTo_removed. cbn [app].
      clear -Hafter. induction after as [|a rest IH]; [reflexivity|].
      cbn [List.filter]. rewrite (Hafter a) by now left.
      apply IH. intros r Hr. apply Hafter. now right.
    + intros tool Htool Hfree. apply filter_In. split; [exact Htool | now rewrite Hfree].
Qed.

(** The unbind route takes any string for an action id and never asks
    whether such an action exists.  With a string that every entry of the
    agent contains (the delimiter is one, for entries built by the
    router) it empties the agent's [actions], provided the last entry has
    a non-empty first token. *)
Theorem unbind_with_common_substring_clears_actions
  (req : Req) (agent_id text : string) (st : Store)
  (agent : Agent.t) (before : list string) (ref domain : string) :
  visibleAgent req agent_id st = Some agent ->
  actionRefs agent = before ++ [ref] ->
  (forall r, In r (actionRefs agent) -> includes r text = true) ->
  hd_error (splitActionRef ref) = Some domain ->
  domain <> "" ->
  let run := delete_agent_action req agent_id text st in
  status (fst run) = 200 /\
  exists agent',
    visibleAgent req agent_id (snd run) = Some agent' /\
    actionRefs agent' = [].
Proof.
  intros Hagent Hrefs Hall Hfirst Hdomain run. unfold run.
  assert (Href : includes ref text = true).
  { apply Hall. rewrite Hrefs. apply in_or_app. right. now left. }
  rewrite (unbind_last_match _ _ _ _ _ before [] ref domain Hagent Hrefs Href);
    [|intros r [] | exact Hfirst | exact Hdomain].
  split; [reflexivity|]. eexists. split.
  - unfold visibleAgent. cbn [snd agentDocs]. apply visibleAgent_after_update. exact Hagent.
  - unfold actionRefs at 1.
    cbn [applyAgentUpdate Agent.actions default u_actions]. unfold Datatypes.id.
    rewrite app_nil_r.
    assert (Hbefore : forall r, In r before -> includes r text = true).
    { intros r Hr. apply Hall. rewrite Hrefs. apply in_or_app. now left. }
    clear -Hbefore. induction before as [|a rest IH]; [reflexivity|].
    cbn [List.filter]. rewrite (Hbefore a) by now left. cbn [negb].
    apply IH. intros r Hr. apply Hbefore. now right.
Qed.

(** Binding and then unbinding gives the agent its references back.  The
    agent had no entry containing the action id and no tool containing
    the action id or the parsed domain; the parsed domain, as text, is
    not empty and no occurrence of the delimiter starts inside it.  (An
    [undefined] from the parser counts as the text [undefined].) *)
Theorem bind_then_unbind_restores_references
  (req : Req) (agent_id action_id : string) (st : Store)
  (agent : Agent.t) (action : Action.t) :
  let domain := toString (domainParser req (Action.metadata action !! "domain") true) in
  actionDelimiter <> "" ->
  visibleAgent req agent_id st = Some agent ->
  storedAction action_id st = Some action ->
  domain <> "" ->
  includes (domain +:+ init actionDelimiter) actionDelimiter = false ->
  (forall ref, In ref (actionRefs agent) -> includes ref action_id = false) ->
  (forall tool, In tool (toolRefs agent) ->
                includes tool domain = false /\ includes tool action_id = false) ->
  let st1 := snd (post_agent_action req agent_id action_id st) in
  let run := delete_agent_action req agent_id action_id st1 in
  status (fst run) = 200 /\
  exists agent2,
    visibleAgent req agent_id (snd run) = Some agent2 /\
    actionRefs agent2 = actionRefs agent /\
    toolRefs agent2 = toolRefs agent.
Proof.
  intros domain Hsep Hagent Haction Hdomain Hfree Hnone Htools st1 run.
  pose proof (bind_appends _ _ _ _ _ _ Hagent Haction (nothing_found _ _ Hnone)) as Hbind.
  fold domain in Hbind.
  set (u1 := {| u_actions := actionRefs agent ++ [encodeActionRef domain action_id];
                u_tools :=
                  List.filter
                    (fun tool =>
                       negb (truthyString tool &&
                             (includes tool domain || includes tool action_id)))
                    (toolRefs agent)
                  ++ map (fun f => encodeToolRef f domain) (Action.functions action) |}) in *.
  assert (Hagent1 : visibleAgent req agent_id st1 = Some (applyAgentUpdate u1 agent)).
  { unfold st1. rewrite Hbind. unfold visibleAgent. cbn [snd agentDocs].
    apply visibleAgent_after_update. exact Hagent. }
  unfold run.
  rewrite (unbind_last_match req agent_id action_id st1 (applyAgentUpdate u1 agent)
             (actionRefs agent) [] (encodeActionRef domain action_id) domain Hagent1);
    [| reflexivity | apply encoded_ref_contains_id | intros r []
     | now apply first_token_of_encoded | exact Hdomain].
  split; [reflexivity|]. eexists. split.
  - unfold visibleAgent. cbn [snd agentDocs]. apply visibleAgent_after_update. exact Hagent1.
  - unfold actionRefs at 1, toolRefs at 1 2.
    cbn [applyAgentUpdate Agent.actions Agent.tools default u_actions u_tools u1].
    unfold Datatypes.id. rewrite app_nil_r. split.
    + clear -Hnone. induction (actionRefs agent) as [|a rest IH]; [reflexivity|].
      cbn [List.filter]. rewrite (Hnone a) by now left. cbn [negb]. f_equal.
      apply IH. intros r Hr. apply Hnone. now right.
    + unfold toolRefs at 1. unfold u1.
      cbn [applyAgentUpdate Agent.tools default u_tools]. unfold Datatypes.id.
      rewrite List.filter_app.
      assert (Hfresh :
        List.filter (fun tool => negb (includes tool domain))
          (map (fun f => encodeToolRef f domain) (Action.functions action)) = []).
      { generalize (Action.functions action). intros fs.
        induction fs as [|f fs IH]; [reflexivity|].
        cbn [map List.filter]. rewrite encoded_tool_contains_domain. exact IH. }
      rewrite Hfresh, app_nil_r.
      clear -Htools. induction (toolRefs agent) as [|t rest IH]; [reflexivity|].
      destruct (Htools t (or_introl eq_refl)) as [Hd Hid].
      cbn [List.filter]. rewrite Hd, Hid, andb_false_r. cbn [negb List.filter].
      rewrite Hd. cbn [negb]. f_equal.
      apply IH. intros tool Htool. apply Htools. now right.
Qed.

End UnbindingMore.

(** ** What the routes leave alone *)

Section LeftAlone.

Context `{Externals}.

(** The unbind route never consults the action collection: with any
    other collection of actions in the store it gives the same answer and
    makes the same change to the agents, and it leaves the actions as
    they are.  In particular it does not need the action to exist. *)
Theorem unbind_never_consults_actions
  (req : Req) (agent_id action_id : string) (st : Store) (actions : list Action.t) :
  let run := delete_agent_action req agent_id action_id st in
  delete_agent_action req agent_id action_id (withActions actions st) =
    (fst run, withActions actions (snd run)) /\
  actionDocs (snd run) = actionDocs st.
Proof.
  unfold delete_agent_action, try_catch, bind, getAgent, updateAgent, ret, withActions.
  cbn [agentDocs].
  destruct (List.find (agentMatches (agentQueryFor req agent_id)) (agentDocs st))
    as [agent|]; [|split; reflexivity].
  destruct (scanActions action_id (default [] (Agent.actions agent)) (Some (JString "")))
    as [domain kept].
  destruct (truthy domain); split; reflexivity.
Qed.

Lemma updateFirst_keeps {A : Type} (p : A -> bool) (f : A -> A) (docs : list A) (a : A) :
  In a docs -> p a = false -> In a (updateFirst p f docs).
Proof.
  induction docs as [|x docs IH]; simpl; [intros []|].
  intros [->|Hin] Hpa.
  - rewrite Hpa. now left.
  - destruct (p x); right; [exact Hin | now apply IH].
Qed.

Lemma other_agent_unmatched (req : Req) (agent_id : string) (a : Agent.t) :
  Agent.id a <> agent_id -> agentMatches (agentQueryFor req agent_id) a = false.
Proof.
  intros Hid. unfold agentMatches, agentQueryFor.
  destruct (isAdmin req); cbn [q_id q_author];
    now apply String.eqb_neq in Hid as ->.
Qed.

(** The bind and the unbind route change at most the agent they are
    asked about: every agent with another id is in the store afterwards
    exactly as it was. *)
Theorem bind_and_unbind_touch_no_other_agent
  (req : Req) (agent_id action_id : string) (st : Store) (other : Agent.t) :
  In other (agentDocs st) ->
  Agent.id other <> agent_id ->
  In other (agentDocs (snd (post_agent_action req agent_id action_id st))) /\
  In other (agentDocs (snd (delete_agent_action req agent_id action_id st))).
Proof.
  intros Hin Hid.
  pose proof (other_agent_unmatched req agent_id other Hid) as Hunmatched.
  split.
  - destruct (visibleAgent req agent_id st) as [agent|] eqn:Hagent.
    2:{ now rewrite (bind_agent_missing _ _ _ _ Hagent). }
    destruct (storedAction action_id st) as [action|] eqn:Haction.
    2:{ now rewrite (bind_action_missing _ _ _ _ _ Hagent Haction). }
    destruct (truthy (JString <$> findRef action_id (actionRefs agent))) eqn:Hfound.
    { now rewrite (bind_present _ _ _ _ _ _ Hagent Haction Hfound). }
    rewrite (bind_appends _ _ _ _ _ _ Hagent Haction Hfound). cbn [snd agentDocs].
    now apply updateFirst_keeps.
  - destruct (visibleAgent req agent_id st) as [agent|] eqn:Hagent.
    2:{ unfold delete_agent_action, try_catch, bind, getAgent.
        unfold visibleAgent in Hagent. now rewrite Hagent. }
    destruct (scanActions action_id (actionRefs agent) (Some (JString "")))
      as [domain kept] eqn:Hscan.
    destruct (truthy domain) eqn:Htruthy.
    2:{ rewrite (unbind_rejects _ _ _ _ agent Hagent); [exact Hin|].
        now rewrite Hscan. }
    rewrite (unbind_removes _ _ _ _ _ _ _ Hagent Hscan Htruthy). cbn [snd agentDocs].
    now apply updateFirst_keeps.
Qed.

Lemma identities_updateFirst (p : Agent.t -> bool) (u : AgentUpdate) (docs : list Agent.t) :
  map (fun a => (Agent.id a, Agent.author a)) (updateFirst p (applyAgentUpdate u) docs) =
  map (fun a => (Agent.id a, Agent.author a)) docs.
Proof.
  induction docs as [|x docs IH]; simpl; [reflexivity|].
  destruct (p x); simpl; [reflexivity | now rewrite IH].
Qed.

Lemma identities_cascade (mk : Agent.t -> AgentUpdate) (agents : list Agent.t) (st : Store) :
  agentIdentities (cascade mk agents st) = agentIdentities st.
Proof.
  revert st; induction agents as [|a rest IH]; intros st; [reflexivity|].
  change (cascade mk (a :: rest) st) with
    (cascade mk rest
       (snd (updateAgent {| q_id := Agent.id a; q_author := None |} (mk a) st))).
  rewrite IH. unfold agentIdentities. cbn [updateAgent snd agentDocs].
  apply identities_updateFirst.
Qed.

Lemma serve_keeps_identities (r : Request) (st : Store) :
  agentIdentities (snd (serve r st)) = agentIdentities st.
Proof.
  destruct r as [req | req agent_id fresh | req action_id | req action_id
                | req agent_id action_id | req agent_id action_id]; cbn [serve].
  - reflexivity.
  - unfold post_root, try_catch, bind, updateAction, ret.
    destruct (Nat.eqb (List.length (body_functions req)) 0); [reflexivity|].
    destruct (negb (isActionDomainAllowed _)); [reflexivity|].
    destruct (negb (truthy _)); [reflexivity|].
    destruct (List.find (actionMatches fresh) (actionDocs st)); reflexivity.
  - destruct (storedAction action_id st) as [action|] eqn:Haction.
    + rewrite (delete_action_runs req action_id st action Haction). cbn [snd].
      now rewrite identities_cascade.
    + now rewrite (delete_action_missing _ _ _ Haction).
  - set (metadata := encryptMetadata (removeNullishValues (body_metadata req) true)).
    destruct (storedAction action_id st) as [action|] eqn:Haction.
    2:{ now rewrite (proj1 (put_action_refuses req action_id st (or_introl Haction))). }
    destruct (body_functions req) as [|f fs] eqn:Hfs.
    { now rewrite (proj1 (put_action_refuses req action_id st (or_intror (or_introl Hfs)))). }
    destruct (isActionDomainAllowed (metadata !! "domain")) eqn:Hallowed.
    2:{ now rewrite (proj1 (put_action_refuses req action_id st
                              (or_intror (or_intror (or_introl Hallowed))))). }
    destruct (truthy (domainParser req (metadata !! "domain") true)) eqn:Htruthy.
    2:{ now rewrite (proj1 (put_action_refuses req action_id st
                              (or_intror (or_intror (or_intror Htruthy))))). }
    rewrite (put_action_runs req action_id st action Haction);
      [|rewrite Hfs; discriminate | exact Hallowed | exact Htruthy].
    cbn [snd]. now rewrite identities_cascade.
  - destruct (visibleAgent req agent_id st) as [agent|] eqn:Hagent.
    2:{ now rewrite (bind_agent_missing _ _ _ _ Hagent). }
    destruct (storedAction action_id st) as [action|] eqn:Haction.
    2:{ now rewrite (bind_action_missing _ _ _ _ _ Hagent Haction). }
    destruct (truthy (JString <$> findRef action_id (actionRefs agent))) eqn:Hfound.
    { now rewrite (bind_present _ _ _ _ _ _ Hagent Haction Hfound). }
    rewrite (bind_appends _ _ _ _ _ _ Hagent Haction Hfound).
    unfold agentIdentities. cbn [snd agentDocs]. apply identities_updateFirst.
  - destruct (visibleAgent req agent_id st) as [agent|] eqn:Hagent.
    2:{ unfold delete_agent_action, try_catch, bind, getAgent.
        unfold visibleAgent in Hagent. now rewrite Hagent. }
    destruct (scanActions action_id (actionRefs agent) (Some (JString "")))
      as [domain kept] eqn:Hscan.
    destruct (truthy domain) eqn:Htruthy.
    2:{ rewrite (unbind_rejects _ _ _ _ agent Hagent); [reflexivity|].
        now rewrite Hscan. }
    rewrite (unbind_removes _ _ _ _ _ _ _ Hagent Hscan Htruthy).
    unfold agentIdentities. cbn [snd agentDocs]. apply identities_updateFirst.
Qed.

(** Whatever requests the router serves, the agents of the store stay
    the same documents as far as their ids and authors go: no route
    creates or deletes an agent, reorders the agents, or changes an id or
    an author.  Only [actions] and [tools] are ever written. *)
Theorem router_never_changes_agent_identities (requests : list Request) (st : Store) :
  agentIdentities (serveAll requests st) = agentIdentities st.
Proof.
  revert st; induction requests as [|r rest IH]; intros st; [reflexivity|].
  change (serveAll (r :: rest) st) with (serveAll rest (snd (serve r st))).
  rewrite IH. apply serve_keeps_identities.
Qed.

End LeftAlone.

(** ** Repeating and cascading *)

Section Repeating.

Context `{Externals}.

Lemma filtered_has_none (action_id : string) (refs : list string) :
  forall ref, In ref (List.filter (fun r => negb (includes r action_id)) refs) ->
              includes ref action_id = false.
Proof.
  intros ref Hin. apply filter_In in Hin as [_ Hkeep]. now apply negb_true_iff in Hkeep.
Qed.

(** Unbinding is not repeatable: after an unbind that answered 200 no
    entry of the agent contains the action id any more, so the same
    request answers 400 "No domain provided" the second time, and writes
    nothing. *)
Theorem unbind_twice_answers_400
  (req : Req) (agent_id action_id : string) (st st' : Store) (answer : Response) :
  delete_agent_action req agent_id action_id st = (answer, st') ->
  status answer = 200 ->
  delete_agent_action req agent_id action_id st' =
    ({| status := 400; json := JMessage "No domain provided" |}, st').
Proof.
  intros Hrun Hok.
  destruct (visibleAgent req agent_id st) as [agent|] eqn:Hagent.
  2:{ unfold delete_agent_action, try_catch, bind, getAgent in Hrun.
      unfold visibleAgent in Hagent. rewrite Hagent in Hrun.
      injection Hrun as <- _. discriminate. }
  destruct (scanActions action_id (actionRefs agent) (Some (JString "")))
    as [domain kept] eqn:Hscan.
  destruct (truthy domain) eqn:Htruthy.
  2:{ rewrite (unbind_rejects _ _ _ _ agent Hagent) in Hrun by now rewrite Hscan.
      injection Hrun as <- _. discriminate. }
  rewrite (unbind_removes _ _ _ _ _ _ _ Hagent Hscan Htruthy) in Hrun.
  injection Hrun as _ Hst'. subst st'.
  pose proof (scanActions_kept action_id (actionRefs agent) (Some (JString ""))) as Hkept.
  rewrite Hscan in Hkept. cbn [snd] in Hkept.
  eapply unbind_rejects.
  - unfold visibleAgent. cbn [agentDocs]. apply visibleAgent_after_update. exact Hagent.
  - unfold actionRefs at 1. cbn [applyAgentUpdate Agent.actions default u_actions].
    unfold Datatypes.id. rewrite scanActions_no_match; [reflexivity|].
    rewrite Hkept. apply filtered_has_none.
Qed.

Lemma cascade_keeps (mk : Agent.t -> AgentUpdate) (agents : list Agent.t) (st : Store)
  (other : Agent.t) :
  (forall a, In a agents -> Agent.id a <> Agent.id other) ->
  In other (agentDocs st) ->
  In other (agentDocs (cascade mk agents st)).
Proof.
  revert st; induction agents as [|a rest IH]; intros st Hids Hin; [exact Hin|].
  change (cascade mk (a :: rest) st) with
    (cascade mk rest
       (snd (updateAgent {| q_id := Agent.id a; q_author := None |} (mk a) st))).
  apply IH; [intros b Hb; apply Hids; now right|].
  cbn [updateAgent snd agentDocs]. apply updateFirst_keeps; [exact Hin|].
  unfold agentMatches. cbn [q_id q_author]. rewrite andb_true_r.
  apply String.eqb_neq. intros Heq. apply (Hids a); [now left | now symmetry].
Qed.

(** The cascades of the update and the delete route write to the agents
    the store returns for the action id, by their ids: an agent whose id
    is the id of none of them is in the store afterwards exactly as it
    was. *)
Theorem cascades_touch_only_returned_agents
  (req : Req) (action_id : string) (st : Store) (other : Agent.t) :
  In other (agentDocs st) ->
  (forall a, In a (referringAgents action_id st) -> Agent.id a <> Agent.id other) ->
  In other (agentDocs (snd (put_action req action_id st))) /\
  In other (agentDocs (snd (delete_action req action_id st))).
Proof.
  intros Hin Hids. split.
  - set (metadata := encryptMetadata (removeNullishValues (body_metadata req) true)).
    destruct (storedAction action_id st) as [action|] eqn:Haction.
    2:{ now rewrite (proj1 (put_action_refuses req action_id st (or_introl Haction))). }
    destruct (body_functions req) as [|f fs] eqn:Hfs.
    { now rewrite (proj1 (put_action_refuses req action_id st (or_intror (or_introl Hfs)))). }
    destruct (isActionDomainAllowed (metadata !! "domain")) eqn:Hallowed.
    2:{ now rewrite (proj1 (put_action_refuses req action_id st
                              (or_intror (or_intror (or_introl Hallowed))))). }
    destruct (truthy (domainParser req (metadata !! "domain") true)) eqn:Htruthy.
    2:{ now rewrite (proj1 (put_action_refuses req action_id st
                              (or_intror (or_intror (or_intror Htruthy))))). }
    rewrite (put_action_runs req action_id st action Haction);
      [|rewrite Hfs; discriminate | exact Hallowed | exact Htruthy].
    cbn [snd]. now apply cascade_keeps.
  - destruct (storedAction action_id st) as [action|] eqn:Haction.
    + rewrite (delete_action_runs req action_id st action Haction). cbn [snd].
      now apply cascade_keeps.
    + now rewrite (delete_action_missing _ _ _ Haction).
Qed.

End Repeating.

(** ** The further properties on sample stores *)

Section MoreOnSamples.

Import LibreChat Samples MoreSamples.

Lemma create_checks_before_writing_witness :
  post_root (H := externals) asAlice None "new" empty =
    ({| status := 400; json := JMessage "No functions provided" |}, empty) /\
  post_root (H := closed) (withBody {[ "domain" := JString "ab.io" ]}) None "new" empty =
    ({| status := 400; json := JMessage "Domain not allowed" |}, empty) /\
  post_root (H := externals) (withBody ∅) None "new" empty =
    ({| status := 400; json := JMessage "No domain provided" |}, empty).
Proof.
  split; [|split].
  - apply (create_checks_before_writing (H := externals) asAlice None "new" empty).
    reflexivity.
  - apply (create_checks_before_writing (H := closed)
             (withBody {[ "domain" := JString "ab.io" ]}) None "new" empty).
    + discriminate.
    + reflexivity.
  - apply (create_checks_before_writing (H := externals) (withBody ∅) None "new" empty).
    + discriminate.
    + reflexivity.
    + reflexivity.
Defined.

Lemma create_stores_unsanitized_and_binds_nobody_witness :
  let req := withBody {[ "domain" := JString "ab.io"; "api_key" := JString "k" ]} in
  let run := post_root (H := externals) req None "new" unbound in
  exists stored,
    storedAction "new" (snd run) = Some stored /\
    Action.metadata stored =
      encryptMetadata (Externals := externals)
        (removeNullishValues (Externals := externals) (body_metadata req) true) /\
    Action.user stored = User.id (user req) /\
    Action.functions stored = map (fun tool => name (function tool)) (body_functions req) /\
    json (fst run) = JAction (sanitizeAction stored) /\
    agentDocs (snd run) = agentDocs unbound /\
    agentWrites (snd run) = agentWrites unbound /\
    (storedAction "new" unbound = None ->
     actionDocs (snd run) = actionDocs unbound ++ [stored] /\
     Action.agent_id stored = None).
Proof.
  intros req run.
  apply (create_stores_unsanitized_and_binds_nobody (H := externals)
           req "new" unbound (snd run) (fst run)).
  - vm_compute. reflexivity.
  - vm_compute. reflexivity.
Defined.

Lemma update_checks_before_writing_witness :
  put_action (H := externals) (withBody {[ "domain" := JString "cd.io" ]}) "zzz" unbound =
    ({| status := 404; json := JMessage "Action not found" |}, unbound) /\
  put_action (H := externals) asAlice "abc" unbound =
    ({| status := 400; json := JMessage "No functions provided" |}, unbound) /\
  put_action (H := closed) (withBody {[ "domain" := JString "cd.io" ]}) "abc" unbound =
    ({| status := 400; json := JMessage "Domain not allowed" |}, unbound) /\
  put_action (H := externals) (withBody ∅) "abc" unbound =
    ({| status := 400; json := JMessage "No domain provided" |}, unbound).
Proof.
  split; [|split; [|split]].
  - apply (update_checks_before_writing (H := externals)
             (withBody {[ "domain" := JString "cd.io" ]}) "zzz" unbound).
    reflexivity.
  - apply (update_checks_before_writing (H := externals) asAlice "abc" unbound).
    + discriminate.
    + reflexivity.
  - apply (update_checks_before_writing (H := closed)
             (withBody {[ "domain" := JString "cd.io" ]}) "abc" unbound).
    + discriminate.
    + discriminate.
    + reflexivity.
  - apply (update_checks_before_writing (H := externals) (withBody ∅) "abc" unbound).
    + discriminate.
    + discriminate.
    + reflexivity.
    + reflexivity.
Defined.

Lemma update_replaces_metadata_and_restamps_user_witness :
  let req := bobWithBody {[ "domain" := JString "cd.io" ]} in
  let run := put_action (H := externals) req "abc" unbound in
  exists old,
    storedAction "abc" unbound = Some old /\
    storedAction "abc" (snd run) =
      Some (Action.mk (Action.action_id old)
              (encryptMetadata (Externals := externals)
                 (removeNullishValues (Externals := externals) (body_metadata req) true))
              (Action.agent_id old) (User.id (user req))
              (map (fun tool => name (function tool)) (body_functions req))) /\
    (forall other, other <> "abc" ->
                   storedAction other (snd run) = storedAction other unbound) /\
    List.length (actionDocs (snd run)) = List.length (actionDocs unbound).
Proof.
  intros req run.
  apply (update_replaces_metadata_and_restamps_user (H := externals)
           req "abc" unbound (snd run) (fst run)).
  - vm_compute. reflexivity.
  - vm_compute. reflexivity.
Defined.

Lemma put_action_on_agent_witness :
  let req := bobWithBody {[ "domain" := JString "cd.io" ]} in
  exists agent',
    List.find (byId "A1") (agentDocs (snd (put_action (H := externals) req "abc" twoAgents)))
      = Some agent' /\
    actionRefs agent' =
      List.filter (fun ref => negb (includes ref "abc")) (actionRefs aliceAgent)
      ++ [encodeActionRef (H := externals) "cd---io" "abc"] /\
    refsTo "abc" (actionRefs agent') = [encodeActionRef (H := externals) "cd---io" "abc"] /\
    toolRefs agent' =
      List.filter
        (fun tool =>
           negb (truthyString tool && (includes tool "ab.io" || includes tool "abc")))
        (toolRefs aliceAgent)
      ++ map (fun tool => encodeToolRef (H := externals) (name (function tool)) "cd---io")
           (body_functions req).
Proof.
  intros req.
  assert (Honly : forall a, In a (agentDocs twoAgents) ->
                            Agent.id a = Agent.id aliceAgent -> a = aliceAgent).
  { intros a [<-|[<-|[]]] Hid; [reflexivity | discriminate]. }
  pose proof (put_action_on_agent (H := externals) req "abc" twoAgents
                (Action.mk "abc" {[ "domain" := JString "ab.io" ]} None "u-alice" ["lookup"])
                aliceAgent eq_refl ltac:(discriminate) eq_refl eq_refl
                (or_introl eq_refl) Honly eq_refl) as W.
  exact W.
Defined.

Lemma delete_removes_the_action_for_good_witness :
  let st' := snd (delete_action (H := externals) asBob "abc" bound) in
  status (fst (delete_action (H := externals) asBob "abc" bound)) = 200 /\
  storedAction "abc" st' = None /\
  (forall other, other <> "abc" -> storedAction other st' = storedAction other bound) /\
  (forall again,
     delete_action (H := externals) again "abc" st' =
       ({| status := 500; json := JMessage "Trouble deleting the Agent Action" |}, st')) /\
  (forall again,
     put_action (H := externals) again "abc" st' =
       ({| status := 404; json := JMessage "Action not found" |}, st')) /\
  (forall again agent_id,
     visibleAgent (H := externals) again agent_id st' <> None ->
     post_agent_action (H := externals) again agent_id "abc" st' =
       ({| status := 404; json := JMessage "Action not found for adding to agent" |}, st')).
Proof.
  apply (delete_removes_the_action_for_good (H := externals) asBob "abc" bound
           (Action.mk "abc" {[ "domain" := JString "ab.io"; "api_key" := JString "k" ]}
              None "u-alice" ["lookup"])).
  - reflexivity.
  - vm_compute. constructor; [intros [] | constructor].
Defined.

Lemma delete_cleans_referring_agent_witness :
  exists agent',
    List.find (byId "A1")
      (agentDocs (snd (delete_action (H := externals) asBob "abc" twoAgents))) = Some agent' /\
    Agent.author agent' = "u-alice" /\
    actionRefs agent' =
      List.filter (fun ref => negb (includes ref "abc")) (actionRefs aliceAgent) /\
    refsTo "abc" (actionRefs agent') = [] /\
    toolRefs agent' =
      List.filter
        (fun tool =>
           negb (truthyString tool && (includes tool "abc" || includes tool "ab---io")))
        (toolRefs aliceAgent) /\
    (forall tool, In tool (toolRefs agent') ->
                  tool = "" \/ (includes tool "abc" = false /\ includes tool "ab---io" = false)).
Proof.
  assert (Honly : forall a, In a (agentDocs twoAgents) ->
                            Agent.id a = Agent.id aliceAgent -> a = aliceAgent).
  { intros a [<-|[<-|[]]] Hid; [reflexivity | discriminate]. }
  exact (delete_cleans_referring_agent (H := externals) asBob "abc" twoAgents
           (Action.mk "abc" {[ "domain" := JString "ab.io" ]} None "u-alice" ["lookup"])
           aliceAgent eq_refl (or_introl eq_refl) Honly eq_refl).
Defined.

Lemma bind_installs_tools_and_drops_same_domain_witness :
  exists agent',
    visibleAgent (H := externals) asAlice "A1"
      (snd (post_agent_action (H := externals) asAlice "A1" "abc" unbound)) = Some agent' /\
    toolRefs agent' =
      List.filter
        (fun tool =>
           negb (truthyString tool && (includes tool "ab---io" || includes tool "abc")))
        (toolRefs (Agent.mk "A1" "u-alice" None None))
      ++ map (fun f => encodeToolRef (H := externals) f "ab---io") ["lookup"] /\
    (forall f, In f ["lookup"] ->
               In (encodeToolRef (H := externals) f "ab---io") (toolRefs agent')) /\
    (forall g, ~ In g ["lookup"] ->
               encodeToolRef (H := externals) g "ab---io" <> "" ->
               ~ In (encodeToolRef (H := externals) g "ab---io") (toolRefs agent')).
Proof.
  exact (bind_installs_tools_and_drops_same_domain (H := externals) asAlice "A1" "abc" unbound
           (Agent.mk "A1" "u-alice" None None)
           (Action.mk "abc" {[ "domain" := JString "ab.io"; "api_key" := JString "k" ]}
              None "u-alice" ["lookup"]) eq_refl eq_refl eq_refl).
Defined.

Lemma bind_under_empty_domain_drops_every_tool_witness :
  let agent := Agent.mk "A1" "u-alice" (Some ["x---ab---io_action_xyz"])
                 (Some ["search_action_x---ab---io"]) in
  exists agent',
    visibleAgent (H := blank) asAlice "A1"
      (snd (post_agent_action (H := blank) asAlice "A1" "abc" onlyXyz)) = Some agent' /\
    toolRefs agent' =
      List.filter (fun tool => String.eqb tool "") (toolRefs agent)
      ++ map (fun f => encodeToolRef (H := blank) f "") ["lookup"] /\
    (forall tool, In tool (toolRefs agent) -> tool <> "" ->
                  ~ In tool (map (fun f => encodeToolRef (H := blank) f "") ["lookup"]) ->
                  ~ In tool (toolRefs agent')).
Proof.
  intros agent.
  apply (bind_under_empty_domain_drops_every_tool (H := blank) asAlice "A1" "abc" onlyXyz
           agent
           (Action.mk "abc" {[ "domain" := JString "ab.io" ]} None "u-alice" ["lookup"]));
    reflexivity.
Defined.

Lemma first_token_is_the_domain_witness :
  hd_error (splitActionRef (H := externals) (encodeActionRef (H := externals) "ab---io" "abc"))
    = Some "ab---io" <->
  includes ("ab---io" +:+ init (actionDelimiter (Externals := externals)))
    (actionDelimiter (Externals := externals)) = false.
Proof.
  apply (first_token_is_the_domain (H := externals) "ab---io" "abc"). discriminate.
Defined.

Lemma unbind_removes_every_entry_but_reads_last_domain_witness :
  let agent := Agent.mk "A1" "u-alice"
                 (Some ["ab---io_action_abc"; "cd---io_action_abc"])
                 (Some ["lookup_action_ab---io"; "lookup_action_cd---io"]) in
  let run := delete_agent_action (H := externals) asAlice "A1" "abc" twice in
  status (fst run) = 200 /\
  exists agent',
    visibleAgent (H := externals) asAlice "A1" (snd run) = Some agent' /\
    actionRefs agent' =
      List.filter (fun r => negb (includes r "abc")) ["ab---io_action_abc"] ++ [] /\
    refsTo "abc" (actionRefs agent') = [] /\
    toolRefs agent' =
      List.filter (fun tool => negb (includes tool "cd---io")) (toolRefs agent) /\
    (forall tool, In tool (toolRefs agent) -> includes tool "cd---io" = false ->
                  In tool (toolRefs agent')).
Proof.
  intros agent.
  apply (unbind_removes_every_entry_but_reads_last_domain (H := externals)
           asAlice "A1" "abc" twice agent ["ab---io_action_abc"] []
           "cd---io_action_abc" "cd---io").
  - reflexivity.
  - reflexivity.
  - reflexivity.
  - intros r [].
  - reflexivity.
  - discriminate.
Defined.

Lemma unbind_with_common_substring_clears_actions_witness :
  let run := delete_agent_action (H := externals) asAlice "A1" "_action_" twoDomains in
  status (fst run) = 200 /\
  exists agent',
    visibleAgent (H := externals) asAlice "A1" (snd run) = Some agent' /\
    actionRefs agent' = [].
Proof.
  apply (unbind_with_common_substring_clears_actions (H := externals)
           asAlice "A1" "_action_" twoDomains
           (Agent.mk "A1" "u-alice"
              (Some ["ab---io_action_abc"; "x---ab---io_action_xyz"])
              (Some ["lookup_action_ab---io"; "search_action_x---ab---io"]))
           ["ab---io_action_abc"] "x---ab---io_action_xyz" "x---ab---io").
  - reflexivity.
  - reflexivity.
  - intros r [<-|[<-|[]]]; reflexivity.
  - reflexivity.
  - discriminate.
Defined.

Lemma bind_then_unbind_restores_references_witness :
  let agent := Agent.mk "A1" "u-alice" None None in
  let st1 := snd (post_agent_action (H := externals) asAlice "A1" "abc" unbound) in
  let run := delete_agent_action (H := externals) asAlice "A1" "abc" st1 in
  status (fst run) = 200 /\
  exists agent2,
    visibleAgent (H := externals) asAlice "A1" (snd run) = Some agent2 /\
    actionRefs agent2 = actionRefs agent /\
    toolRefs agent2 = toolRefs agent.
Proof.
  intros agent.
  apply (bind_then_unbind_restores_references (H := externals) asAlice "A1" "abc" unbound
           agent
           (Action.mk "abc" {[ "domain" := JString "ab.io"; "api_key" := JString "k" ]}
              None "u-alice" ["lookup"])).
  - discriminate.
  - reflexivity.
  - reflexivity.
  - discriminate.
  - reflexivity.
  - intros ref [].
  - intros tool [].
Defined.

Lemma bind_and_unbind_touch_no_other_agent_witness :
  In bobAgent (agentDocs (snd (post_agent_action (H := externals) asAlice "A1" "abc" twoAgents))) /\
  In bobAgent (agentDocs (snd (delete_agent_action (H := externals) asAlice "A1" "abc" twoAgents))).
Proof.
  apply (bind_and_unbind_touch_no_other_agent (H := externals) asAlice "A1" "abc"
           twoAgents bobAgent).
  - right. now left.
  - discriminate.
Defined.

Lemma unbind_twice_answers_400_witness :
  let run := delete_agent_action (H := externals) asAlice "A1" "abc" bound in
  delete_agent_action (H := externals) asAlice "A1" "abc" (snd run) =
    ({| status := 400; json := JMessage "No domain provided" |}, snd run).
Proof.
  intros run.
  apply (unbind_twice_answers_400 (H := externals) asAlice "A1" "abc" bound (snd run) (fst run)).
  - vm_compute. reflexivity.
  - vm_compute. reflexivity.
Defined.

Lemma cascades_touch_only_returned_agents_witness :
  let req := bobWithBody {[ "domain" := JString "cd.io" ]} in
  In bobAgent (agentDocs (snd (put_action (H := externals) req "abc" twoAgents))) /\
  In bobAgent (agentDocs (snd (delete_action (H := externals) req "abc" twoAgents))).
Proof.
  intros req.
  apply (cascades_touch_only_returned_agents (H := externals) req "abc" twoAgents bobAgent).
  - right. now left.
  - intros a Ha. vm_compute in Ha. destruct Ha as [<-|[]]. discriminate.
Defined.

Lemma bind_answers_404_or_200_witness :
  post_agent_action (H := externals) asAlice "A9" "abc" unbound =
    ({| status := 404; json := JMessage "Agent not found for adding action" |}, unbound) /\
  post_agent_action (H := externals) asAlice "A1" "zzz" unbound =
    ({| status := 404; json := JMessage "Action not found for adding to agent" |}, unbound) /\
  status (fst (post_agent_action (H := externals) asAlice "A1" "abc" unbound)) = 200.
Proof.
  split; [|split].
  - apply (bind_answers_404_or_200 (H := externals) asAlice "A9" "abc" unbound).
    reflexivity.
  - apply (bind_answers_404_or_200 (H := externals) asAlice "A1" "zzz" unbound).
    + discriminate.
    + reflexivity.
  - apply (bind_answers_404_or_200 (H := externals) asAlice "A1" "abc" unbound);
      discriminate.
Defined.

End MoreOnSamples.
